(** * home-back: the product catalogue and site-configuration gateway

    A shallow embedding of the Express handlers of [src/server.js] and of its
    later revision [src/unnamed/part_001] (same product routes, the site
    configuration moved behind [getOrCreateConfig]).

    What is modelled, and how:
    - request bodies: every field is absent ([undefined]), JSON [null] or a
      string (multipart forms only produce strings);
    - JavaScript strings: sequences of code units below 256, as [string];
      [String.prototype.trim], truthiness and [parseFloat] are written out;
    - numbers: the class of the binary64 value a decimal literal rounds to
      (NaN, an infinity, a signed zero, or a non-zero finite value kept as
      the decimal that was read);
    - the Mongoose models: the schema of the source (setters, defaults,
      validators), [findById], [findOne], [save], [findByIdAndDelete];
    - the Cloudinary calls of [safeCloudinaryDestroy]: a trace of the
      identifiers whose deletion was requested;
    - exceptions and [try]/[catch]: a state-and-exception monad.
    The [createdAt]/[updatedAt] stamps of the driver's timestamps plugin
    are left out; of the multer upload step that runs before a handler,
    the file filter and the naming of the uploads are modelled.
    [src/unnamed/part_000] is the first revision (no status paths, no
    settings): its creation and update are in [FirstRevision]. *)

From Stdlib Require Import ZArith NArith Lia List Ascii String Bool.
From stdpp Require Import base option gmap strings list sorting pretty.
Import ListNotations.

Open Scope string_scope.

(** ** JavaScript values of a request body *)

Inductive jsval :=
| JUndefined
| JNull
| JString (s : string).

(** [if (v)] : only a non-empty string is truthy here. *)
Definition truthy (v : jsval) : bool :=
  match v with
  | JString EmptyString => false
  | JString _ => true
  | _ => false
  end.

(** [v !== undefined] *)
Definition defined (v : jsval) : bool :=
  match v with
  | JUndefined => false
  | _ => true
  end.

(** ** Strings *)

(** WhiteSpace and LineTerminator code units below 256:
    TAB, LF, VT, FF, CR, SP and NBSP. *)
Definition isWhiteSpace (c : ascii) : bool :=
  let n := N_of_ascii c in
  ((9 <=? n) && (n <=? 13) || (n =? 32) || (n =? 160))%N.

Fixpoint trimStart (s : string) : string :=
  match s with
  | String c s' => if isWhiteSpace c then trimStart s' else s
  | EmptyString => EmptyString
  end.

Fixpoint trimEnd (s : string) : string :=
  match s with
  | EmptyString => EmptyString
  | String c s' =>
      match trimEnd s' with
      | EmptyString => if isWhiteSpace c then EmptyString else String c EmptyString
      | t => String c t
      end
  end.

(** [s.trim()] *)
Definition trim (s : string) : string := trimEnd (trimStart s).

(** ** Numbers *)

(** The class of a binary64 value.  [Fin neg m e] is the non-zero finite
    value nearest to [(-1)^neg * m * 10^e]. *)
Inductive jsnum :=
| NaN
| Inf (neg : bool)
| Zero (neg : bool)
| Fin (neg : bool) (m : N) (e : Z).

Definition isNaN (x : jsnum) : bool :=
  match x with
  | NaN => true
  | _ => false
  end.

(** [x >= 0] on numbers; false for NaN, true for both zeros. *)
Definition ge0 (x : jsnum) : bool :=
  match x with
  | NaN => false
  | Inf neg => negb neg
  | Zero _ => true
  | Fin neg _ _ => negb neg
  end.

Definition isFinite (x : jsnum) : bool :=
  match x with
  | Zero _ | Fin _ _ _ => true
  | _ => false
  end.

(** Rounding a decimal [m * 10^e] to nearest, ties to even: at or above
    [2^1024 - 2^970] it becomes an infinity, at or below [2^-1075] a zero. *)
Definition overflows (m : N) (e : Z) : bool :=
  let m := Z.of_N m in
  let top := (2 ^ 1024 - 2 ^ 970)%Z in
  if (0 <=? e)%Z then (top <=? m * 10 ^ e)%Z
  else (top * 10 ^ (- e) <=? m)%Z.

Definition underflows (m : N) (e : Z) : bool :=
  let m := Z.of_N m in
  if (0 <=? e)%Z then (m =? 0)%Z
  else (m * 2 ^ 1075 <=? 10 ^ (- e))%Z.

Definition roundDecimal (neg : bool) (m : N) (e : Z) : jsnum :=
  if (m =? 0)%N then Zero neg
  else if overflows m e then Inf neg
  else if underflows m e then Zero neg
  else Fin neg m e.

Definition digit_of (c : ascii) : option N :=
  let n := N_of_ascii c in
  if ((48 <=? n) && (n <=? 57))%N then Some (n - 48)%N else None.

(** The longest run of decimal digits at the front, and what follows. *)
Fixpoint take_digits (s : string) : list N * string :=
  match s with
  | String c s' =>
      match digit_of c with
      | Some d => let '(ds, r) := take_digits s' in (d :: ds, r)
      | None => ([], s)
      end
  | EmptyString => ([], EmptyString)
  end.

Definition dec_value (ds : list N) : N :=
  fold_left (fun a d => 10 * a + d)%N ds 0%N.

Definition take_sign (s : string) : bool * string :=
  match s with
  | String "+"%char t => (false, t)
  | String "-"%char t => (true, t)
  | _ => (false, s)
  end.

(** ExponentPart, when one is there in full; otherwise no exponent. *)
Definition exponent_part (s : string) : Z :=
  match s with
  | String c s' =>
      if (Ascii.eqb c "e" || Ascii.eqb c "E")%char then
        let '(neg, s'') := take_sign s' in
        match take_digits s'' with
        | ([], _) => 0%Z
        | (ds, _) =>
            let v := Z.of_N (dec_value ds) in
            if neg then (- v)%Z else v
        end
      else 0%Z
  | EmptyString => 0%Z
  end.

(** [parseFloat] of a string: leading white space is skipped, then the
    longest prefix that is a StrDecimalLiteral is read. *)
Definition parseFloat_string (s : string) : jsnum :=
  let '(neg, s) := take_sign (trimStart s) in
  if String.prefix "Infinity" s then Inf neg
  else
    let '(ip, r) := take_digits s in
    let '(fp, r) :=
      match r with
      | String "."%char t => take_digits t
      | _ => ([], r)
      end in
    match ip, fp with
    | [], [] => NaN
    | _, _ =>
        roundDecimal neg (dec_value (ip ++ fp))
          (exponent_part r - Z.of_nat (length fp))
    end.

(** [parseFloat(v)]: the argument goes through ToString first, and neither
    "undefined" nor "null" starts with a number. *)
Definition parseFloat (v : jsval) : jsnum :=
  match v with
  | JString s => parseFloat_string s
  | _ => NaN
  end.

(** ** Dates, identifiers, uploaded files *)

(** A [Date] object: a time value in milliseconds, or Invalid Date. *)
Inductive jsdate :=
| ValidDate (ms : Z)
| InvalidDate.

Definition hex_of (c : ascii) : option N :=
  let n := N_of_ascii c in
  if ((48 <=? n) && (n <=? 57))%N then Some (n - 48)%N
  else if ((97 <=? n) && (n <=? 102))%N then Some (n - 87)%N
  else if ((65 <=? n) && (n <=? 70))%N then Some (n - 55)%N
  else None.

Fixpoint hex_value (s : string) (acc : N) : option N :=
  match s with
  | EmptyString => Some acc
  | String c s' =>
      match hex_of c with
      | Some d => hex_value s' (16 * acc + d)%N
      | None => None
      end
  end.

(** The cast Mongoose applies to the [:id] route parameter: a string of 24
    hexadecimal digits, in either case, is an ObjectId (its 96-bit value);
    anything else is refused. *)
Definition castObjectId (s : string) : option N :=
  if (String.length s =? 24)%nat then hex_value s 0%N else None.

(** A file as multer-storage-cloudinary leaves it in [req.files]: [path] is
    the public URL, [filename] the Cloudinary public id. *)
Record file := { path : string; filename : string }.

(** [req.files] after [uploadImage.fields]: each field is absent or the
    array of its files. *)
Record files := {
  f_mainImage : option (list file);
  f_otherPhotos : option (list file);
}.

(** What a handler reads from outside the request and the stores. *)
Record runtime := {
  now : Z;                          (* Date.now() *)
  newObjectId : N;                  (* the _id given to a document built with new *)
  parseDate : string -> jsdate;     (* new Date(string) *)
}.

(** ** The Product model *)

(** A schema path that may be missing or null. *)
Inductive field (A : Type) :=
| Absent
| Null
| Val (a : A).
Arguments Absent {A}.
Arguments Null {A}.
Arguments Val {A} a.

Record Product := {
  name : string;
  price : jsnum;
  mainImage : string;
  mainImagePublicId : string;
  otherPhotos : list string;
  otherPhotosPublicIds : list string;
  description : field string;
  classifications : field string;
  status : field string;
  statusNote : field string;
  expectedArrival : field jsdate;
  uploadDate : Z;
}.

(** The enum of [productSchema.status]. *)
Definition statusEnum : list string :=
  ["available"; "restoring"; "on_the_way"; "out_of_stock"; "discontinued"].

(** [arr.includes(v)] for an array of strings. *)
Definition includes (l : list string) (v : jsval) : bool :=
  match v with
  | JString s => existsb (String.eqb s) l
  | _ => false
  end.

(** A String path assigned a defined body value ([null] stays [null]). *)
Definition castString (v : jsval) : field string :=
  match v with
  | JUndefined => Absent
  | JNull => Null
  | JString s => Val s
  end.

(** Assignments [product.x = v], with the schema's setters ([trim: true] on
    [name], [classifications] and [statusNote]). *)
Definition set_name (v : string) (p : Product) : Product :=
  {| name := trim v; price := price p; mainImage := mainImage p;
     mainImagePublicId := mainImagePublicId p; otherPhotos := otherPhotos p;
     otherPhotosPublicIds := otherPhotosPublicIds p;
     description := description p; classifications := classifications p;
     status := status p; statusNote := statusNote p;
     expectedArrival := expectedArrival p; uploadDate := uploadDate p |}.

Definition set_price (v : jsnum) (p : Product) : Product :=
  {| name := name p; price := v; mainImage := mainImage p;
     mainImagePublicId := mainImagePublicId p; otherPhotos := otherPhotos p;
     otherPhotosPublicIds := otherPhotosPublicIds p;
     description := description p; classifications := classifications p;
     status := status p; statusNote := statusNote p;
     expectedArrival := expectedArrival p; uploadDate := uploadDate p |}.

Definition set_description (v : jsval) (p : Product) : Product :=
  {| name := name p; price := price p; mainImage := mainImage p;
     mainImagePublicId := mainImagePublicId p; otherPhotos := otherPhotos p;
     otherPhotosPublicIds := otherPhotosPublicIds p;
     description := castString v; classifications := classifications p;
     status := status p; statusNote := statusNote p;
     expectedArrival := expectedArrival p; uploadDate := uploadDate p |}.

Definition set_classifications (v : string) (p : Product) : Product :=
  {| name := name p; price := price p; mainImage := mainImage p;
     mainImagePublicId := mainImagePublicId p; otherPhotos := otherPhotos p;
     otherPhotosPublicIds := otherPhotosPublicIds p;
     description := description p; classifications := Val (trim v);
     status := status p; statusNote := statusNote p;
     expectedArrival := expectedArrival p; uploadDate := uploadDate p |}.

Definition set_status (v : jsval) (p : Product) : Product :=
  {| name := name p; price := price p; mainImage := mainImage p;
     mainImagePublicId := mainImagePublicId p; otherPhotos := otherPhotos p;
     otherPhotosPublicIds := otherPhotosPublicIds p;
     description := description p; classifications := classifications p;
     status := castString v; statusNote := statusNote p;
     expectedArrival := expectedArrival p; uploadDate := uploadDate p |}.

Definition set_statusNote (v : string) (p : Product) : Product :=
  {| name := name p; price := price p; mainImage := mainImage p;
     mainImagePublicId := mainImagePublicId p; otherPhotos := otherPhotos p;
     otherPhotosPublicIds := otherPhotosPublicIds p;
     description := description p; classifications := classifications p;
     status := status p; statusNote := Val (trim v);
     expectedArrival := expectedArrival p; uploadDate := uploadDate p |}.

Definition set_expectedArrival (v : field jsdate) (p : Product) : Product :=
  {| name := name p; price := price p; mainImage := mainImage p;
     mainImagePublicId := mainImagePublicId p; otherPhotos := otherPhotos p;
     otherPhotosPublicIds := otherPhotosPublicIds p;
     description := description p; classifications := classifications p;
     status := status p; statusNote := statusNote p;
     expectedArrival := v; uploadDate := uploadDate p |}.

Definition set_mainImage (f : file) (p : Product) : Product :=
  {| name := name p; price := price p; mainImage := path f;
     mainImagePublicId := filename f; otherPhotos := otherPhotos p;
     otherPhotosPublicIds := otherPhotosPublicIds p;
     description := description p; classifications := classifications p;
     status := status p; statusNote := statusNote p;
     expectedArrival := expectedArrival p; uploadDate := uploadDate p |}.

Definition set_otherPhotos (fs : list file) (p : Product) : Product :=
  {| name := name p; price := price p; mainImage := mainImage p;
     mainImagePublicId := mainImagePublicId p;
     otherPhotos := map path fs;
     otherPhotosPublicIds := map filename fs;
     description := description p; classifications := classifications p;
     status := status p; statusNote := statusNote p;
     expectedArrival := expectedArrival p; uploadDate := uploadDate p |}.

(** *** Defaults on load *)

(** The schema defaults Mongoose fills in when it builds a document from a
    stored one: a stored product without a [status] path is loaded with
    ['available'] ([default: 'available']), and a later [save] writes it.
    [null] is a value and is kept; no other path that can be missing here
    has a default. *)
Definition applyDefaults (p : Product) : Product :=
  {| name := name p; price := price p; mainImage := mainImage p;
     mainImagePublicId := mainImagePublicId p; otherPhotos := otherPhotos p;
     otherPhotosPublicIds := otherPhotosPublicIds p;
     description := description p; classifications := classifications p;
     status := match status p with
               | Absent => Val "available"
               | v => v
               end;
     statusNote := statusNote p;
     expectedArrival := expectedArrival p; uploadDate := uploadDate p |}.

(** *** Validation on save *)

(** [required: true] on a String path: a non-empty string. *)
Definition requiredString (s : string) : bool :=
  negb (String.eqb s "").

(** The enum validator: run on every value but [undefined]; [null] passes. *)
Definition enumValidator (v : field string) : bool :=
  match v with
  | Val s => existsb (String.eqb s) statusEnum
  | _ => true
  end.

(** A Date path refuses Invalid Date (a cast error, reported on save). *)
Definition dateCastOk (v : field jsdate) : bool :=
  match v with
  | Val InvalidDate => false
  | _ => true
  end.

(** The schema paths of a product that fail validation, in schema order. *)
Definition invalidPaths (p : Product) : list string :=
  (if requiredString (name p) then [] else ["name"]) ++
  (if ge0 (price p) then [] else ["price"]) ++
  (if requiredString (mainImage p) then [] else ["mainImage"]) ++
  (if requiredString (mainImagePublicId p) then [] else ["mainImagePublicId"]) ++
  (if enumValidator (status p) then [] else ["status"]) ++
  (if dateCastOk (expectedArrival p) then [] else ["expectedArrival"]).

(** ** The site configuration models *)

(** [SiteConfig] of the later revision (collection [siteconfigs]). *)
Module SiteConfig.
Record t := {
  _id : N;
  landingTitle : field string;
  landingDescription : field string;
  aboutText : field string;
  servicesText : field string;
  landingBanner : string;
  landingBannerPublicId : string;
  logo : string;
  logoPublicId : string;
}.
End SiteConfig.

(** [SiteSettings] of [server.js] (collection [sitesettings]). *)
Module SiteSettings.
Record t := {
  _id : N;
  landingTitle : field string;
  landingDescription : field string;
  aboutText : field string;
  landingBanner : string;
  landingBannerPublicId : string;
  logo : string;
  logoPublicId : string;
  updatedAt : Z;
}.
End SiteSettings.

(** [default: ''] of a text path, filled in when a stored document lacks
    the path. *)
Definition text_default (v : field string) : field string :=
  match v with
  | Absent => Val ""
  | v => v
  end.

(** The defaults Mongoose fills in when it loads a [SiteConfig]. *)
Definition SiteConfig_applyDefaults (c : SiteConfig.t) : SiteConfig.t :=
  {| SiteConfig._id := SiteConfig._id c;
     SiteConfig.landingTitle := text_default (SiteConfig.landingTitle c);
     SiteConfig.landingDescription := text_default (SiteConfig.landingDescription c);
     SiteConfig.aboutText := text_default (SiteConfig.aboutText c);
     SiteConfig.servicesText := text_default (SiteConfig.servicesText c);
     SiteConfig.landingBanner := SiteConfig.landingBanner c;
     SiteConfig.landingBannerPublicId := SiteConfig.landingBannerPublicId c;
     SiteConfig.logo := SiteConfig.logo c;
     SiteConfig.logoPublicId := SiteConfig.logoPublicId c |}.

(** The defaults Mongoose fills in when it loads a [SiteSettings]. *)
Definition SiteSettings_applyDefaults (s : SiteSettings.t) : SiteSettings.t :=
  {| SiteSettings._id := SiteSettings._id s;
     SiteSettings.landingTitle := text_default (SiteSettings.landingTitle s);
     SiteSettings.landingDescription := text_default (SiteSettings.landingDescription s);
     SiteSettings.aboutText := text_default (SiteSettings.aboutText s);
     SiteSettings.landingBanner := SiteSettings.landingBanner s;
     SiteSettings.landingBannerPublicId := SiteSettings.landingBannerPublicId s;
     SiteSettings.logo := SiteSettings.logo s;
     SiteSettings.logoPublicId := SiteSettings.logoPublicId s;
     SiteSettings.updatedAt := SiteSettings.updatedAt s |}.

(** ** The world a handler runs in *)

Record world := {
  readyState : Z;                          (* mongoose.connection.readyState *)
  products : gmap N Product;               (* the products collection, by _id *)
  siteconfigs : list SiteConfig.t;         (* in natural (insertion) order *)
  sitesettings : list SiteSettings.t;
  destroyed : list string;                 (* cloudinary.uploader.destroy calls, latest first *)
}.

Definition with_products (f : gmap N Product -> gmap N Product) (w : world) : world :=
  {| readyState := readyState w; products := f (products w);
     siteconfigs := siteconfigs w; sitesettings := sitesettings w;
     destroyed := destroyed w |}.

Definition with_siteconfigs (f : list SiteConfig.t -> list SiteConfig.t) (w : world) : world :=
  {| readyState := readyState w; products := products w;
     siteconfigs := f (siteconfigs w); sitesettings := sitesettings w;
     destroyed := destroyed w |}.

Definition with_sitesettings (f : list SiteSettings.t -> list SiteSettings.t) (w : world) : world :=
  {| readyState := readyState w; products := products w;
     siteconfigs := siteconfigs w; sitesettings := f (sitesettings w);
     destroyed := destroyed w |}.

Definition with_destroyed (f : list string -> list string) (w : world) : world :=
  {| readyState := readyState w; products := products w;
     siteconfigs := siteconfigs w; sitesettings := sitesettings w;
     destroyed := f (destroyed w) |}.

(** ** Exceptions and the handler monad *)

Inductive exn :=
| TypeError                               (* a method call on null or undefined *)
| CastError (path : string)               (* a value Mongoose cannot cast *)
| ValidationError (paths : list string)   (* validation failed on save *)
| DuplicateKey.                           (* E11000 on insert *)

Inductive outcome (A : Type) :=
| Ok (a : A)
| Throw (e : exn).
Arguments Ok {A} a.
Arguments Throw {A} e.

(** An [async] computation: it may change the world, and returns or throws. *)
Definition io (A : Type) : Type := world -> outcome A * world.

#[global] Instance io_ret : MRet io := fun A a w => (Ok a, w).

#[global] Instance io_bind : MBind io := fun A B f c w =>
  match c w with
  | (Ok a, w') => f a w'
  | (Throw e, w') => (Throw e, w')
  end.

Definition throw {A} (e : exn) : io A := fun w => (Throw e, w).

Definition get_world : io world := fun w => (Ok w, w).

Definition modify (f : world -> world) : io unit := fun w => (Ok tt, f w).

(** ** Responses *)

Inductive payload :=
| ErrorBody (error : string) (details : option exn) (validStatuses : option (list string))
| ProductBody (message : option string) (id : N) (p : Product)
| MessageBody (message : string)
| ConfigBody (message : option string) (settings : SiteConfig.t)
| SettingsBody (message : option string) (settings : SiteSettings.t).

Record response := { res_status : Z; res_json : payload }.

Definition json (code : Z) (b : payload) : response :=
  {| res_status := code; res_json := b |}.

Definition error (msg : string) : payload := ErrorBody msg None None.

(** [try { body } catch (error) { handler }] around a whole handler. *)
Definition try_catch (body : io response) (handler : exn -> response)
  (w : world) : response * world :=
  match body w with
  | (Ok r, w') => (r, w')
  | (Throw e, w') => (handler e, w')
  end.

(** [checkDbConnection]: the handler runs only when the connection is ready
    ([server.js] adds a fixed [message] text to the 503 body). *)
Definition checkDbConnection (next : world -> response * world)
  (w : world) : response * world :=
  if (readyState w =? 1)%Z then next w
  else (json 503 (error "Database unavailable"), w).

(** ** Store and blob operations *)

(** [v.trim()] on a body value. *)
Definition method_trim (v : jsval) : io string :=
  match v with
  | JString s => mret (trim s)
  | _ => throw TypeError
  end.

(** [new Date(v)] *)
Definition new_Date (rt : runtime) (v : jsval) : jsdate :=
  match v with
  | JString s => parseDate rt s
  | JNull => ValidDate 0
  | JUndefined => InvalidDate
  end.

(** [arr[0]] followed by a property read. *)
Definition first_file (fs : list file) : io file :=
  match fs with
  | f :: _ => mret f
  | [] => throw TypeError
  end.

Definition safeCloudinaryDestroy (publicId : string) : io unit :=
  if negb (String.eqb publicId "") then modify (with_destroyed (cons publicId))
  else mret tt.

(** [for (const publicId of ids) await safeCloudinaryDestroy(publicId)] *)
Fixpoint destroy_all (ids : list string) : io unit :=
  match ids with
  | [] => mret tt
  | publicId :: rest => safeCloudinaryDestroy publicId ;; destroy_all rest
  end.

(** [Product.findById(id)]: the document with its key, as Mongoose loads
    it (schema defaults filled in), [null], or a cast error. *)
Definition Product_findById (id : string) : io (option (N * Product)) :=
  match castObjectId id with
  | None => throw (CastError "_id")
  | Some k =>
      w ← get_world;
      mret (match products w !! k with
            | Some p => Some (k, applyDefaults p)
            | None => None
            end)
  end.

(** [doc.save()] *)
Definition validate (p : Product) : io unit :=
  match invalidPaths p with
  | [] => mret tt
  | paths => throw (ValidationError paths)
  end.

(** on a document read from the store *)
Definition save (k : N) (p : Product) : io unit :=
  validate p ;; modify (with_products (insert k p)).

(** on a document built with [new Product] *)
Definition save_new (k : N) (p : Product) : io unit :=
  validate p ;;
  w ← get_world;
  match products w !! k with
  | Some _ => throw DuplicateKey
  | None => modify (with_products (insert k p))
  end.

(** [Product.findByIdAndDelete(id)] *)
Definition Product_findByIdAndDelete (id : string) : io unit :=
  match castObjectId id with
  | None => throw (CastError "_id")
  | Some k => modify (with_products (delete k))
  end.

(** ** Product routes *)

(** [req.body] of the product routes. *)
Module Body.
Record t := {
  name : jsval;
  price : jsval;
  description : jsval;
  classifications : jsval;
  status : jsval;
  statusNote : jsval;
  expectedArrival : jsval;
}.
End Body.

(** The object literal handed to [new Product]. *)
Record productData := {
  d_name : string;
  d_price : jsnum;
  d_mainImage : string;
  d_mainImagePublicId : string;
  d_otherPhotos : list string;
  d_otherPhotosPublicIds : list string;
  d_description : string;
  d_classifications : string;
  d_status : option string;
  d_statusNote : option string;
  d_expectedArrival : option jsdate;
}.

(** [description || ''] and the like: the string when it is truthy. *)
Definition or_empty (v : jsval) : string :=
  match v with
  | JString s => s
  | _ => ""
  end.

Definition if_truthy (v : jsval) : option string :=
  match v with
  | JString EmptyString => None
  | JString s => Some s
  | _ => None
  end.

(** [new Product(productData)]: setters run on the given paths, defaults
    fill [status] and [uploadDate]. *)
Definition new_Product (rt : runtime) (d : productData) : Product :=
  {| name := trim (d_name d);
     price := d_price d;
     mainImage := d_mainImage d;
     mainImagePublicId := d_mainImagePublicId d;
     otherPhotos := d_otherPhotos d;
     otherPhotosPublicIds := d_otherPhotosPublicIds d;
     description := Val (d_description d);
     classifications := Val (trim (d_classifications d));
     status := match d_status d with
               | Some s => Val s
               | None => Val "available"
               end;
     statusNote := match d_statusNote d with
                   | Some s => Val (trim s)
                   | None => Absent
                   end;
     expectedArrival := match d_expectedArrival d with
                        | Some t => Val t
                        | None => Absent
                        end;
     uploadDate := now rt |}.

Definition validStatuses : list string :=
  ["available"; "restoring"; "on_the_way"; "out_of_stock"; "discontinued"].

(** The [productData] literal of POST /products/upload, with the status
    paths added only when the form gives them. *)
Definition build_productData (rt : runtime) (body : Body.t)
  (mainImageFile : file) (otherPhotosFiles : list file) : productData :=
  {| d_name := trim (or_empty (Body.name body));
     d_price := parseFloat (Body.price body);
     d_mainImage := path mainImageFile;
     d_mainImagePublicId := filename mainImageFile;
     d_otherPhotos := map path otherPhotosFiles;
     d_otherPhotosPublicIds := map filename otherPhotosFiles;
     d_description := or_empty (Body.description body);
     d_classifications := trim (or_empty (Body.classifications body));
     d_status := if_truthy (Body.status body);
     d_statusNote := trim <$> if_truthy (Body.statusNote body);
     d_expectedArrival :=
       if truthy (Body.expectedArrival body)
       then Some (new_Date rt (Body.expectedArrival body))
       else None |}.

(** POST /products/upload *)
Definition create_product (rt : runtime) (body : Body.t) (files : option files)
  : world -> response * world :=
  try_catch
    (if negb (truthy (Body.name body)) then
       mret (json 400 (error "Product name is required"))
     else if negb (truthy (Body.price body)) || isNaN (parseFloat (Body.price body)) then
       mret (json 400 (error "Valid price is required"))
     else
       match files ≫= f_mainImage with
       | None => mret (json 400 (error "Main image is required"))
       | Some mainImage =>
           mainImageFile ← first_file mainImage;
           let otherPhotosFiles := default [] (files ≫= f_otherPhotos) in
           let productData := build_productData rt body mainImageFile otherPhotosFiles in
           let newProduct := new_Product rt productData in
           save_new (newObjectId rt) newProduct ;;
           mret (json 201 (ProductBody (Some "Product created successfully!")
                             (newObjectId rt) newProduct))
       end)
    (fun e => json 500 (ErrorBody "Failed to create product" (Some e) None)).

(** GET /products/:id *)
Definition get_product (id : string) : world -> response * world :=
  try_catch
    (found ← Product_findById id;
     match found with
     | None => mret (json 404 (error "Product not found"))
     | Some (k, product) => mret (json 200 (ProductBody None k product))
     end)
    (fun _ => json 500 (error "Failed to fetch product")).

(** The text and status assignments of PUT /products/:id, up to the price
    check: [None] is the early return on a price that is not a number. *)
Definition put_name (body : Body.t) (product : Product) : io Product :=
  if truthy (Body.name body) then
    n ← method_trim (Body.name body); mret (set_name n product)
  else mret product.

Definition put_price (body : Body.t) (product : Product) : option Product :=
  if defined (Body.price body) then
    let parsedPrice := parseFloat (Body.price body) in
    if isNaN parsedPrice then None else Some (set_price parsedPrice product)
  else Some product.

Definition put_description (body : Body.t) (product : Product) : Product :=
  if defined (Body.description body)
  then set_description (Body.description body) product
  else product.

Definition put_classifications (body : Body.t) (product : Product) : io Product :=
  if defined (Body.classifications body) then
    c ← method_trim (Body.classifications body); mret (set_classifications c product)
  else mret product.

(** The three status assignments, shared by PUT and PATCH. *)
Definition put_status (body : Body.t) (product : Product) : Product :=
  if defined (Body.status body)
  then set_status (Body.status body) product
  else product.

Definition put_statusNote (body : Body.t) (product : Product) : io Product :=
  if defined (Body.statusNote body) then
    n ← method_trim (Body.statusNote body); mret (set_statusNote n product)
  else mret product.

Definition put_expectedArrival (rt : runtime) (body : Body.t) (product : Product) : Product :=
  if defined (Body.expectedArrival body) then
    set_expectedArrival
      (if truthy (Body.expectedArrival body)
       then Val (new_Date rt (Body.expectedArrival body))
       else Null)
      product
  else product.

Definition put_mainImage (files : option files) (product : Product) : io Product :=
  match files ≫= f_mainImage with
  | Some mainImage =>
      safeCloudinaryDestroy (mainImagePublicId product) ;;
      mainImageFile ← first_file mainImage;
      mret (set_mainImage mainImageFile product)
  | None => mret product
  end.

Definition put_otherPhotos (files : option files) (product : Product) : io Product :=
  match files ≫= f_otherPhotos with
  | Some otherPhotosFiles =>
      destroy_all (otherPhotosPublicIds product) ;;
      mret (set_otherPhotos otherPhotosFiles product)
  | None => mret product
  end.

(** PUT /products/:id *)
Definition update_product (rt : runtime) (id : string) (body : Body.t)
  (files : option files) : world -> response * world :=
  try_catch
    (found ← Product_findById id;
     match found with
     | None => mret (json 404 (error "Product not found"))
     | Some (k, product) =>
         product ← put_name body product;
         match put_price body product with
         | None => mret (json 400 (error "Invalid price value"))
         | Some product =>
             let product := put_description body product in
             product ← put_classifications body product;
             let product := put_status body product in
             product ← put_statusNote body product;
             let product := put_expectedArrival rt body product in
             product ← put_mainImage files product;
             product ← put_otherPhotos files product;
             save k product ;;
             mret (json 200 (ProductBody (Some "Product updated successfully") k product))
         end
     end)
    (fun _ => json 500 (error "Failed to update product")).

(** PATCH /products/:id/status *)
Definition update_status (rt : runtime) (id : string) (body : Body.t)
  : world -> response * world :=
  try_catch
    (found ← Product_findById id;
     match found with
     | None => mret (json 404 (error "Product not found"))
     | Some (k, product) =>
         if truthy (Body.status body) && negb (includes validStatuses (Body.status body)) then
           mret (json 400 (ErrorBody "Invalid status" None (Some validStatuses)))
         else
           let product := put_status body product in
           product ← put_statusNote body product;
           let product := put_expectedArrival rt body product in
           save k product ;;
           mret (json 200 (ProductBody (Some "Product status updated successfully") k product))
     end)
    (fun _ => json 500 (error "Failed to update product status")).

(** DELETE /products/:id *)
Definition delete_product (id : string) : world -> response * world :=
  try_catch
    (found ← Product_findById id;
     match found with
     | None => mret (json 404 (error "Product not found"))
     | Some (k, product) =>
         safeCloudinaryDestroy (mainImagePublicId product) ;;
         destroy_all (otherPhotosPublicIds product) ;;
         Product_findByIdAndDelete id ;;
         mret (json 200 (MessageBody "Product deleted successfully"))
     end)
    (fun _ => json 500 (error "Failed to delete product")).

(** The routes as registered: [checkDbConnection] first, then the handler. *)
Definition POST_products_upload rt body files := checkDbConnection (create_product rt body files).
Definition GET_products_id id := checkDbConnection (get_product id).
Definition PUT_products_id rt id body files := checkDbConnection (update_product rt id body files).
Definition PATCH_products_id_status rt id body := checkDbConnection (update_status rt id body).
Definition DELETE_products_id id := checkDbConnection (delete_product id).

(** ** Site configuration routes (later revision) *)

(** [new SiteConfig()]: every path at its default. *)
Definition new_SiteConfig (rt : runtime) : SiteConfig.t :=
  {| SiteConfig._id := newObjectId rt;
     SiteConfig.landingTitle := Val "";
     SiteConfig.landingDescription := Val "";
     SiteConfig.aboutText := Val "";
     SiteConfig.servicesText := Val "";
     SiteConfig.landingBanner := "";
     SiteConfig.landingBannerPublicId := "";
     SiteConfig.logo := "";
     SiteConfig.logoPublicId := "" |}.

(** [SiteConfig.findOne()]: the first document in natural order, as
    Mongoose loads it (schema defaults filled in), or [null]. *)
Definition SiteConfig_findOne : io (option SiteConfig.t) :=
  w ← get_world; mret (SiteConfig_applyDefaults <$> head (siteconfigs w)).

Definition has_id (k : N) (l : list SiteConfig.t) : bool :=
  existsb (fun c => (SiteConfig._id c =? k)%N) l.

(** [config.save()] on a document built with [new]: an insert. *)
Definition SiteConfig_insert (c : SiteConfig.t) : io unit :=
  w ← get_world;
  if has_id (SiteConfig._id c) (siteconfigs w) then throw DuplicateKey
  else modify (with_siteconfigs (fun l => (l ++ [c])%list)).

(** [settings.save()] on a document read from the store: an update by [_id]. *)
Definition SiteConfig_save (c : SiteConfig.t) : io unit :=
  modify (with_siteconfigs
            (map (fun d => if (SiteConfig._id d =? SiteConfig._id c)%N then c else d))).

Definition getOrCreateConfig (rt : runtime) : io SiteConfig.t :=
  config ← SiteConfig_findOne;
  match config with
  | Some config => mret config
  | None =>
      let config := new_SiteConfig rt in
      SiteConfig_insert config ;;
      mret config
  end.

(** [req.body] of the settings routes. *)
Module SettingsBody.
Record t := {
  landingTitle : jsval;
  landingDescription : jsval;
  aboutText : jsval;
  servicesText : jsval;
}.
End SettingsBody.

(** [req.files] of PUT /settings. *)
Record settingsFiles := {
  f_landingBanner : option (list file);
  f_logo : option (list file);
}.

Definition set_landingTitle (v : jsval) (c : SiteConfig.t) : SiteConfig.t :=
  {| SiteConfig._id := SiteConfig._id c;
     SiteConfig.landingTitle := castString v;
     SiteConfig.landingDescription := SiteConfig.landingDescription c;
     SiteConfig.aboutText := SiteConfig.aboutText c;
     SiteConfig.servicesText := SiteConfig.servicesText c;
     SiteConfig.landingBanner := SiteConfig.landingBanner c;
     SiteConfig.landingBannerPublicId := SiteConfig.landingBannerPublicId c;
     SiteConfig.logo := SiteConfig.logo c;
     SiteConfig.logoPublicId := SiteConfig.logoPublicId c |}.

Definition set_landingDescription (v : jsval) (c : SiteConfig.t) : SiteConfig.t :=
  {| SiteConfig._id := SiteConfig._id c;
     SiteConfig.landingTitle := SiteConfig.landingTitle c;
     SiteConfig.landingDescription := castString v;
     SiteConfig.aboutText := SiteConfig.aboutText c;
     SiteConfig.servicesText := SiteConfig.servicesText c;
     SiteConfig.landingBanner := SiteConfig.landingBanner c;
     SiteConfig.landingBannerPublicId := SiteConfig.landingBannerPublicId c;
     SiteConfig.logo := SiteConfig.logo c;
     SiteConfig.logoPublicId := SiteConfig.logoPublicId c |}.

Definition set_aboutText (v : jsval) (c : SiteConfig.t) : SiteConfig.t :=
  {| SiteConfig._id := SiteConfig._id c;
     SiteConfig.landingTitle := SiteConfig.landingTitle c;
     SiteConfig.landingDescription := SiteConfig.landingDescription c;
     SiteConfig.aboutText := castString v;
     SiteConfig.servicesText := SiteConfig.servicesText c;
     SiteConfig.landingBanner := SiteConfig.landingBanner c;
     SiteConfig.landingBannerPublicId := SiteConfig.landingBannerPublicId c;
     SiteConfig.logo := SiteConfig.logo c;
     SiteConfig.logoPublicId := SiteConfig.logoPublicId c |}.

Definition set_servicesText (v : jsval) (c : SiteConfig.t) : SiteConfig.t :=
  {| SiteConfig._id := SiteConfig._id c;
     SiteConfig.landingTitle := SiteConfig.landingTitle c;
     SiteConfig.landingDescription := SiteConfig.landingDescription c;
     SiteConfig.aboutText := SiteConfig.aboutText c;
     SiteConfig.servicesText := castString v;
     SiteConfig.landingBanner := SiteConfig.landingBanner c;
     SiteConfig.landingBannerPublicId := SiteConfig.landingBannerPublicId c;
     SiteConfig.logo := SiteConfig.logo c;
     SiteConfig.logoPublicId := SiteConfig.logoPublicId c |}.

Definition set_landingBanner (f : file) (c : SiteConfig.t) : SiteConfig.t :=
  {| SiteConfig._id := SiteConfig._id c;
     SiteConfig.landingTitle := SiteConfig.landingTitle c;
     SiteConfig.landingDescription := SiteConfig.landingDescription c;
     SiteConfig.aboutText := SiteConfig.aboutText c;
     SiteConfig.servicesText := SiteConfig.servicesText c;
     SiteConfig.landingBanner := path f;
     SiteConfig.landingBannerPublicId := filename f;
     SiteConfig.logo := SiteConfig.logo c;
     SiteConfig.logoPublicId := SiteConfig.logoPublicId c |}.

Definition set_logo (f : file) (c : SiteConfig.t) : SiteConfig.t :=
  {| SiteConfig._id := SiteConfig._id c;
     SiteConfig.landingTitle := SiteConfig.landingTitle c;
     SiteConfig.landingDescription := SiteConfig.landingDescription c;
     SiteConfig.aboutText := SiteConfig.aboutText c;
     SiteConfig.servicesText := SiteConfig.servicesText c;
     SiteConfig.landingBanner := SiteConfig.landingBanner c;
     SiteConfig.landingBannerPublicId := SiteConfig.landingBannerPublicId c;
     SiteConfig.logo := path f;
     SiteConfig.logoPublicId := filename f |}.

(** [if (v !== undefined) settings.x = v] *)
Definition assign_if_defined (set : jsval -> SiteConfig.t -> SiteConfig.t)
  (v : jsval) (c : SiteConfig.t) : SiteConfig.t :=
  if defined v then set v c else c.

Definition settings_failed (msg : string) (e : exn) : response :=
  json 500 (ErrorBody msg (Some e) None).

(** GET /settings *)
Definition get_settings (rt : runtime) : world -> response * world :=
  try_catch
    (settings ← getOrCreateConfig rt;
     mret (json 200 (ConfigBody None settings)))
    (settings_failed "Failed to fetch site settings").

(** The image replacements of PUT /settings. *)
Definition put_landingBanner (files : option settingsFiles) (settings : SiteConfig.t)
  : io SiteConfig.t :=
  match files ≫= f_landingBanner with
  | Some landingBanner =>
      safeCloudinaryDestroy (SiteConfig.landingBannerPublicId settings) ;;
      f ← first_file landingBanner;
      mret (set_landingBanner f settings)
  | None => mret settings
  end.

Definition put_logo (files : option settingsFiles) (settings : SiteConfig.t)
  : io SiteConfig.t :=
  match files ≫= f_logo with
  | Some logo =>
      safeCloudinaryDestroy (SiteConfig.logoPublicId settings) ;;
      f ← first_file logo;
      mret (set_logo f settings)
  | None => mret settings
  end.

(** PUT /settings *)
Definition put_settings (rt : runtime) (body : SettingsBody.t)
  (files : option settingsFiles) : world -> response * world :=
  try_catch
    (settings ← getOrCreateConfig rt;
     let settings := assign_if_defined set_landingTitle (SettingsBody.landingTitle body) settings in
     let settings := assign_if_defined set_landingDescription (SettingsBody.landingDescription body) settings in
     let settings := assign_if_defined set_aboutText (SettingsBody.aboutText body) settings in
     let settings := assign_if_defined set_servicesText (SettingsBody.servicesText body) settings in
     settings ← put_landingBanner files settings;
     settings ← put_logo files settings;
     SiteConfig_save settings ;;
     mret (json 200 (ConfigBody (Some "Site settings updated successfully") settings)))
    (settings_failed "Failed to update site settings").

(** PATCH /settings/landing *)
Definition patch_landing (rt : runtime) (body : SettingsBody.t) : world -> response * world :=
  try_catch
    (settings ← getOrCreateConfig rt;
     let settings := assign_if_defined set_landingTitle (SettingsBody.landingTitle body) settings in
     let settings := assign_if_defined set_landingDescription (SettingsBody.landingDescription body) settings in
     SiteConfig_save settings ;;
     mret (json 200 (ConfigBody (Some "Landing text updated successfully") settings)))
    (settings_failed "Failed to update landing text").

(** PATCH /settings/about *)
Definition patch_about (rt : runtime) (body : SettingsBody.t) : world -> response * world :=
  try_catch
    (settings ← getOrCreateConfig rt;
     let settings := assign_if_defined set_aboutText (SettingsBody.aboutText body) settings in
     SiteConfig_save settings ;;
     mret (json 200 (ConfigBody (Some "About text updated successfully") settings)))
    (settings_failed "Failed to update about text").

(** PATCH /settings/services *)
Definition patch_services (rt : runtime) (body : SettingsBody.t) : world -> response * world :=
  try_catch
    (settings ← getOrCreateConfig rt;
     let settings := assign_if_defined set_servicesText (SettingsBody.servicesText body) settings in
     SiteConfig_save settings ;;
     mret (json 200 (ConfigBody (Some "Services text updated successfully") settings)))
    (settings_failed "Failed to update services text").

(** PATCH /settings/banner, with [req.file] of [uploadImage.single] *)
Definition patch_banner (rt : runtime) (file : option file) : world -> response * world :=
  try_catch
    (match file with
     | None => mret (json 400 (error "Landing banner image is required"))
     | Some file =>
         settings ← getOrCreateConfig rt;
         safeCloudinaryDestroy (SiteConfig.landingBannerPublicId settings) ;;
         let settings := set_landingBanner file settings in
         SiteConfig_save settings ;;
         mret (json 200 (ConfigBody (Some "Landing banner updated successfully") settings))
     end)
    (settings_failed "Failed to update landing banner").

(** PATCH /settings/logo *)
Definition patch_logo (rt : runtime) (file : option file) : world -> response * world :=
  try_catch
    (match file with
     | None => mret (json 400 (error "Logo image is required"))
     | Some file =>
         settings ← getOrCreateConfig rt;
         safeCloudinaryDestroy (SiteConfig.logoPublicId settings) ;;
         let settings := set_logo file settings in
         SiteConfig_save settings ;;
         mret (json 200 (ConfigBody (Some "Logo updated successfully") settings))
     end)
    (settings_failed "Failed to update logo").

Definition GET_settings rt := checkDbConnection (get_settings rt).
Definition PUT_settings rt body files := checkDbConnection (put_settings rt body files).
Definition PATCH_settings_landing rt body := checkDbConnection (patch_landing rt body).
Definition PATCH_settings_about rt body := checkDbConnection (patch_about rt body).
Definition PATCH_settings_services rt body := checkDbConnection (patch_services rt body).
Definition PATCH_settings_banner rt file := checkDbConnection (patch_banner rt file).
Definition PATCH_settings_logo rt file := checkDbConnection (patch_logo rt file).

(** Any request to a settings route of the later revision. *)
Inductive settingsRequest :=
| GetSettings
| PutSettings (body : SettingsBody.t) (files : option settingsFiles)
| PatchLanding (body : SettingsBody.t)
| PatchAbout (body : SettingsBody.t)
| PatchServices (body : SettingsBody.t)
| PatchBanner (file : option file)
| PatchLogo (file : option file).

Definition settings_route (rt : runtime) (r : settingsRequest) : world -> response * world :=
  match r with
  | GetSettings => GET_settings rt
  | PutSettings body files => PUT_settings rt body files
  | PatchLanding body => PATCH_settings_landing rt body
  | PatchAbout body => PATCH_settings_about rt body
  | PatchServices body => PATCH_settings_services rt body
  | PatchBanner file => PATCH_settings_banner rt file
  | PatchLogo file => PATCH_settings_logo rt file
  end.

(** ** GET /settings of [server.js] *)

Module ServerJs.

(** [new SiteSettings()] *)
Definition new_SiteSettings (rt : runtime) : SiteSettings.t :=
  {| SiteSettings._id := newObjectId rt;
     SiteSettings.landingTitle := Val "";
     SiteSettings.landingDescription := Val "";
     SiteSettings.aboutText := Val "";
     SiteSettings.landingBanner := "";
     SiteSettings.landingBannerPublicId := "";
     SiteSettings.logo := "";
     SiteSettings.logoPublicId := "";
     SiteSettings.updatedAt := now rt |}.

Definition SiteSettings_findOne : io (option SiteSettings.t) :=
  w ← get_world; mret (SiteSettings_applyDefaults <$> head (sitesettings w)).

Definition SiteSettings_insert (c : SiteSettings.t) : io unit :=
  w ← get_world;
  if existsb (fun d => (SiteSettings._id d =? SiteSettings._id c)%N) (sitesettings w)
  then throw DuplicateKey
  else modify (with_sitesettings (fun l => (l ++ [c])%list)).

Definition get_settings (rt : runtime) : world -> response * world :=
  try_catch
    (settings ← SiteSettings_findOne;
     settings ← match settings with
                | Some settings => mret settings
                | None =>
                    let settings := new_SiteSettings rt in
                    SiteSettings_insert settings ;;
                    mret settings
                end;
     mret (json 200 (SettingsBody None settings)))
    (fun _ => json 500 (error "Failed to fetch site settings")).

Definition GET_settings rt := checkDbConnection (get_settings rt).

End ServerJs.

(** ** Sample data for the worked examples *)

Definition sample_id : string := "65c1f2a3b4d5e6f7a8b9c0d1".
Definition sample_key : N := Eval vm_compute in default 0%N (castObjectId sample_id).
Definition other_id : string := "65c1f2a3b4d5e6f7a8b9c0d2".

(** A runtime whose [Date] reads one date-only string; the examples hand
    it no other. *)
Definition sample_runtime : runtime :=
  {| now := 1741305600000;
     newObjectId := sample_key + 16;
     parseDate := fun s =>
       if String.eqb s "2025-03-07" then ValidDate 1741305600000 else InvalidDate |}.

Definition sample_product : Product :=
  {| name := "Smart Plug";
     price := Fin false 1999 (-2);
     mainImage := "https://res.cloudinary.com/demo/plug.jpg";
     mainImagePublicId := "smarthome-products/plug";
     otherPhotos := ["https://res.cloudinary.com/demo/side.jpg"];
     otherPhotosPublicIds := ["smarthome-products/side"];
     description := Val "<b>Wi-Fi</b> plug";
     classifications := Val "plugs";
     status := Val "available";
     statusNote := Absent;
     expectedArrival := Absent;
     uploadDate := 1700000000000 |}.

Definition empty_world : world :=
  {| readyState := 1; products := ∅; siteconfigs := []; sitesettings := [];
     destroyed := [] |}.

Definition sample_world : world :=
  with_products (insert sample_key sample_product) empty_world.

Definition empty_body : Body.t :=
  {| Body.name := JUndefined; Body.price := JUndefined;
     Body.description := JUndefined; Body.classifications := JUndefined;
     Body.status := JUndefined; Body.statusNote := JUndefined;
     Body.expectedArrival := JUndefined |}.

Definition sample_file : file :=
  {| path := "https://res.cloudinary.com/demo/new.jpg";
     filename := "smarthome-products/new" |}.

Definition sample_files : option files :=
  Some {| f_mainImage := Some [sample_file]; f_otherPhotos := None |}.

(** A creation form with the given name, price and status. *)
Definition create_body (name price status : jsval) : Body.t :=
  {| Body.name := name; Body.price := price;
     Body.description := JUndefined; Body.classifications := JUndefined;
     Body.status := status; Body.statusNote := JUndefined;
     Body.expectedArrival := JUndefined |}.

(** ** What a successful write leaves in the store *)

(** The document PUT /products/:id saves when it gets as far as [save]:
    every path as a function of the stored document and the request. *)
Definition merged (rt : runtime) (body : Body.t) (files : option files)
  (p : Product) : Product :=
  {| name := match if_truthy (Body.name body) with
             | Some s => trim (trim s)
             | None => name p
             end;
     price := if defined (Body.price body)
              then parseFloat (Body.price body) else price p;
     mainImage := match files ≫= f_mainImage with
                  | Some (f :: _) => path f
                  | _ => mainImage p
                  end;
     mainImagePublicId := match files ≫= f_mainImage with
                          | Some (f :: _) => filename f
                          | _ => mainImagePublicId p
                          end;
     otherPhotos := match files ≫= f_otherPhotos with
                    | Some fs => map path fs
                    | None => otherPhotos p
                    end;
     otherPhotosPublicIds := match files ≫= f_otherPhotos with
                             | Some fs => map filename fs
                             | None => otherPhotosPublicIds p
                             end;
     description := if defined (Body.description body)
                    then castString (Body.description body) else description p;
     classifications := match Body.classifications body with
                        | JString s => Val (trim (trim s))
                        | _ => classifications p
                        end;
     status := if defined (Body.status body)
               then castString (Body.status body) else status (applyDefaults p);
     statusNote := match Body.statusNote body with
                   | JString s => Val (trim (trim s))
                   | _ => statusNote p
                   end;
     expectedArrival :=
       if defined (Body.expectedArrival body) then
         if truthy (Body.expectedArrival body)
         then Val (new_Date rt (Body.expectedArrival body)) else Null
       else expectedArrival p;
     uploadDate := uploadDate p |}.

(** The same for PATCH /products/:id/status. *)
Definition status_merged (rt : runtime) (body : Body.t) (p : Product) : Product :=
  {| name := name p;
     price := price p;
     mainImage := mainImage p;
     mainImagePublicId := mainImagePublicId p;
     otherPhotos := otherPhotos p;
     otherPhotosPublicIds := otherPhotosPublicIds p;
     description := description p;
     classifications := classifications p;
     status := if defined (Body.status body)
               then castString (Body.status body) else status (applyDefaults p);
     statusNote := match Body.statusNote body with
                   | JString s => Val (trim (trim s))
                   | _ => statusNote p
                   end;
     expectedArrival :=
       if defined (Body.expectedArrival body) then
         if truthy (Body.expectedArrival body)
         then Val (new_Date rt (Body.expectedArrival body)) else Null
       else expectedArrival p;
     uploadDate := uploadDate p |}.

(** A request answered 200 has saved the loaded document: if the stored
    one had no status, the schema default is written with it. *)
Definition stores_default (r : response) (p : Product) : bool :=
  (res_status r =? 200)%Z &&
  match status p with
  | Absent => true
  | _ => false
  end.

(** The invariant of the photo arrays. *)
Definition photos_aligned (p : Product) : Prop :=
  length (otherPhotos p) = length (otherPhotosPublicIds p).

(** The document store and the connection are the same in both worlds
    (the Cloudinary trace may differ). *)
Definition same_store (w w' : world) : Prop :=
  readyState w' = readyState w /\ products w' = products w /\
  siteconfigs w' = siteconfigs w /\ sitesettings w' = sitesettings w.

(** An id that is well formed and matches no product. *)
Definition unknown_id (id : string) (w : world) : Prop :=
  exists k, castObjectId id = Some k /\ products w !! k = None.

(** The body with its [status] replaced. *)
Definition with_status (v : jsval) (b : Body.t) : Body.t :=
  {| Body.name := Body.name b; Body.price := Body.price b;
     Body.description := Body.description b;
     Body.classifications := Body.classifications b;
     Body.status := v; Body.statusNote := Body.statusNote b;
     Body.expectedArrival := Body.expectedArrival b |}.

(** Update forms of the worked examples. *)
Definition bad_price_body : Body.t :=
  {| Body.name := JString "Smart Plug v2"; Body.price := JString "abc";
     Body.description := JString "new text"; Body.classifications := JUndefined;
     Body.status := JString "restoring"; Body.statusNote := JUndefined;
     Body.expectedArrival := JUndefined |}.


Definition rename_body : Body.t :=
  {| Body.name := JString " Smart Plug v2 "; Body.price := JUndefined;
     Body.description := JString ""; Body.classifications := JUndefined;
     Body.status := JUndefined; Body.statusNote := JUndefined;
     Body.expectedArrival := JString "2025-03-07" |}.

Definition broken_status_body : Body.t := with_status (JString "broken") empty_body.

Definition note_only_body : Body.t :=
  {| Body.name := JUndefined; Body.price := JUndefined;
     Body.description := JUndefined; Body.classifications := JUndefined;
     Body.status := JUndefined; Body.statusNote := JString "back soon";
     Body.expectedArrival := JUndefined |}.

(** Any request to a product route that takes part in the life of a document. *)
Inductive productRequest :=
| CreateProduct (body : Body.t) (files : option files)
| GetProduct (id : string)
| UpdateProduct (id : string) (body : Body.t) (files : option files)
| UpdateStatus (id : string) (body : Body.t)
| DeleteProduct (id : string).

Definition product_route (rt : runtime) (req : productRequest) : world -> response * world :=
  match req with
  | CreateProduct body files => POST_products_upload rt body files
  | GetProduct id => GET_products_id id
  | UpdateProduct id body files => PUT_products_id rt id body files
  | UpdateStatus id body => PATCH_products_id_status rt id body
  | DeleteProduct id => DELETE_products_id id
  end.

(** Every stored product has its photo arrays aligned. *)
Definition all_aligned (w : world) : Prop :=
  map_Forall (fun _ p => photos_aligned p) (products w).

Definition two_photos : option files :=
  Some {| f_mainImage := Some [sample_file];
          f_otherPhotos :=
            Some [ {| path := "https://res.cloudinary.com/demo/a.jpg";
                      filename := "smarthome-products/a" |};
                   {| path := "https://res.cloudinary.com/demo/b.jpg";
                      filename := "smarthome-products/b" |} ] |}.

(** The configuration collection holds exactly one document, with id [k]. *)
Definition singleton_config (w : world) (k : N) : Prop :=
  exists c, siteconfigs w = [c] /\ SiteConfig._id c = k.

Definition negative_price_body : Body.t :=
  {| Body.name := JUndefined; Body.price := JString "-5";
     Body.description := JUndefined; Body.classifications := JUndefined;
     Body.status := JUndefined; Body.statusNote := JUndefined;
     Body.expectedArrival := JUndefined |}.

(** Every stored product passes the schema's validators. *)
Definition all_valid (w : world) : Prop :=
  map_Forall (fun _ p => invalidPaths p = []) (products w).

(** The sample store behind a connection that is not ready. *)
Definition disconnected_world : world :=
  {| readyState := 0; products := products sample_world; siteconfigs := [];
     sitesettings := []; destroyed := [] |}.

(** The world after a sequence of requests, each with the runtime values
    it met. *)
Fixpoint run_products (reqs : list (runtime * productRequest)) (w : world) : world :=
  match reqs with
  | [] => w
  | (rt, req) :: rest => run_products rest (product_route rt req w).2
  end.

Fixpoint run_settings (reqs : list (runtime * settingsRequest)) (w : world) : world :=
  match reqs with
  | [] => w
  | (rt, req) :: rest => run_settings rest (settings_route rt req w).2
  end.

(** ** Listing routes *)

Inductive listPayload :=
| ListError (error : string) (validStatuses : option (list string))
| ProductsBody (products : list (N * Product)) (count : option nat).

Record listResponse := { list_status : Z; list_json : listPayload }.

(** The order of [.sort({ uploadDate: -1 })]: newest first. *)
Definition newer_first (x y : N * Product) : Prop :=
  (uploadDate y.2 <= uploadDate x.2)%Z.

#[global] Instance newer_first_dec x y : Decision (newer_first x y) :=
  Z_le_dec (uploadDate y.2) (uploadDate x.2).

(** The filter [{ status }] (an equality match), or [{}] for [None]. *)
Definition matches_filter (filter : option string) (p : Product) : bool :=
  match filter with
  | None => true
  | Some s =>
      match status p with
      | Val t => String.eqb t s
      | _ => false
      end
  end.

(** [Product.find(filter).sort({ uploadDate: -1 })], each document with its
    key: the store matches the filter against the stored documents and
    sorts them (documents of equal date come in the store's order), and
    Mongoose loads each one (schema defaults filled in). *)
Definition Product_find_sorted (filter : option string) (w : world) : list (N * Product) :=
  (fun kp => (kp.1, applyDefaults kp.2)) <$>
  merge_sort newer_first
    (List.filter (fun kp => matches_filter filter kp.2) (map_to_list (products w))).

(** GET /products, with [req.query.status] *)
Definition list_products (status : jsval) (w : world) : listResponse * world :=
  let filter := if truthy status then if_truthy status else None in
  let products := Product_find_sorted filter w in
  ({| list_status := 200; list_json := ProductsBody products None |}, w).

(** GET /products/status/:status *)
Definition list_by_status (status : string) (w : world) : listResponse * world :=
  if negb (includes validStatuses (JString status)) then
    ({| list_status := 400; list_json := ListError "Invalid status" (Some validStatuses) |}, w)
  else
    let products := Product_find_sorted (Some status) w in
    ({| list_status := 200;
        list_json := ProductsBody products (Some (length products)) |}, w).

(** [checkDbConnection] in front of a listing route. *)
Definition checkDbConnection_list (next : world -> listResponse * world)
  (w : world) : listResponse * world :=
  if (readyState w =? 1)%Z then next w
  else ({| list_status := 503; list_json := ListError "Database unavailable" None |}, w).

Definition GET_products status := checkDbConnection_list (list_products status).
Definition GET_products_status status := checkDbConnection_list (list_by_status status).

Definition older_product : Product :=
  {| name := "Old Lamp"; price := Fin false 5 0;
     mainImage := "https://res.cloudinary.com/demo/lamp.jpg";
     mainImagePublicId := "smarthome-products/lamp";
     otherPhotos := []; otherPhotosPublicIds := [];
     description := Val ""; classifications := Val "";
     status := Val "out_of_stock"; statusNote := Absent;
     expectedArrival := Absent; uploadDate := 1600000000000 |}.

Definition two_product_world : world :=
  with_products (insert (sample_key + 1)%N older_product) sample_world.

(** The key of the one document a product request may write. *)
Definition target_key (rt : runtime) (req : productRequest) : option N :=
  match req with
  | CreateProduct _ _ => Some (newObjectId rt)
  | GetProduct _ => None
  | UpdateProduct id _ _ => castObjectId id
  | UpdateStatus id _ => castObjectId id
  | DeleteProduct id => castObjectId id
  end.


(** A runtime whose next identifier is the one of the stored sample. *)
Definition colliding_runtime : runtime :=
  {| now := now sample_runtime;
     newObjectId := sample_key;
     parseDate := parseDate sample_runtime |}.

(** ** Sample data for the settings routes *)

Definition about_body : SettingsBody.t :=
  {| SettingsBody.landingTitle := JUndefined;
     SettingsBody.landingDescription := JUndefined;
     SettingsBody.aboutText := JString "We wire homes.";
     SettingsBody.servicesText := JUndefined |}.

Definition sample_config : SiteConfig.t :=
  {| SiteConfig._id := 7;
     SiteConfig.landingTitle := Val "Smart home";
     SiteConfig.landingDescription := Val "";
     SiteConfig.aboutText := Val "";
     SiteConfig.servicesText := Val "Installation";
     SiteConfig.landingBanner := "https://res.cloudinary.com/demo/banner.jpg";
     SiteConfig.landingBannerPublicId := "smarthome-products/banner";
     SiteConfig.logo := "";
     SiteConfig.logoPublicId := "" |}.

Definition config_world : world :=
  with_siteconfigs (fun _ => [sample_config]) empty_world.

(** The texts of [c'] are those of [c] as loaded: each kept, a missing one
    read as the default empty string. *)
Definition same_texts (c c' : SiteConfig.t) : Prop :=
  SiteConfig.landingTitle c' = text_default (SiteConfig.landingTitle c) /\
  SiteConfig.landingDescription c' = text_default (SiteConfig.landingDescription c) /\
  SiteConfig.aboutText c' = text_default (SiteConfig.aboutText c) /\
  SiteConfig.servicesText c' = text_default (SiteConfig.servicesText c).

(** A configuration stored before the schema had [servicesText]. *)
Definition legacy_config : SiteConfig.t :=
  {| SiteConfig._id := 7;
     SiteConfig.landingTitle := Val "Smart home";
     SiteConfig.landingDescription := Val "";
     SiteConfig.aboutText := Val "";
     SiteConfig.servicesText := Absent;
     SiteConfig.landingBanner := "https://res.cloudinary.com/demo/banner.jpg";
     SiteConfig.landingBannerPublicId := "smarthome-products/banner";
     SiteConfig.logo := "";
     SiteConfig.logoPublicId := "" |}.

Definition legacy_config_world : world :=
  with_siteconfigs (fun _ => [legacy_config]) empty_world.

(** Two configurations with the same identifier and the same images. *)
Definition same_images (c c' : SiteConfig.t) : Prop :=
  SiteConfig._id c' = SiteConfig._id c /\
  SiteConfig.landingBanner c' = SiteConfig.landingBanner c /\
  SiteConfig.landingBannerPublicId c' = SiteConfig.landingBannerPublicId c /\
  SiteConfig.logo c' = SiteConfig.logo c /\
  SiteConfig.logoPublicId c' = SiteConfig.logoPublicId c.

(** ** Upload names *)

(** [\w]: an ASCII letter, a digit or the underscore. *)
Definition isWordChar (c : ascii) : bool :=
  let n := N_of_ascii c in
  ((48 <=? n) && (n <=? 57) || (65 <=? n) && (n <=? 90)
   || (97 <=? n) && (n <=? 122) || (n =? 95))%N.

(** [s.replace(/\s+/g, '_')]: every maximal run of whitespace becomes one
    underscore; [in_run] tells that the previous code unit was whitespace. *)
Fixpoint replace_spaces (in_run : bool) (s : string) : string :=
  match s with
  | EmptyString => EmptyString
  | String c s' =>
      if isWhiteSpace c then
        if in_run then replace_spaces true s'
        else String "_" (replace_spaces true s')
      else String c (replace_spaces false s')
  end.

(** The class [[\w.-]]. *)
Definition isSafeChar (c : ascii) : bool :=
  isWordChar c || Ascii.eqb c "." || Ascii.eqb c "-".

(** [s.replace(/[^\w.-]/g, '')] *)
Fixpoint remove_unsafe (s : string) : string :=
  match s with
  | EmptyString => EmptyString
  | String c s' =>
      if isSafeChar c then String c (remove_unsafe s') else remove_unsafe s'
  end.

(** [s.split('.')[0]] *)
Fixpoint before_dot (s : string) : string :=
  match s with
  | EmptyString => EmptyString
  | String c s' => if Ascii.eqb c "." then EmptyString else String c (before_dot s')
  end.

Definition safeName (originalname : string) : string :=
  remove_unsafe (replace_spaces false originalname).

(** The [public_id] parameter of the Cloudinary storage. *)
Definition public_id (rt : runtime) (originalname : string) : string :=
  pretty (now rt) +:+ "-" +:+ before_dot (safeName originalname).

(** Every code unit of a string passes a test. *)
Fixpoint all_chars (f : ascii -> bool) (s : string) : bool :=
  match s with
  | EmptyString => true
  | String c s' => f c && all_chars f s'
  end.

(** ** The settings routes of [server.js] *)

Module ServerJsSettings.

Import SiteSettings.

(** A document in a handler: one read from the store, or one built with
    [new SiteSettings()] and not saved yet. *)
Record document := { isNew : bool; doc : SiteSettings.t }.

Definition set_landingTitle (v : jsval) (s : SiteSettings.t) : SiteSettings.t :=
  {| _id := _id s; landingTitle := castString v;
     landingDescription := landingDescription s; aboutText := aboutText s;
     landingBanner := landingBanner s; landingBannerPublicId := landingBannerPublicId s;
     logo := logo s; logoPublicId := logoPublicId s; updatedAt := updatedAt s |}.

Definition set_landingDescription (v : jsval) (s : SiteSettings.t) : SiteSettings.t :=
  {| _id := _id s; landingTitle := landingTitle s;
     landingDescription := castString v; aboutText := aboutText s;
     landingBanner := landingBanner s; landingBannerPublicId := landingBannerPublicId s;
     logo := logo s; logoPublicId := logoPublicId s; updatedAt := updatedAt s |}.

Definition set_aboutText (v : jsval) (s : SiteSettings.t) : SiteSettings.t :=
  {| _id := _id s; landingTitle := landingTitle s;
     landingDescription := landingDescription s; aboutText := castString v;
     landingBanner := landingBanner s; landingBannerPublicId := landingBannerPublicId s;
     logo := logo s; logoPublicId := logoPublicId s; updatedAt := updatedAt s |}.

Definition set_landingBanner (f : file) (s : SiteSettings.t) : SiteSettings.t :=
  {| _id := _id s; landingTitle := landingTitle s;
     landingDescription := landingDescription s; aboutText := aboutText s;
     landingBanner := path f; landingBannerPublicId := filename f;
     logo := logo s; logoPublicId := logoPublicId s; updatedAt := updatedAt s |}.

Definition set_logo (f : file) (s : SiteSettings.t) : SiteSettings.t :=
  {| _id := _id s; landingTitle := landingTitle s;
     landingDescription := landingDescription s; aboutText := aboutText s;
     landingBanner := landingBanner s; landingBannerPublicId := landingBannerPublicId s;
     logo := path f; logoPublicId := filename f; updatedAt := updatedAt s |}.

(** [settings.updatedAt = new Date()] *)
Definition set_updatedAt (rt : runtime) (s : SiteSettings.t) : SiteSettings.t :=
  {| _id := _id s; landingTitle := landingTitle s;
     landingDescription := landingDescription s; aboutText := aboutText s;
     landingBanner := landingBanner s; landingBannerPublicId := landingBannerPublicId s;
     logo := logo s; logoPublicId := logoPublicId s; updatedAt := now rt |}.

(** [if (v !== undefined) settings.x = v] *)
Definition assign_if_defined (set : jsval -> SiteSettings.t -> SiteSettings.t)
  (v : jsval) (s : SiteSettings.t) : SiteSettings.t :=
  if defined v then set v s else s.

(** [let settings = await SiteSettings.findOne();
     if (!settings) settings = new SiteSettings();] *)
Definition findOne_or_new (rt : runtime) : io document :=
  settings ← ServerJs.SiteSettings_findOne;
  mret (match settings with
        | Some settings => {| isNew := false; doc := settings |}
        | None => {| isNew := true; doc := ServerJs.new_SiteSettings rt |}
        end).

(** [settings.save()]: an insert for a new document, an update by [_id]
    for one read from the store. *)
Definition SiteSettings_save (d : document) : io unit :=
  if isNew d then ServerJs.SiteSettings_insert (doc d)
  else modify (with_sitesettings
                 (map (fun s => if (_id s =? _id (doc d))%N then doc d else s))).

Definition with_doc (f : SiteSettings.t -> SiteSettings.t) (d : document) : document :=
  {| isNew := isNew d; doc := f (doc d) |}.

Definition put_landingBanner (files : option settingsFiles) (settings : document)
  : io document :=
  match files ≫= f_landingBanner with
  | Some landingBanner =>
      safeCloudinaryDestroy (landingBannerPublicId (doc settings)) ;;
      bannerFile ← first_file landingBanner;
      mret (with_doc (set_landingBanner bannerFile) settings)
  | None => mret settings
  end.

Definition put_logo (files : option settingsFiles) (settings : document)
  : io document :=
  match files ≫= f_logo with
  | Some logo =>
      safeCloudinaryDestroy (logoPublicId (doc settings)) ;;
      logoFile ← first_file logo;
      mret (with_doc (set_logo logoFile) settings)
  | None => mret settings
  end.

(** PUT /settings *)
Definition put_settings (rt : runtime) (body : SettingsBody.t)
  (files : option settingsFiles) : world -> response * world :=
  try_catch
    (settings ← findOne_or_new rt;
     let settings := with_doc (assign_if_defined set_landingTitle
                                 (SettingsBody.landingTitle body)) settings in
     let settings := with_doc (assign_if_defined set_landingDescription
                                 (SettingsBody.landingDescription body)) settings in
     let settings := with_doc (assign_if_defined set_aboutText
                                 (SettingsBody.aboutText body)) settings in
     settings ← put_landingBanner files settings;
     settings ← put_logo files settings;
     let settings := with_doc (set_updatedAt rt) settings in
     SiteSettings_save settings ;;
     mret (json 200 (SettingsBody (Some "Site settings updated successfully")
                       (doc settings))))
    (settings_failed "Failed to update site settings").

(** PATCH /settings/landing *)
Definition patch_landing (rt : runtime) (body : SettingsBody.t) : world -> response * world :=
  try_catch
    (settings ← findOne_or_new rt;
     let settings := with_doc (assign_if_defined set_landingTitle
                                 (SettingsBody.landingTitle body)) settings in
     let settings := with_doc (assign_if_defined set_landingDescription
                                 (SettingsBody.landingDescription body)) settings in
     let settings := with_doc (set_updatedAt rt) settings in
     SiteSettings_save settings ;;
     mret (json 200 (SettingsBody (Some "Landing text updated successfully")
                       (doc settings))))
    (fun _ => json 500 (error "Failed to update landing text")).

(** PATCH /settings/about *)
Definition patch_about (rt : runtime) (body : SettingsBody.t) : world -> response * world :=
  try_catch
    (settings ← findOne_or_new rt;
     let settings := with_doc (assign_if_defined set_aboutText
                                 (SettingsBody.aboutText body)) settings in
     let settings := with_doc (set_updatedAt rt) settings in
     SiteSettings_save settings ;;
     mret (json 200 (SettingsBody (Some "About text updated successfully")
                       (doc settings))))
    (fun _ => json 500 (error "Failed to update about text")).

(** PATCH /settings/banner, with [req.file] of [uploadImage.single] *)
Definition patch_banner (rt : runtime) (file : option file) : world -> response * world :=
  try_catch
    (match file with
     | None => mret (json 400 (error "Landing banner image is required"))
     | Some file =>
         settings ← findOne_or_new rt;
         safeCloudinaryDestroy (landingBannerPublicId (doc settings)) ;;
         let settings := with_doc (set_landingBanner file) settings in
         let settings := with_doc (set_updatedAt rt) settings in
         SiteSettings_save settings ;;
         mret (json 200 (SettingsBody (Some "Landing banner updated successfully")
                           (doc settings)))
     end)
    (fun _ => json 500 (error "Failed to update landing banner")).

(** PATCH /settings/logo *)
Definition patch_logo (rt : runtime) (file : option file) : world -> response * world :=
  try_catch
    (match file with
     | None => mret (json 400 (error "Logo image is required"))
     | Some file =>
         settings ← findOne_or_new rt;
         safeCloudinaryDestroy (logoPublicId (doc settings)) ;;
         let settings := with_doc (set_logo file) settings in
         let settings := with_doc (set_updatedAt rt) settings in
         SiteSettings_save settings ;;
         mret (json 200 (SettingsBody (Some "Logo updated successfully")
                           (doc settings)))
     end)
    (fun _ => json 500 (error "Failed to update logo")).

Definition PUT_settings rt body files := checkDbConnection (put_settings rt body files).
Definition PATCH_settings_landing rt body := checkDbConnection (patch_landing rt body).
Definition PATCH_settings_about rt body := checkDbConnection (patch_about rt body).
Definition PATCH_settings_banner rt file := checkDbConnection (patch_banner rt file).
Definition PATCH_settings_logo rt file := checkDbConnection (patch_logo rt file).

(** Any request to a settings route of [server.js]. *)
Inductive request :=
| Get
| Put (body : SettingsBody.t) (files : option settingsFiles)
| PatchLanding (body : SettingsBody.t)
| PatchAbout (body : SettingsBody.t)
| PatchBanner (file : option file)
| PatchLogo (file : option file).

Definition route (rt : runtime) (r : request) : world -> response * world :=
  match r with
  | Get => ServerJs.GET_settings rt
  | Put body files => PUT_settings rt body files
  | PatchLanding body => PATCH_settings_landing rt body
  | PatchAbout body => PATCH_settings_about rt body
  | PatchBanner file => PATCH_settings_banner rt file
  | PatchLogo file => PATCH_settings_logo rt file
  end.

(** The requests in turn, each with the runtime it meets. *)
Fixpoint run (reqs : list (runtime * request)) (w : world) : world :=
  match reqs with
  | [] => w
  | (rt, r) :: rest => run rest (route rt r w).2
  end.

End ServerJsSettings.

(** ** The two revisions of the settings routes, side by side *)

(** A [SiteSettings] document and a [SiteConfig] document with the same
    texts and images (the paths the two schemas share, identifiers apart). *)
Definition same_settings (s : SiteSettings.t) (c : SiteConfig.t) : Prop :=
  SiteSettings.landingTitle s = SiteConfig.landingTitle c /\
  SiteSettings.landingDescription s = SiteConfig.landingDescription c /\
  SiteSettings.aboutText s = SiteConfig.aboutText c /\
  SiteSettings.landingBanner s = SiteConfig.landingBanner c /\
  SiteSettings.landingBannerPublicId s = SiteConfig.landingBannerPublicId c /\
  SiteSettings.logo s = SiteConfig.logo c /\
  SiteSettings.logoPublicId s = SiteConfig.logoPublicId c.

(** A world of [server.js] and a world of the later revision that show the
    same settings: the document a route would find or build is the same on
    both sides, and the same blobs have been released. *)
Definition revisions_agree (w1 w2 : world) : Prop :=
  readyState w1 = readyState w2 /\
  destroyed w1 = destroyed w2 /\
  (length (sitesettings w1) <= 1)%nat /\
  (length (siteconfigs w2) <= 1)%nat /\
  forall rt,
    same_settings (default (ServerJs.new_SiteSettings rt) (head (sitesettings w1)))
                  (default (new_SiteConfig rt) (head (siteconfigs w2))).

(** The same status, and the same settings or the same error text. *)
Definition same_answer (r1 r2 : response) : Prop :=
  res_status r1 = res_status r2 /\
  match res_json r1, res_json r2 with
  | SettingsBody m1 s, ConfigBody m2 c => m1 = m2 /\ same_settings s c
  | ErrorBody e1 _ _, ErrorBody e2 _ _ => e1 = e2
  | _, _ => False
  end.

(** A request of [server.js] as a request of the later revision. *)
Definition later (r : ServerJsSettings.request) : settingsRequest :=
  match r with
  | ServerJsSettings.Get => GetSettings
  | ServerJsSettings.Put body files => PutSettings body files
  | ServerJsSettings.PatchLanding body => PatchLanding body
  | ServerJsSettings.PatchAbout body => PatchAbout body
  | ServerJsSettings.PatchBanner file => PatchBanner file
  | ServerJsSettings.PatchLogo file => PatchLogo file
  end.

(** The document [server.js] holds in a handler can be saved: it is new and
    nothing is stored, or it was read and is the one stored. *)
Definition saveable (d : ServerJsSettings.document) (w : world) : Prop :=
  (ServerJsSettings.isNew d = true /\ sitesettings w = []) \/
  (ServerJsSettings.isNew d = false /\
   exists s, sitesettings w = [s] /\
     SiteSettings._id (ServerJsSettings.doc d) = SiteSettings._id s).

(** The two revisions in the middle of a handler: the documents they hold
    show the same settings and can be saved. *)
Definition in_handler (d : ServerJsSettings.document) (c : SiteConfig.t)
  (w1 w2 : world) : Prop :=
  revisions_agree w1 w2 /\
  same_settings (ServerJsSettings.doc d) c /\
  saveable d w1 /\
  exists c0, siteconfigs w2 = [c0] /\ SiteConfig._id c = SiteConfig._id c0.

(** ** The first revision ([src/unnamed/part_000]) *)

(** The product routes before the status paths were added.  The schema has
    no [status], [statusNote] or [expectedArrival] path and trims
    [description]; the handlers for GET and DELETE are the ones of
    [server.js], and so are the name, price, classifications and image
    steps of PUT. *)
Module FirstRevision.

(** [Product.findById(id)] under this schema: it has no [status] path, so
    a missing status gets no default and a stored one is left as it is. *)
Definition Product_findById (id : string) : io (option (N * Product)) :=
  match castObjectId id with
  | None => throw (CastError "_id")
  | Some k =>
      w ← get_world;
      mret (match products w !! k with
            | Some p => Some (k, p)
            | None => None
            end)
  end.

(** Validation on save, over the paths of this schema. *)
Definition invalidPaths (p : Product) : list string :=
  (if requiredString (name p) then [] else ["name"]) ++
  (if ge0 (price p) then [] else ["price"]) ++
  (if requiredString (mainImage p) then [] else ["mainImage"]) ++
  (if requiredString (mainImagePublicId p) then [] else ["mainImagePublicId"]).

Definition validate (p : Product) : io unit :=
  match invalidPaths p with
  | [] => mret tt
  | paths => throw (ValidationError paths)
  end.

Definition save (k : N) (p : Product) : io unit :=
  validate p ;; modify (with_products (insert k p)).

Definition save_new (k : N) (p : Product) : io unit :=
  validate p ;;
  w ← get_world;
  match products w !! k with
  | Some _ => throw DuplicateKey
  | None => modify (with_products (insert k p))
  end.

(** [description: { type: String, trim: true }] *)
Definition set_description (v : string) (p : Product) : Product :=
  {| name := name p; price := price p; mainImage := mainImage p;
     mainImagePublicId := mainImagePublicId p; otherPhotos := otherPhotos p;
     otherPhotosPublicIds := otherPhotosPublicIds p;
     description := Val (trim v); classifications := classifications p;
     status := status p; statusNote := statusNote p;
     expectedArrival := expectedArrival p; uploadDate := uploadDate p |}.

(** [new Product({ name: name.trim(), ..., description: description ?
    description.trim() : '', classifications: ... })] *)
Definition new_Product (rt : runtime) (body : Body.t)
  (mainImageFile : file) (otherPhotosFiles : list file) : Product :=
  {| name := trim (trim (or_empty (Body.name body)));
     price := parseFloat (Body.price body);
     mainImage := path mainImageFile;
     mainImagePublicId := filename mainImageFile;
     otherPhotos := map path otherPhotosFiles;
     otherPhotosPublicIds := map filename otherPhotosFiles;
     description := Val (trim (trim (or_empty (Body.description body))));
     classifications := Val (trim (trim (or_empty (Body.classifications body))));
     status := Absent;
     statusNote := Absent;
     expectedArrival := Absent;
     uploadDate := now rt |}.

(** POST /products/upload *)
Definition create_product (rt : runtime) (body : Body.t) (files : option files)
  : world -> response * world :=
  try_catch
    (if negb (truthy (Body.name body)) then
       mret (json 400 (error "Product name is required"))
     else if negb (truthy (Body.price body)) || isNaN (parseFloat (Body.price body)) then
       mret (json 400 (error "Valid price is required"))
     else
       match files ≫= f_mainImage with
       | None => mret (json 400 (error "Main image is required"))
       | Some mainImage =>
           mainImageFile ← first_file mainImage;
           let otherPhotosFiles := default [] (files ≫= f_otherPhotos) in
           let newProduct := new_Product rt body mainImageFile otherPhotosFiles in
           save_new (newObjectId rt) newProduct ;;
           mret (json 201 (ProductBody (Some "Product created successfully!")
                             (newObjectId rt) newProduct))
       end)
    (fun e => json 500 (ErrorBody "Failed to create product" (Some e) None)).

(** [if (description !== undefined) product.description = description.trim()] *)
Definition put_description (body : Body.t) (product : Product) : io Product :=
  if defined (Body.description body) then
    d ← method_trim (Body.description body); mret (set_description d product)
  else mret product.

(** PUT /products/:id *)
Definition update_product (rt : runtime) (id : string) (body : Body.t)
  (files : option files) : world -> response * world :=
  try_catch
    (found ← Product_findById id;
     match found with
     | None => mret (json 404 (error "Product not found"))
     | Some (k, product) =>
         product ← put_name body product;
         match put_price body product with
         | None => mret (json 400 (error "Invalid price value"))
         | Some product =>
             product ← put_description body product;
             product ← put_classifications body product;
             product ← put_mainImage files product;
             product ← put_otherPhotos files product;
             save k product ;;
             mret (json 200 (ProductBody (Some "Product updated successfully") k product))
         end
     end)
    (fun _ => json 500 (error "Failed to update product")).

Definition POST_products_upload rt body files := checkDbConnection (create_product rt body files).
Definition PUT_products_id rt id body files := checkDbConnection (update_product rt id body files).

End FirstRevision.

(** A form the first revision understands: no status path is given (for a
    creation, none is given a truthy value). *)
Definition no_status_fields (body : Body.t) : Prop :=
  Body.status body = JUndefined /\ Body.statusNote body = JUndefined /\
  Body.expectedArrival body = JUndefined.

(** A description that trimming leaves as it is, or none. *)
Definition description_is_trimmed (body : Body.t) : Prop :=
  match Body.description body with
  | JString s => trim s = s
  | JUndefined => True
  | JNull => False
  end.

(** A product as the first schema shows it. *)
Definition without_status (p : Product) : Product :=
  {| name := name p; price := price p; mainImage := mainImage p;
     mainImagePublicId := mainImagePublicId p; otherPhotos := otherPhotos p;
     otherPhotosPublicIds := otherPhotosPublicIds p;
     description := description p; classifications := classifications p;
     status := Absent; statusNote := Absent; expectedArrival := Absent;
     uploadDate := uploadDate p |}.

(** The sample product as the first revision stored it, without a status
    path, alone in the store. *)
Definition legacy_world : world :=
  with_products (insert sample_key (without_status sample_product)) empty_world.

(** What [server.js] makes of an answer and a store of the first revision:
    the product of the answer carries the defaults of the later schema, and
    is stored with them. *)
Definition with_defaults (r : response) : response :=
  match res_json r with
  | ProductBody m k p => json (res_status r) (ProductBody m k (applyDefaults p))
  | _ => r
  end.

Definition stored_with_defaults (r : response) (w : world) : world :=
  match res_json r with
  | ProductBody _ k p => with_products (insert k (applyDefaults p)) w
  | _ => w
  end.

(** The steps of an update on a product as loaded: the defaults stay in
    place and the calls to Cloudinary are the same. *)
Definition loaded_outcome (x : outcome Product * world) : outcome Product * world :=
  (match x.1 with Ok a => Ok (applyDefaults a) | Throw e => Throw e end, x.2).

Definition as_loaded (x : response * world) : response * world :=
  (with_defaults x.1, stored_with_defaults x.1 x.2).

(** An update form of the first revision: a new price and description. *)
Definition reprice_body : Body.t :=
  {| Body.name := JUndefined; Body.price := JString "24.99";
     Body.description := JString "Updated description";
     Body.classifications := JUndefined;
     Body.status := JUndefined; Body.statusNote := JUndefined;
     Body.expectedArrival := JUndefined |}.

(** ** The upload filter, the error middleware and the health route *)

(** An error handed to [next]: a [multer.MulterError], or any other
    [Error], with its [message]. *)
Inductive middlewareError :=
| MulterError (message : string)
| PlainError (message : string).

(** [fileFilter] of [uploadImage]: [None] when the file is accepted
    ([cb(null, true)]), the error given to [cb] otherwise. *)
Definition fileFilter (mimetype : string) : option middlewareError :=
  if String.prefix "image/" mimetype then None
  else Some (PlainError "Only image files are allowed!").

(** The error-handling middleware at the end of the chain. *)
Definition errorHandler (e : middlewareError) : response :=
  match e with
  | MulterError message => json 400 (error message)
  | PlainError message =>
      json 500 (error (if String.eqb message "" then "Something went wrong!" else message))
  end.

(** The body of GET /: the instant of [new Date()] stands for its ISO
    text, and the fixed [message] is left out. *)
Record health := {
  h_timestamp : Z;
  h_database : string;
  h_readyState : Z;
}.

Definition GET_root (rt : runtime) (w : world) : health :=
  {| h_timestamp := now rt;
     h_database := if (readyState w =? 1)%Z then "connected" else "disconnected";
     h_readyState := readyState w |}.

(** * Properties *)

(** ** Strings and numbers *)





Example trim_spaces : trim "  Smart Plug  " = "Smart Plug" /\ trim "   " = "".
Proof. split; reflexivity. Qed.

Example parseFloat_decimal : parseFloat (JString "19.99") = Fin false 1999 (-2).
Proof. reflexivity. Qed.

Example parseFloat_negative : parseFloat (JString "  -5") = Fin true 5 0.
Proof. reflexivity. Qed.

Example parseFloat_prefix : parseFloat (JString "12abc") = Fin false 12 0.
Proof. reflexivity. Qed.

Example parseFloat_exponent : parseFloat (JString "1.e3x") = Fin false 1 3.
Proof. reflexivity. Qed.

Example parseFloat_not_a_number :
  parseFloat (JString "abc") = NaN /\ parseFloat (JString "") = NaN /\
  parseFloat (JString ".") = NaN /\ parseFloat JNull = NaN.
Proof. repeat split. Qed.

Example parseFloat_infinity :
  parseFloat (JString "Infinity") = Inf false /\
  parseFloat (JString "-Infinity") = Inf true /\
  parseFloat (JString "1.7976931348623159e308") = Inf false /\
  parseFloat (JString "1.7976931348623158e308") = Fin false 17976931348623158 292.
Proof. repeat split; vm_compute; reflexivity. Qed.

Example parseFloat_underflow : parseFloat (JString "-1e-400") = Zero true.
Proof. vm_compute. reflexivity. Qed.

Example castObjectId_examples :
  castObjectId sample_id = Some sample_key /\
  castObjectId "65C1F2A3B4D5E6F7A8B9C0D1" = Some sample_key /\
  castObjectId "abc" = None /\
  castObjectId "65c1f2a3b4d5e6f7a8b9c0dz" = None.
Proof. repeat split. Qed.

(** ** Running the monad *)

Lemma same_store_refl w : same_store w w.
Proof. repeat split. Qed.

Lemma same_store_trans w1 w2 w3 :
  same_store w1 w2 -> same_store w2 w3 -> same_store w1 w3.
Proof. unfold same_store. intuition congruence. Qed.

Lemma same_store_insert k p w w1 :
  same_store w w1 ->
  same_store (with_products (insert k p) w) (with_products (insert k p) w1).
Proof. unfold same_store. simpl. intuition congruence. Qed.

Lemma bind_run {A B} (c : io A) (f : A -> io B) w :
  (c ≫= f) w =
  match c w with
  | (Ok a, w') => f a w'
  | (Throw e, w') => (Throw e, w')
  end.
Proof. reflexivity. Qed.

Lemma checkDbConnection_ready next w :
  readyState w = 1%Z -> checkDbConnection next w = next w.
Proof. intros H. unfold checkDbConnection. rewrite H. reflexivity. Qed.

Lemma checkDbConnection_down next w :
  readyState w <> 1%Z ->
  checkDbConnection next w = (json 503 (error "Database unavailable"), w).
Proof.
  intros H. unfold checkDbConnection.
  destruct (Z.eqb_spec (readyState w) 1); [contradiction|reflexivity].
Qed.

Lemma safeCloudinaryDestroy_run publicId w :
  exists w', safeCloudinaryDestroy publicId w = (Ok tt, w') /\ same_store w w'.
Proof.
  unfold safeCloudinaryDestroy. destruct (negb _).
  - eexists. split; [reflexivity|]. repeat split.
  - exists w. split; [reflexivity|apply same_store_refl].
Qed.

Lemma destroy_all_run ids w :
  exists w', destroy_all ids w = (Ok tt, w') /\ same_store w w'.
Proof.
  revert w. induction ids as [|i ids IH]; intros w.
  - exists w. split; [reflexivity|apply same_store_refl].
  - change (destroy_all (i :: ids)) with (safeCloudinaryDestroy i ;; destroy_all ids).
    rewrite bind_run.
    destruct (safeCloudinaryDestroy_run i w) as (w1 & -> & H1).
    destruct (IH w1) as (w2 & -> & H2).
    exists w2. split; [reflexivity|]. eapply same_store_trans; eassumption.
Qed.

Lemma Product_findById_run id w :
  Product_findById id w =
  match castObjectId id with
  | None => (Throw (CastError "_id"), w)
  | Some k =>
      (Ok (match products w !! k with
           | Some p => Some (k, applyDefaults p)
           | None => None
           end), w)
  end.
Proof. unfold Product_findById. destruct (castObjectId id); reflexivity. Qed.

Lemma save_run k p w :
  save k p w =
  match invalidPaths p with
  | [] => (Ok tt, with_products (insert k p) w)
  | paths => (Throw (ValidationError paths), w)
  end.
Proof. unfold save, validate. rewrite bind_run. destruct (invalidPaths p); reflexivity. Qed.

Lemma save_new_run k p w :
  save_new k p w =
  match invalidPaths p with
  | [] =>
      match products w !! k with
      | Some _ => (Throw DuplicateKey, w)
      | None => (Ok tt, with_products (insert k p) w)
      end
  | paths => (Throw (ValidationError paths), w)
  end.
Proof.
  unfold save_new, validate.
  destruct (invalidPaths p); [|reflexivity].
  unfold mbind, io_bind, mret, io_ret, get_world.
  destruct (products w !! k); reflexivity.
Qed.

Lemma put_name_run body p w :
  put_name body p w =
  (Ok (if truthy (Body.name body)
       then set_name (trim (or_empty (Body.name body))) p else p), w).
Proof. unfold put_name. destruct (Body.name body) as [| |[|c s]]; reflexivity. Qed.

Lemma put_classifications_run body p w :
  put_classifications body p w =
  match Body.classifications body with
  | JUndefined => (Ok p, w)
  | JNull => (Throw TypeError, w)
  | JString s => (Ok (set_classifications (trim s) p), w)
  end.
Proof. unfold put_classifications. destruct (Body.classifications body); reflexivity. Qed.

Lemma put_statusNote_run body p w :
  put_statusNote body p w =
  match Body.statusNote body with
  | JUndefined => (Ok p, w)
  | JNull => (Throw TypeError, w)
  | JString s => (Ok (set_statusNote (trim s) p), w)
  end.
Proof. unfold put_statusNote. destruct (Body.statusNote body); reflexivity. Qed.

Lemma put_mainImage_run files p w :
  exists w1, same_store w w1 /\
    put_mainImage files p w =
    (match files ≫= f_mainImage with
     | Some [] => Throw TypeError
     | Some (f :: _) => Ok (set_mainImage f p)
     | None => Ok p
     end, w1).
Proof.
  unfold put_mainImage. destruct (files ≫= f_mainImage) as [l|].
  - rewrite bind_run.
    destruct (safeCloudinaryDestroy_run (mainImagePublicId p) w) as (w1 & -> & H1).
    exists w1. split; [exact H1|]. destruct l; reflexivity.
  - exists w. split; [apply same_store_refl|reflexivity].
Qed.

Lemma put_otherPhotos_run files p w :
  exists w1, same_store w w1 /\
    put_otherPhotos files p w =
    (Ok (match files ≫= f_otherPhotos with
         | Some fs => set_otherPhotos fs p
         | None => p
         end), w1).
Proof.
  unfold put_otherPhotos. destruct (files ≫= f_otherPhotos) as [l|].
  - rewrite bind_run.
    destruct (destroy_all_run (otherPhotosPublicIds p) w) as (w1 & -> & H1).
    exists w1. split; [exact H1|reflexivity].
  - exists w. split; [apply same_store_refl|reflexivity].
Qed.

(** One step of a handler body: unfold the bind, or run the next call. *)
Ltac io_step :=
  match goal with
  | |- context [put_name _ _ _] => rewrite put_name_run
  | |- context [put_classifications _ _ _] => rewrite put_classifications_run
  | |- context [put_statusNote _ _ _] => rewrite put_statusNote_run
  | |- context [save _ _ _] => rewrite save_run
  | |- context [save_new _ _ _] => rewrite save_new_run
  | |- context [put_mainImage ?f ?p ?w] =>
      let w1 := fresh "w" in let H := fresh "Hs" in let E := fresh "E" in
      destruct (put_mainImage_run f p w) as (w1 & H & E); rewrite E; clear E
  | |- context [put_otherPhotos ?f ?p ?w] =>
      let w1 := fresh "w" in let H := fresh "Hs" in let E := fresh "E" in
      destruct (put_otherPhotos_run f p w) as (w1 & H & E); rewrite E; clear E
  | |- context [(_ ≫= _) _] => rewrite bind_run
  end.

(** ** The product routes on a document that exists *)

(** PUT /products/:id on a stored document ends in one of three ways: the
    early 400 on a price that is not a number, the 500 of the catch branch,
    or a save of [merged]. *)
Lemma update_product_found rt id body files w k p r w' :
  castObjectId id = Some k -> products w !! k = Some p ->
  update_product rt id body files w = (r, w') ->
  (r = json 400 (error "Invalid price value") /\ w' = w /\
     defined (Body.price body) && isNaN (parseFloat (Body.price body)) = true)
  \/ (r = json 500 (error "Failed to update product") /\ same_store w w' /\
     defined (Body.price body) && isNaN (parseFloat (Body.price body)) = false)
  \/ (r = json 200 (ProductBody (Some "Product updated successfully") k
                     (merged rt body files p)) /\
     invalidPaths (merged rt body files p) = [] /\
     same_store (with_products (insert k (merged rt body files p)) w) w' /\
     defined (Body.price body) && isNaN (parseFloat (Body.price body)) = false).
Proof.
  intros Hid Hp. unfold update_product, try_catch.
  rewrite bind_run, Product_findById_run, Hid, Hp.
  io_step. io_step.
  unfold put_price.
  destruct (defined (Body.price body)) eqn:Edef;
    [destruct (isNaN (parseFloat (Body.price body))) eqn:Enan|]; simpl andb.
  { intros [= <- <-]. left. auto. }
  all: repeat io_step.
  all: destruct (Body.classifications body) as [| |c] eqn:Ec;
    [|intros [= <- <-]; right; left; repeat split; reflexivity|].
  all: repeat io_step.
  all: destruct (Body.statusNote body) as [| |sn] eqn:Esn;
    [|intros [= <- <-]; right; left; repeat split; reflexivity|].
  all: repeat io_step.
  all: destruct (files ≫= f_mainImage) as [[|f l]|] eqn:Em;
    [intros [= <- <-]; right; left; repeat split; apply Hs| |].
  all: repeat io_step.
  all: destruct (files ≫= f_otherPhotos) as [fs|] eqn:Eo.
  all: match goal with
       | |- context [invalidPaths ?P] =>
           assert (P = merged rt body files p) as ->
             by (unfold merged, put_expectedArrival, put_status, put_description;
                 rewrite ?Edef, ?Ec, ?Esn, ?Em, ?Eo;
                 destruct p; destruct (Body.name body) as [| |[|]];
                 destruct (defined (Body.description body)),
                   (defined (Body.status body)),
                   (defined (Body.expectedArrival body)); reflexivity)
       end.
  all: destruct (invalidPaths (merged rt body files p)) eqn:Ev; intros [= <- <-].
  all: first
    [ right; right; repeat split;
      solve [ apply same_store_insert; eapply same_store_trans; eassumption
            | apply Hs | apply Hs0
            | destruct Hs as (?&?&?&?), Hs0 as (?&?&?&?); simpl; congruence ]
    | right; left; repeat split;
      destruct Hs as (?&?&?&?), Hs0 as (?&?&?&?); simpl; congruence ].
Qed.

(** PATCH /products/:id/status on a stored document: the 400 of the status
    check, the 500 of the catch branch, or a save of [status_merged]. *)
Lemma update_status_found rt id body w k p r w' :
  castObjectId id = Some k -> products w !! k = Some p ->
  update_status rt id body w = (r, w') ->
  (r = json 400 (ErrorBody "Invalid status" None (Some validStatuses)) /\ w' = w /\
     truthy (Body.status body) && negb (includes validStatuses (Body.status body)) = true)
  \/ (r = json 500 (error "Failed to update product status") /\ w' = w /\
     truthy (Body.status body) && negb (includes validStatuses (Body.status body)) = false)
  \/ (r = json 200 (ProductBody (Some "Product status updated successfully") k
                     (status_merged rt body p)) /\
     invalidPaths (status_merged rt body p) = [] /\
     w' = with_products (insert k (status_merged rt body p)) w /\
     truthy (Body.status body) && negb (includes validStatuses (Body.status body)) = false).
Proof.
  intros Hid Hp. unfold update_status, try_catch.
  rewrite bind_run, Product_findById_run, Hid, Hp.
  destruct (truthy (Body.status body) && negb (includes validStatuses (Body.status body))) eqn:Eg.
  { intros [= <- <-]. left. auto. }
  repeat io_step.
  destruct (Body.statusNote body) as [| |sn] eqn:Esn;
    [|intros [= <- <-]; right; left; repeat split; reflexivity|].
  all: repeat io_step.
  all: match goal with
       | |- context [invalidPaths ?P] =>
           assert (P = status_merged rt body p) as ->
             by (unfold status_merged, put_expectedArrival, put_status;
                 rewrite ?Esn; destruct p;
                 destruct (defined (Body.status body)),
                   (defined (Body.expectedArrival body)); reflexivity)
       end.
  all: destruct (invalidPaths (status_merged rt body p)) eqn:Ev; intros [= <- <-].
  all: first [ right; right; repeat split; reflexivity
             | right; left; repeat split; reflexivity ].
Qed.

(** DELETE /products/:id, by what the lookup finds. *)
Lemma delete_product_run id w r w' :
  delete_product id w = (r, w') ->
  match castObjectId id with
  | None => r = json 500 (error "Failed to delete product") /\ w' = w
  | Some k =>
      match products w !! k with
      | None => r = json 404 (error "Product not found") /\ w' = w
      | Some p =>
          r = json 200 (MessageBody "Product deleted successfully") /\
          same_store (with_products (delete k) w) w'
      end
  end.
Proof.
  unfold delete_product, try_catch.
  rewrite bind_run, Product_findById_run.
  destruct (castObjectId id) as [k|] eqn:Hid; [|intros [= <- <-]; auto].
  destruct (products w !! k) as [p|] eqn:Hp; [|intros [= <- <-]; auto].
  rewrite bind_run. cbn [applyDefaults mainImagePublicId otherPhotosPublicIds].
  destruct (safeCloudinaryDestroy_run (mainImagePublicId p) w) as (w1 & -> & H1).
  rewrite bind_run.
  destruct (destroy_all_run (otherPhotosPublicIds p) w1) as (w2 & -> & H2).
  rewrite bind_run. unfold Product_findByIdAndDelete. rewrite Hid.
  intros [= <- <-]. split; [reflexivity|].
  destruct H1 as (?&?&?&?), H2 as (?&?&?&?). repeat split; simpl; congruence.
Qed.

(** GET /products/:id never changes the world. *)
Lemma get_product_run id w :
  get_product id w =
  (match castObjectId id with
   | None => json 500 (error "Failed to fetch product")
   | Some k =>
       match products w !! k with
       | None => json 404 (error "Product not found")
       | Some p => json 200 (ProductBody None k (applyDefaults p))
       end
   end, w).
Proof.
  unfold get_product, try_catch. rewrite bind_run, Product_findById_run.
  destruct (castObjectId id) as [k|]; [|reflexivity].
  destruct (products w !! k); reflexivity.
Qed.

(** POST /products/upload ends in a 400 or a 500 that leave the world as it
    was, or in the insertion of the new document. *)
Lemma create_product_run rt body files w r w' :
  create_product rt body files w = (r, w') ->
  (res_status r = 400%Z /\ w' = w)
  \/ (res_status r = 500%Z /\ w' = w)
  \/ (exists f l,
        files ≫= f_mainImage = Some (f :: l) /\
        let p := new_Product rt
                   (build_productData rt body f (default [] (files ≫= f_otherPhotos))) in
        r = json 201 (ProductBody (Some "Product created successfully!") (newObjectId rt) p) /\
        invalidPaths p = [] /\
        products w !! newObjectId rt = None /\
        w' = with_products (insert (newObjectId rt) p) w /\
        truthy (Body.name body) = true /\
        truthy (Body.price body) = true /\
        isNaN (parseFloat (Body.price body)) = false).
Proof.
  unfold create_product, try_catch.
  destruct (truthy (Body.name body)) eqn:En; cbn [negb orb];
    [|intros [= <- <-]; left; auto].
  destruct (truthy (Body.price body)) eqn:Ep; cbn [negb orb];
    [|intros [= <- <-]; left; auto].
  destruct (isNaN (parseFloat (Body.price body))) eqn:Enan;
    [intros [= <- <-]; left; auto|].
  destruct (files ≫= f_mainImage) as [[|f l]|] eqn:Em;
    [ intros [= <- <-]; right; left; auto | | intros [= <- <-]; left; auto].
  rewrite bind_run. cbn [first_file]. cbv beta iota zeta.
  change ((mret f : io file) w) with (Ok f, w). cbv beta iota.
  repeat io_step.
  destruct (invalidPaths _) eqn:Ev; [|intros [= <- <-]; right; left; auto].
  destruct (products w !! newObjectId rt) eqn:Ek; intros [= <- <-].
  - right; left; auto.
  - right; right. exists f, l. split; [reflexivity|]. cbv zeta.
    repeat split; auto.
Qed.

(** ** Validation and the lookups that fail *)

Lemma invalidPaths_nil p :
  invalidPaths p = [] ->
  requiredString (name p) = true /\ ge0 (price p) = true /\
  requiredString (mainImage p) = true /\ requiredString (mainImagePublicId p) = true /\
  enumValidator (status p) = true /\ dateCastOk (expectedArrival p) = true.
Proof.
  unfold invalidPaths.
  destruct (requiredString (name p)), (ge0 (price p)), (requiredString (mainImage p)),
    (requiredString (mainImagePublicId p)), (enumValidator (status p)),
    (dateCastOk (expectedArrival p)); simpl; intros H; try discriminate H; auto 10.
Qed.

Lemma update_product_malformed rt id body files w :
  castObjectId id = None ->
  update_product rt id body files w = (json 500 (error "Failed to update product"), w).
Proof.
  intros H. unfold update_product, try_catch.
  rewrite bind_run, Product_findById_run, H. reflexivity.
Qed.

Lemma update_product_missing rt id body files w k :
  castObjectId id = Some k -> products w !! k = None ->
  update_product rt id body files w = (json 404 (error "Product not found"), w).
Proof.
  intros H1 H2. unfold update_product, try_catch.
  rewrite bind_run, Product_findById_run, H1, H2. reflexivity.
Qed.

Lemma update_status_malformed rt id body w :
  castObjectId id = None ->
  update_status rt id body w = (json 500 (error "Failed to update product status"), w).
Proof.
  intros H. unfold update_status, try_catch.
  rewrite bind_run, Product_findById_run, H. reflexivity.
Qed.

Lemma update_status_missing rt id body w k :
  castObjectId id = Some k -> products w !! k = None ->
  update_status rt id body w = (json 404 (error "Product not found"), w).
Proof.
  intros H1 H2. unfold update_status, try_catch.
  rewrite bind_run, Product_findById_run, H1, H2. reflexivity.
Qed.

(** ** The photo arrays *)

Lemma map_aligned (fs : list file) : length (map path fs) = length (map filename fs).
Proof. rewrite !length_map. reflexivity. Qed.

Lemma merged_aligned rt body files p :
  photos_aligned p -> photos_aligned (merged rt body files p).
Proof.
  unfold photos_aligned, merged. simpl. intros H.
  destruct (files ≫= f_otherPhotos) as [fs|]; [apply map_aligned|exact H].
Qed.

Lemma checkDbConnection_cases next w :
  checkDbConnection next w = next w \/
  checkDbConnection next w = (json 503 (error "Database unavailable"), w).
Proof. unfold checkDbConnection. destruct (_ =? _)%Z; auto. Qed.

Lemma product_route_aligned rt req w :
  all_aligned w -> all_aligned (product_route rt req w).2.
Proof.
  intros Hw. unfold product_route, POST_products_upload, GET_products_id,
    PUT_products_id, PATCH_products_id_status, DELETE_products_id.
  destruct req as [body files | id | id body files | id body | id].
  all: match goal with
       | |- context [checkDbConnection ?h ?w0] =>
           destruct (checkDbConnection_cases h w0) as [-> | ->]; [|exact Hw]
       end.
  - destruct (create_product rt body files w) as [r w'] eqn:E.
    destruct (create_product_run _ _ _ _ _ _ E)
      as [(_ & ->) | [(_ & ->) | (f & l & _ & _ & _ & _ & -> & _)]];
      [exact Hw|exact Hw|].
    simpl. apply map_Forall_insert_2; [|exact Hw].
    unfold photos_aligned. simpl. apply map_aligned.
  - rewrite get_product_run. exact Hw.
  - destruct (castObjectId id) as [k|] eqn:Hid;
      [destruct (products w !! k) as [p|] eqn:Hp|].
    + destruct (update_product rt id body files w) as [r w'] eqn:E.
      destruct (update_product_found _ _ _ _ _ _ _ _ _ Hid Hp E)
        as [(_ & -> & _) | [(_ & (_ & Hst & _) & _) | (_ & _ & (_ & Hst & _) & _)]].
      * exact Hw.
      * unfold all_aligned. simpl. rewrite Hst. exact Hw.
      * unfold all_aligned. simpl. rewrite Hst. simpl.
        apply map_Forall_insert_2; [|exact Hw].
        apply merged_aligned. exact (Hw k p Hp).
    + rewrite (update_product_missing _ _ _ _ _ _ Hid Hp). exact Hw.
    + rewrite (update_product_malformed _ _ _ _ _ Hid). exact Hw.
  - destruct (castObjectId id) as [k|] eqn:Hid;
      [destruct (products w !! k) as [p|] eqn:Hp|].
    + destruct (update_status rt id body w) as [r w'] eqn:E.
      destruct (update_status_found _ _ _ _ _ _ _ _ Hid Hp E)
        as [(_ & -> & _) | [(_ & -> & _) | (_ & _ & -> & _)]]; [exact Hw|exact Hw|].
      unfold all_aligned. simpl. apply map_Forall_insert_2; [|exact Hw].
      exact (Hw k p Hp).
    + rewrite (update_status_missing _ _ _ _ _ Hid Hp). exact Hw.
    + rewrite (update_status_malformed _ _ _ _ Hid). exact Hw.
  - destruct (delete_product id w) as [r w'] eqn:E.
    apply delete_product_run in E.
    destruct (castObjectId id) as [k|]; [destruct (products w !! k) as [p|]|].
    + destruct E as (_ & _ & Hst & _). unfold all_aligned. simpl. rewrite Hst. simpl.
      apply map_Forall_delete. exact Hw.
    + destruct E as [_ ->]. exact Hw.
    + destruct E as [_ ->]. exact Hw.
Qed.

(** ** The configuration singleton *)

Lemma getOrCreateConfig_found rt w c l :
  siteconfigs w = c :: l ->
  getOrCreateConfig rt w = (Ok (SiteConfig_applyDefaults c), w).
Proof.
  intros H. unfold getOrCreateConfig, SiteConfig_findOne.
  unfold mbind, io_bind, mret, io_ret, get_world.
  rewrite H. reflexivity.
Qed.

Lemma getOrCreateConfig_created rt w :
  siteconfigs w = [] ->
  getOrCreateConfig rt w
  = (Ok (new_SiteConfig rt), with_siteconfigs (fun _ => [new_SiteConfig rt]) w).
Proof.
  intros H. unfold getOrCreateConfig, SiteConfig_findOne, SiteConfig_insert.
  unfold mbind, io_bind, mret, io_ret, get_world, modify, with_siteconfigs.
  repeat (rewrite H; simpl). reflexivity.
Qed.

Lemma assign_if_defined_id set v c :
  (forall v c, SiteConfig._id (set v c) = SiteConfig._id c) ->
  SiteConfig._id (assign_if_defined set v c) = SiteConfig._id c.
Proof. intros H. unfold assign_if_defined. destruct (defined v); [apply H|reflexivity]. Qed.

Lemma same_store_singleton w w' k :
  same_store w w' -> singleton_config w k -> singleton_config w' k.
Proof. intros (_ & _ & H & _) (c & Hc & Hk). exists c. rewrite H. auto. Qed.


Lemma put_landingBanner_run files c w :
  exists w1, same_store w w1 /\
    put_landingBanner files c w =
    (match files ≫= f_landingBanner with
     | Some [] => Throw TypeError
     | Some (f :: _) => Ok (set_landingBanner f c)
     | None => Ok c
     end, w1).
Proof.
  unfold put_landingBanner. destruct (files ≫= f_landingBanner) as [l|].
  - rewrite bind_run.
    destruct (safeCloudinaryDestroy_run (SiteConfig.landingBannerPublicId c) w)
      as (w1 & -> & H1).
    exists w1. split; [exact H1|]. destruct l; reflexivity.
  - exists w. split; [apply same_store_refl|reflexivity].
Qed.

Lemma put_logo_run files c w :
  exists w1, same_store w w1 /\
    put_logo files c w =
    (match files ≫= f_logo with
     | Some [] => Throw TypeError
     | Some (f :: _) => Ok (set_logo f c)
     | None => Ok c
     end, w1).
Proof.
  unfold put_logo. destruct (files ≫= f_logo) as [l|].
  - rewrite bind_run.
    destruct (safeCloudinaryDestroy_run (SiteConfig.logoPublicId c) w)
      as (w1 & -> & H1).
    exists w1. split; [exact H1|]. destruct l; reflexivity.
  - exists w. split; [apply same_store_refl|reflexivity].
Qed.

(** Saving a document with the id of the only stored one keeps it the only one. *)
Lemma save_keeps_singleton c' w k (r : response) msg :
  singleton_config w k -> SiteConfig._id c' = k ->
  singleton_config
    (let (o, w') := (SiteConfig_save c' ≫= λ _ : (), mret r) w in
     match o with
     | Ok r => (r, w')
     | Throw e => (settings_failed msg e, w')
     end).2 k.
Proof.
  intros (c & Hc & Hk) Hid. exists c'. split; [|exact Hid].
  simpl. rewrite Hc. simpl. rewrite Hid, Hk, N.eqb_refl. reflexivity.
Qed.

(** After [getOrCreateConfig] the collection holds exactly the document it
    returns (as loaded, with the defaults filled in), when it held at most
    one before. *)
Lemma getOrCreateConfig_run rt w :
  (length (siteconfigs w) <= 1)%nat ->
  exists c c0 w1,
    getOrCreateConfig rt w = (Ok c, w1) /\
    c = SiteConfig_applyDefaults c0 /\
    siteconfigs w1 = [c0] /\
    (forall d, siteconfigs w = [d] -> c0 = d).
Proof.
  intros Hlen. destruct (siteconfigs w) as [|d [|d' l]] eqn:E.
  - exists (new_SiteConfig rt), (new_SiteConfig rt),
      (with_siteconfigs (fun _ => [new_SiteConfig rt]) w).
    split; [apply getOrCreateConfig_created; exact E|].
    split; [reflexivity|]. split; [reflexivity|]. intros d' [=].
  - exists (SiteConfig_applyDefaults d), d, w.
    split; [eapply getOrCreateConfig_found; exact E|].
    split; [reflexivity|]. split; [exact E|]. intros d' [= <-]. reflexivity.
  - simpl in Hlen. lia.
Qed.

(** A settings route either changes nothing, or leaves exactly one document,
    with the identifier of the one [getOrCreateConfig] returned. *)
Lemma settings_route_core rt req w :
  (length (siteconfigs w) <= 1)%nat ->
  (settings_route rt req w).2 = w \/
  exists c w1,
    getOrCreateConfig rt w = (Ok c, w1) /\
    singleton_config (settings_route rt req w).2 (SiteConfig._id c).
Proof.
  intros Hlen.
  unfold settings_route, GET_settings, PUT_settings, PATCH_settings_landing,
    PATCH_settings_about, PATCH_settings_services, PATCH_settings_banner,
    PATCH_settings_logo.
  destruct req as [ | body files | body | body | body | file | file ].
  all: match goal with
       | |- context [checkDbConnection ?h ?w0] =>
           destruct (checkDbConnection_cases h w0) as [-> | ->]; [|left; reflexivity]
       end.
  all: unfold get_settings, put_settings, patch_landing, patch_about, patch_services,
         patch_banner, patch_logo, try_catch.
  all: try (destruct file as [file|]; [|left; reflexivity]).
  all: destruct (getOrCreateConfig_run rt w Hlen) as (c & c0 & w1 & Hg & Hcd & Hc & _).
  all: right; exists c, w1; split; [exact Hg|].
  all: rewrite bind_run, Hg; cbv zeta.
  all: assert (singleton_config w1 (SiteConfig._id c)) as Hs
    by (exists c0; split; [exact Hc|rewrite Hcd; reflexivity]).
  all: clear Hcd Hc.
  - exact Hs.
  - set (c1 := assign_if_defined set_servicesText _ _).
    assert (SiteConfig._id c1 = SiteConfig._id c) as Hc1.
    { unfold c1. rewrite !assign_if_defined_id by reflexivity. reflexivity. }
    clearbody c1.
    rewrite bind_run.
    destruct (put_landingBanner_run files c1 w1) as (w2 & H1 & ->).
    destruct (files ≫= f_landingBanner) as [[|f l]|].
    1: simpl; eapply same_store_singleton; eassumption.
    all: rewrite bind_run.
    all: match goal with
         | |- context [put_logo ?fl ?c0 ?ww] =>
             destruct (put_logo_run fl c0 ww) as (w3 & H2 & ->)
         end.
    all: destruct (files ≫= f_logo) as [[|f' l']|].
    all: try (simpl; eapply same_store_singleton; [|exact Hs];
              eapply same_store_trans; eassumption).
    all: apply save_keeps_singleton;
      [ eapply same_store_singleton; [|exact Hs];
        eapply same_store_trans; eassumption
      | simpl; exact Hc1 ].
  - apply save_keeps_singleton; [exact Hs|].
    rewrite !assign_if_defined_id by reflexivity. reflexivity.
  - apply save_keeps_singleton; [exact Hs|].
    rewrite !assign_if_defined_id by reflexivity. reflexivity.
  - apply save_keeps_singleton; [exact Hs|].
    rewrite !assign_if_defined_id by reflexivity. reflexivity.
  - rewrite bind_run.
    destruct (safeCloudinaryDestroy_run (SiteConfig.landingBannerPublicId c) w1)
      as (w2 & -> & H1).
    apply save_keeps_singleton; [|reflexivity].
    eapply same_store_singleton; eassumption.
  - rewrite bind_run.
    destruct (safeCloudinaryDestroy_run (SiteConfig.logoPublicId c) w1)
      as (w2 & -> & H1).
    apply save_keeps_singleton; [|reflexivity].
    eapply same_store_singleton; eassumption.
Qed.

Lemma settings_route_singleton rt req w k :
  singleton_config w k -> singleton_config (settings_route rt req w).2 k.
Proof.
  intros Hw. pose proof Hw as (d & Hd & Hk).
  destruct (settings_route_core rt req w) as [-> | (c & w1 & Hg & Hs)].
  - rewrite Hd. simpl. lia.
  - exact Hw.
  - rewrite (getOrCreateConfig_found _ _ _ _ Hd) in Hg.
    injection Hg as <- <-. simpl in Hs. rewrite Hk in Hs. exact Hs.
Qed.

Lemma settings_route_at_most_one rt req w :
  (length (siteconfigs w) <= 1)%nat ->
  (length (siteconfigs (settings_route rt req w).2) <= 1)%nat.
Proof.
  intros Hlen.
  destruct (settings_route_core rt req w Hlen) as [-> | (c & w1 & _ & c' & -> & _)].
  - exact Hlen.
  - simpl. lia.
Qed.

(** The invariants along any sequence of requests, by induction on it. *)
Lemma run_products_aligned reqs w :
  all_aligned w -> all_aligned (run_products reqs w).
Proof.
  revert w. induction reqs as [|[rt req] reqs IH]; intros w Hw; simpl.
  - exact Hw.
  - apply IH. apply product_route_aligned. exact Hw.
Qed.

Lemma run_settings_at_most_one reqs w :
  (length (siteconfigs w) <= 1)%nat ->
  (length (siteconfigs (run_settings reqs w)) <= 1)%nat.
Proof.
  revert w. induction reqs as [|[rt req] reqs IH]; intros w Hw; simpl.
  - exact Hw.
  - apply IH. apply settings_route_at_most_one. exact Hw.
Qed.

Lemma run_settings_singleton reqs w k :
  singleton_config w k -> singleton_config (run_settings reqs w) k.
Proof.
  revert w. induction reqs as [|[rt req] reqs IH]; intros w Hw; simpl.
  - exact Hw.
  - apply IH. apply settings_route_singleton. exact Hw.
Qed.

Lemma not_in_enum s :
  ~ In s validStatuses -> existsb (String.eqb s) statusEnum = false.
Proof.
  intros H. destruct (existsb (String.eqb s) statusEnum) eqn:E; [|reflexivity].
  apply existsb_exists in E as (x & Hx & Heq).
  apply String.eqb_eq in Heq. subst x. contradiction.
Qed.

(** * The claims *)




(** C2, counterexample: a creation form whose [status] is the empty string
    is accepted (201) and the product gets the default status; one whose
    status is "broken" is refused with 500, not 400. *)
Lemma create_with_empty_status_or_invalid :
  (let '(r, w') := POST_products_upload sample_runtime
                     (create_body (JString "Plug") (JString "19.99") (JString ""))
                     sample_files empty_world in
   res_status r = 201%Z /\
   status <$> products w' !! newObjectId sample_runtime = Some (Val "available")) /\
  (let '(r, w') := POST_products_upload sample_runtime
                     (create_body (JString "Plug") (JString "19.99") (JString "broken"))
                     sample_files empty_world in
   res_status r = 500%Z /\ w' = empty_world).
Proof. vm_compute. repeat split. Qed.

(** C2, amended. On a ready connection, for a non-empty status [s] outside
    the five values: PATCH /products/:id/status on a stored product answers
    400 with the list of valid statuses and changes nothing; POST
    /products/upload does not answer 201 and changes nothing; PUT
    /products/:id does not answer 200 and leaves every product as it was.
    On POST an empty-string status counts as not supplied. *)
Theorem invalid_status_is_never_written rt s w :
  readyState w = 1%Z -> s <> "" -> ~ In s validStatuses ->
  (forall id body k p,
      castObjectId id = Some k -> products w !! k = Some p ->
      Body.status body = JString s ->
      PATCH_products_id_status rt id body w
      = (json 400 (ErrorBody "Invalid status" None (Some validStatuses)), w)) /\
  (forall body files,
      Body.status body = JString s ->
      let '(r, w') := POST_products_upload rt body files w in
      res_status r <> 201%Z /\ w' = w) /\
  (forall id body files,
      Body.status body = JString s ->
      let '(r, w') := PUT_products_id rt id body files w in
      res_status r <> 200%Z /\ products w' = products w) /\
  (forall body files,
      Body.status body = JString "" ->
      POST_products_upload rt body files w
      = POST_products_upload rt (with_status JUndefined body) files w).
Proof.
  intros Hr Hs Hin.
  unfold PATCH_products_id_status, POST_products_upload, PUT_products_id.
  pose proof (not_in_enum s Hin) as Henum.
  assert (forall p, status p = Val s -> invalidPaths p <> []) as Hbad.
  { intros p Hp Hv. apply invalidPaths_nil in Hv as (_ & _ & _ & _ & Hv & _).
    rewrite Hp in Hv. unfold enumValidator in Hv. rewrite Henum in Hv. discriminate Hv. }
  split; [|split; [|split]].
  - intros id body k p Hid Hp Hb.
    rewrite checkDbConnection_ready by exact Hr.
    destruct (update_status rt id body w) as [r w'] eqn:E.
    destruct (update_status_found _ _ _ _ _ _ _ _ Hid Hp E)
      as [(-> & -> & _) | [(_ & _ & Hg) | (_ & _ & _ & Hg)]]; [reflexivity| |].
    all: rewrite Hb in Hg; unfold includes in Hg;
      change validStatuses with statusEnum in Hg; rewrite Henum in Hg;
      destruct s; [contradiction|discriminate Hg].
  - intros body files Hb.
    rewrite checkDbConnection_ready by exact Hr.
    destruct (create_product rt body files w) as [r w'] eqn:E.
    destruct (create_product_run _ _ _ _ _ _ E)
      as [(Hc & ->) | [(Hc & ->) | (f & l & _ & _ & Hv & _)]].
    1,2: split; [rewrite Hc; discriminate|reflexivity].
    exfalso. revert Hv. apply Hbad. simpl. rewrite Hb.
    destruct s; [contradiction|reflexivity].
  - intros id body files Hb.
    rewrite checkDbConnection_ready by exact Hr.
    destruct (castObjectId id) as [k|] eqn:Hid;
      [destruct (products w !! k) as [p|] eqn:Hp|].
    + destruct (update_product rt id body files w) as [r w'] eqn:E.
      destruct (update_product_found _ _ _ _ _ _ _ _ _ Hid Hp E)
        as [(-> & -> & _) | [(-> & (_ & Hst & _) & _) | (_ & Hv & _)]].
      * split; [discriminate|reflexivity].
      * split; [discriminate|exact Hst].
      * exfalso. revert Hv. apply Hbad. simpl. rewrite Hb. reflexivity.
    + rewrite (update_product_missing _ _ _ _ _ _ Hid Hp).
      split; [discriminate|reflexivity].
    + rewrite (update_product_malformed _ _ _ _ _ Hid).
      split; [discriminate|reflexivity].
  - intros body files Hb.
    rewrite !checkDbConnection_ready by exact Hr.
    unfold create_product, build_productData, with_status.
    destruct body; simpl in *. subst. reflexivity.
Qed.

Lemma invalid_status_is_never_written_witness :
  PATCH_products_id_status sample_runtime sample_id broken_status_body sample_world
  = (json 400 (ErrorBody "Invalid status" None (Some validStatuses)), sample_world) /\
  products (PUT_products_id sample_runtime sample_id broken_status_body None sample_world).2
  = products sample_world.
Proof.
  assert (~ In "broken" validStatuses) as Hin
    by (simpl; intros [H|[H|[H|[H|[H|[]]]]]]; discriminate H).
  assert ("broken" <> "") as Hne by discriminate.
  destruct (invalid_status_is_never_written sample_runtime "broken" sample_world
              eq_refl Hne Hin) as (Hpatch & _ & Hput & _).
  split.
  - apply (Hpatch sample_id broken_status_body sample_key sample_product); reflexivity.
  - specialize (Hput sample_id broken_status_body None eq_refl).
    destruct (PUT_products_id sample_runtime sample_id broken_status_body None sample_world).
    apply Hput.
Defined.

(** C3, at the failing input: a creation form whose name is three spaces,
    with a valid price and a main image, passes the [!name] check, fails the
    schema's required-name validator on save, and is answered 500 (the
    claim says 400); nothing is stored.  A missing or empty name is
    answered 400. *)
Theorem create_whitespace_name_is_500 :
  POST_products_upload sample_runtime
    (create_body (JString "   ") (JString "19.99") JUndefined) sample_files empty_world
  = (json 500 (ErrorBody "Failed to create product" (Some (ValidationError ["name"])) None),
     empty_world) /\
  POST_products_upload sample_runtime
    (create_body (JString "") (JString "19.99") JUndefined) sample_files empty_world
  = (json 400 (error "Product name is required"), empty_world) /\
  POST_products_upload sample_runtime
    (create_body JUndefined (JString "19.99") JUndefined) sample_files empty_world
  = (json 400 (error "Product name is required"), empty_world).
Proof. repeat split. Qed.

(** C4, at the failing inputs: a negative price passes the handler's NaN
    check and is refused by the schema's [min: 0] on save, so the answer is
    500 on creation and on update (the claim says 400), nothing being
    written; the price "Infinity" is not NaN and not below 0, so the
    creation is accepted and a product with an infinite price is stored. *)
Theorem negative_price_is_500_infinite_price_is_stored :
  POST_products_upload sample_runtime
    (create_body (JString "Plug") (JString "-5") JUndefined) sample_files empty_world
  = (json 500 (ErrorBody "Failed to create product" (Some (ValidationError ["price"])) None),
     empty_world) /\
  PUT_products_id sample_runtime sample_id negative_price_body None sample_world
  = (json 500 (error "Failed to update product"), sample_world) /\
  (let '(r, w') := POST_products_upload sample_runtime
                     (create_body (JString "Plug") (JString "Infinity") JUndefined)
                     sample_files empty_world in
   res_status r = 201%Z /\
   price <$> products w' !! newObjectId sample_runtime = Some (Inf false) /\
   isFinite (parseFloat (JString "Infinity")) = false).
Proof. repeat split. Qed.

(** C5. The photo arrays are aligned: the product a creation request
    returns with 201 is the stored one, and its [otherPhotos] and
    [otherPhotosPublicIds] are the URLs and the public ids of the same list
    of uploaded files, in order (so of equal length); a PUT on an aligned
    product leaves it aligned, and when it answers 200 with other photos
    uploaded both arrays are rebuilt from that one file list; every
    product route keeps every stored product aligned, so after any
    sequence of requests on a store that began empty every stored product
    is aligned. *)
Theorem photo_arrays_stay_aligned rt :
  (forall body files w,
      let '(r, w') := POST_products_upload rt body files w in
      res_status r = 201%Z ->
      exists p,
        res_json r = ProductBody (Some "Product created successfully!") (newObjectId rt) p /\
        products w' !! newObjectId rt = Some p /\
        otherPhotos p = map path (default [] (files ≫= f_otherPhotos)) /\
        otherPhotosPublicIds p = map filename (default [] (files ≫= f_otherPhotos)) /\
        photos_aligned p) /\
  (forall id body files w k p,
      readyState w = 1%Z ->
      castObjectId id = Some k -> products w !! k = Some p ->
      photos_aligned p ->
      let '(r, w') := PUT_products_id rt id body files w in
      exists p',
        products w' !! k = Some p' /\ photos_aligned p' /\
        (res_status r = 200%Z ->
           res_json r = ProductBody (Some "Product updated successfully") k p' /\
           forall fs, files ≫= f_otherPhotos = Some fs ->
             otherPhotos p' = map path fs /\ otherPhotosPublicIds p' = map filename fs)) /\
  (forall req w, all_aligned w -> all_aligned (product_route rt req w).2) /\
  (forall reqs w, products w = ∅ -> all_aligned (run_products reqs w)).
Proof.
  split; [|split; [|split]].
  - intros body files w. unfold POST_products_upload.
    destruct (checkDbConnection_cases (create_product rt body files) w) as [-> | ->];
      [|discriminate].
    destruct (create_product rt body files w) as [r w'] eqn:E.
    destruct (create_product_run _ _ _ _ _ _ E)
      as [(Hc & _) | [(Hc & _) | (f & l & _ & -> & _ & _ & -> & _)]].
    1,2: rewrite Hc; discriminate.
    intros _. eexists. split; [reflexivity|]. simpl.
    split; [apply lookup_insert_eq|].
    split; [reflexivity|]. split; [reflexivity|].
    unfold photos_aligned. simpl. apply map_aligned.
  - intros id body files w k p Hr Hid Hp Hal. unfold PUT_products_id.
    rewrite checkDbConnection_ready by exact Hr.
    destruct (update_product rt id body files w) as [r w'] eqn:E.
    destruct (update_product_found _ _ _ _ _ _ _ _ _ Hid Hp E)
      as [(-> & -> & _) | [(-> & (_ & Hst & _) & _) | (-> & _ & (_ & Hst & _) & _)]].
    + exists p. repeat split; try assumption; discriminate.
    + exists p. rewrite Hst. repeat split; try assumption; discriminate.
    + exists (merged rt body files p). rewrite Hst. simpl.
      split; [apply lookup_insert_eq|].
      split; [apply merged_aligned; exact Hal|].
      intros _. split; [reflexivity|]. intros fs ->. split; reflexivity.
  - intros req w. apply product_route_aligned.
  - intros reqs w He. apply run_products_aligned.
    unfold all_aligned. rewrite He. apply map_Forall_empty.
Qed.

Lemma photo_arrays_stay_aligned_witness :
  (exists p,
     products (POST_products_upload sample_runtime
                 (create_body (JString "Smart Plug") (JString "19.99") JUndefined)
                 two_photos empty_world).2 !! newObjectId sample_runtime = Some p /\
     otherPhotos p = ["https://res.cloudinary.com/demo/a.jpg";
                      "https://res.cloudinary.com/demo/b.jpg"] /\
     otherPhotosPublicIds p = ["smarthome-products/a"; "smarthome-products/b"]) /\
  (exists p',
     products (PUT_products_id sample_runtime sample_id empty_body two_photos
                 sample_world).2 !! sample_key = Some p' /\
     photos_aligned p').
Proof.
  destruct (photo_arrays_stay_aligned sample_runtime) as (Hpost & Hput & _ & _).
  split.
  - specialize (Hpost (create_body (JString "Smart Plug") (JString "19.99") JUndefined)
                  two_photos empty_world).
    assert (res_status
              (POST_products_upload sample_runtime
                 (create_body (JString "Smart Plug") (JString "19.99") JUndefined)
                 two_photos empty_world).1 = 201%Z) as Hok by reflexivity.
    destruct (POST_products_upload sample_runtime _ two_photos empty_world) as [r w'].
    destruct (Hpost Hok) as (p & _ & Hp & Ha & Hb & _).
    exists p. simpl. split; [exact Hp|]. split; [exact Ha|exact Hb].
  - specialize (Hput sample_id empty_body two_photos sample_world sample_key
                  sample_product eq_refl eq_refl eq_refl eq_refl).
    destruct (PUT_products_id sample_runtime sample_id empty_body two_photos sample_world)
      as [r w'].
    destruct Hput as (p' & Hp' & Hal & _). exists p'. simpl. split; assumption.
Defined.

(** C6. The configuration is a singleton: on a ready connection, from a
    store with no configuration document, two successive GET /settings
    both answer 200 with the same document (the defaults, with the
    identifier given at the first call), and the store then holds exactly
    that document, the second call changing nothing; this holds for the
    handler of [server.js] and for the one built on [getOrCreateConfig].
    Once a single document is stored, [getOrCreateConfig] returns it (as
    loaded, a missing text read as its default) and changes nothing, and
    any sequence of requests to the settings routes leaves a single
    document with that identifier; from a store with no document, no
    sequence of such requests leaves more than one. *)
Theorem settings_singleton rt1 rt2 w :
  readyState w = 1%Z ->
  (siteconfigs w = [] ->
   let '(r1, w1) := GET_settings rt1 w in
   let '(r2, w2) := GET_settings rt2 w1 in
   r1 = json 200 (ConfigBody None (new_SiteConfig rt1)) /\
   r2 = json 200 (ConfigBody None (new_SiteConfig rt1)) /\
   siteconfigs w1 = [new_SiteConfig rt1] /\
   w2 = w1) /\
  (sitesettings w = [] ->
   let '(r1, w1) := ServerJs.GET_settings rt1 w in
   let '(r2, w2) := ServerJs.GET_settings rt2 w1 in
   r1 = json 200 (SettingsBody None (ServerJs.new_SiteSettings rt1)) /\
   r2 = json 200 (SettingsBody None (ServerJs.new_SiteSettings rt1)) /\
   sitesettings w1 = [ServerJs.new_SiteSettings rt1] /\
   w2 = w1) /\
  (forall c, siteconfigs w = [c] ->
     getOrCreateConfig rt1 w = (Ok (SiteConfig_applyDefaults c), w) /\
     forall reqs, exists c',
       siteconfigs (run_settings reqs w) = [c'] /\
       SiteConfig._id c' = SiteConfig._id c) /\
  (forall reqs, siteconfigs w = [] ->
     (length (siteconfigs (run_settings reqs w)) <= 1)%nat).
Proof.
  intros Hr. split; [|split; [|split]].
  - intros He. unfold GET_settings.
    rewrite checkDbConnection_ready by exact Hr.
    unfold get_settings, try_catch.
    rewrite bind_run, (getOrCreateConfig_created _ _ He).
    change ((mret (json 200 (ConfigBody None (new_SiteConfig rt1))) : io response)
              (with_siteconfigs (λ _, [new_SiteConfig rt1]) w))
      with (Ok (json 200 (ConfigBody None (new_SiteConfig rt1))),
            with_siteconfigs (λ _, [new_SiteConfig rt1]) w).
    cbv iota beta.
    rewrite checkDbConnection_ready by exact Hr.
    rewrite bind_run, (getOrCreateConfig_found rt2 _ (new_SiteConfig rt1) []) by reflexivity.
    repeat split.
  - intros He. unfold ServerJs.GET_settings.
    rewrite checkDbConnection_ready by exact Hr.
    unfold ServerJs.get_settings, try_catch, ServerJs.SiteSettings_findOne,
      ServerJs.SiteSettings_insert.
    unfold mbind, io_bind, mret, io_ret, get_world, modify, with_sitesettings.
    repeat (rewrite He; simpl).
    rewrite checkDbConnection_ready by exact Hr.
    simpl. repeat split.
  - intros c Hc. split; [apply (getOrCreateConfig_found _ _ _ _ Hc)|].
    intros reqs.
    destruct (run_settings_singleton reqs w (SiteConfig._id c)) as (c' & H1 & H2).
    + exists c. auto.
    + exists c'. auto.
  - intros reqs He. apply run_settings_at_most_one. rewrite He. simpl. lia.
Qed.

Lemma settings_singleton_witness :
  (GET_settings sample_runtime empty_world).1
    = json 200 (ConfigBody None (new_SiteConfig sample_runtime)) /\
  siteconfigs (GET_settings sample_runtime empty_world).2
    = [new_SiteConfig sample_runtime] /\
  GET_settings sample_runtime (GET_settings sample_runtime empty_world).2
    = (json 200 (ConfigBody None (new_SiteConfig sample_runtime)),
       (GET_settings sample_runtime empty_world).2).
Proof.
  destruct (settings_singleton sample_runtime sample_runtime empty_world eq_refl)
    as (H & _ & _ & _).
  specialize (H eq_refl).
  destruct (GET_settings sample_runtime empty_world) as [r1 w1].
  cbn [fst snd].
  destruct (GET_settings sample_runtime w1) as [r2 w2].
  destruct H as (-> & -> & -> & ->). repeat split.
Defined.

(** C7, counterexample: a product stored without a status path (as the
    first revision stored it) and a body with only [statusNote]: the route
    answers 200 and the stored status goes from none to ['available'], the
    schema default filled in on load and written by [save]; the product,
    which GET /products/status/available did not list, is listed after. *)
Lemma patch_note_only_writes_default_status :
  status <$> products legacy_world !! sample_key = Some Absent /\
  (let '(r, w') := PATCH_products_id_status sample_runtime sample_id note_only_body
                     legacy_world in
   res_status r = 200%Z /\
   status <$> products w' !! sample_key = Some (Val "available") /\
   list_json (GET_products_status "available" legacy_world).1 = ProductsBody [] (Some 0%nat) /\
   exists p', list_json (GET_products_status "available" w').1
              = ProductsBody [(sample_key, p')] (Some 1%nat)).
Proof.
  vm_compute. split; [reflexivity|]. split; [reflexivity|].
  split; [reflexivity|]. split; [reflexivity|]. eexists. reflexivity.
Qed.

(** C7, amended. Frame of PATCH /products/:id/status: on a ready
    connection, for every stored product and every body, the stored
    document afterwards has the same name, price, images, description,
    classifications and uploadDate; [statusNote] and [expectedArrival] are
    unchanged when the body leaves them out, and so is [status], but for a
    product stored without one, where a request answered 200 writes the
    schema default ['available']; no other product and no configuration
    document changes. *)
Theorem patch_status_frame rt id body w k p :
  readyState w = 1%Z ->
  castObjectId id = Some k -> products w !! k = Some p ->
  let '(r, w') := PATCH_products_id_status rt id body w in
  exists p',
    products w' !! k = Some p' /\
    name p' = name p /\ price p' = price p /\
    mainImage p' = mainImage p /\ mainImagePublicId p' = mainImagePublicId p /\
    otherPhotos p' = otherPhotos p /\
    otherPhotosPublicIds p' = otherPhotosPublicIds p /\
    description p' = description p /\ classifications p' = classifications p /\
    uploadDate p' = uploadDate p /\
    (Body.status body = JUndefined ->
       status p' = if stores_default r p then Val "available" else status p) /\
    (Body.statusNote body = JUndefined -> statusNote p' = statusNote p) /\
    (Body.expectedArrival body = JUndefined -> expectedArrival p' = expectedArrival p) /\
    (forall k', k' <> k -> products w' !! k' = products w !! k') /\
    siteconfigs w' = siteconfigs w /\ sitesettings w' = sitesettings w.
Proof.
  intros Hr Hid Hp. unfold PATCH_products_id_status.
  rewrite checkDbConnection_ready by exact Hr.
  destruct (update_status rt id body w) as [r w'] eqn:E.
  destruct (update_status_found _ _ _ _ _ _ _ _ Hid Hp E)
    as [(-> & -> & _) | [(-> & -> & _) | (-> & _ & -> & _)]].
  1,2: exists p; repeat split; auto.
  exists (status_merged rt body p). simpl.
  split; [apply lookup_insert_eq|].
  repeat split; try reflexivity.
  - intros ->. unfold stores_default. simpl. destruct (status p); reflexivity.
  - intros ->. reflexivity.
  - intros ->. reflexivity.
  - intros k' Hk. apply lookup_insert_ne. congruence.
Qed.

Lemma patch_status_frame_witness :
  (exists p',
     products (PATCH_products_id_status sample_runtime sample_id note_only_body
                 sample_world).2 !! sample_key = Some p' /\
     status p' = Val "available" /\ expectedArrival p' = Absent /\
     name p' = "Smart Plug" /\ price p' = Fin false 1999 (-2)) /\
  (exists p',
     products (PATCH_products_id_status sample_runtime sample_id note_only_body
                 legacy_world).2 !! sample_key = Some p' /\
     status p' = Val "available" /\ expectedArrival p' = Absent /\
     name p' = "Smart Plug").
Proof.
  split.
  - pose proof (patch_status_frame sample_runtime sample_id note_only_body sample_world
                  sample_key sample_product eq_refl eq_refl eq_refl) as H.
    destruct (PATCH_products_id_status sample_runtime sample_id note_only_body
                sample_world) as [r w'].
    destruct H as (p' & Hp' & Hname & Hprice & _ & _ & _ & _ & _ & _ & _ & Hst & _ & Hea & _).
    exists p'. simpl. split; [exact Hp'|].
    split; [rewrite (Hst eq_refl); unfold stores_default; simpl;
            rewrite andb_false_r; reflexivity|].
    split; [apply Hea; reflexivity|].
    split; [exact Hname|exact Hprice].
  - pose proof (patch_status_frame sample_runtime sample_id note_only_body legacy_world
                  sample_key (without_status sample_product) eq_refl eq_refl eq_refl) as H.
    assert (res_status
              (PATCH_products_id_status sample_runtime sample_id note_only_body
                 legacy_world).1 = 200%Z) as Hok by reflexivity.
    destruct (PATCH_products_id_status sample_runtime sample_id note_only_body
                legacy_world) as [r w'].
    destruct H as (p' & Hp' & Hname & _ & _ & _ & _ & _ & _ & _ & _ & Hst & _ & Hea & _).
    exists p'. cbn [fst snd] in *. split; [exact Hp'|].
    split; [rewrite (Hst eq_refl); unfold stores_default; rewrite Hok; reflexivity|].
    split; [apply Hea; reflexivity|exact Hname].
Defined.

(** C8. Atomicity of the price check on update: on a ready connection, for
    every stored product, a PUT /products/:id whose [price] is present and
    does not parse as a number ([parseFloat] gives NaN) answers 400
    "Invalid price value" and leaves the whole world as it was (no save, no
    blob deletion), whatever the other fields and files of the request are. *)
Theorem put_invalid_price_is_atomic rt id body files w k p :
  readyState w = 1%Z ->
  castObjectId id = Some k -> products w !! k = Some p ->
  defined (Body.price body) = true ->
  isNaN (parseFloat (Body.price body)) = true ->
  PUT_products_id rt id body files w = (json 400 (error "Invalid price value"), w).
Proof.
  intros Hr Hid Hp Hd Hn. unfold PUT_products_id.
  rewrite checkDbConnection_ready by exact Hr.
  destruct (update_product rt id body files w) as [r w'] eqn:E.
  destruct (update_product_found _ _ _ _ _ _ _ _ _ Hid Hp E)
    as [(-> & -> & _) | [(_ & _ & H) | (_ & _ & _ & H)]];
    [reflexivity| |]; rewrite Hd, Hn in H; discriminate H.
Qed.

Lemma put_invalid_price_is_atomic_witness :
  PUT_products_id sample_runtime sample_id bad_price_body sample_files sample_world
  = (json 400 (error "Invalid price value"), sample_world).
Proof.
  apply (put_invalid_price_is_atomic sample_runtime sample_id bad_price_body
           sample_files sample_world sample_key sample_product);
    reflexivity.
Defined.

(** C9, counterexample: "abc" is an id for which no product exists (the
    store is empty), and DELETE answers 500, not 404. *)
Lemma delete_malformed_is_500 :
  products empty_world = ∅ /\
  DELETE_products_id "abc" empty_world
  = (json 500 (error "Failed to delete product"), empty_world).
Proof. split; reflexivity. Qed.

(** C9, amended. On a ready connection, DELETE /products/:id with a
    well-formed id: when no product has that id the answer is 404 "Product
    not found" and the world is unchanged; when one has, a first DELETE
    answers 200 and removes the document, and a second DELETE of the same
    id answers 404 and changes nothing. *)
Theorem delete_by_wellformed_id id k w :
  readyState w = 1%Z ->
  castObjectId id = Some k ->
  (products w !! k = None ->
   DELETE_products_id id w = (json 404 (error "Product not found"), w)) /\
  (is_Some (products w !! k) ->
   let '(r1, w1) := DELETE_products_id id w in
   let '(r2, w2) := DELETE_products_id id w1 in
   r1 = json 200 (MessageBody "Product deleted successfully") /\
   products w1 = delete k (products w) /\
   r2 = json 404 (error "Product not found") /\
   w2 = w1).
Proof.
  intros Hr Hid. unfold DELETE_products_id.
  rewrite checkDbConnection_ready by exact Hr. split.
  - intros Hp. destruct (delete_product id w) as [r w'] eqn:E.
    apply delete_product_run in E. rewrite Hid, Hp in E.
    destruct E as [-> ->]. reflexivity.
  - intros [p Hp]. destruct (delete_product id w) as [r1 w1] eqn:E1.
    apply delete_product_run in E1. rewrite Hid, Hp in E1.
    destruct E1 as [-> (Hr1 & Hp1 & _)]. simpl in Hr1, Hp1.
    rewrite checkDbConnection_ready by congruence.
    destruct (delete_product id w1) as [r2 w2] eqn:E2.
    apply delete_product_run in E2. rewrite Hid, Hp1, lookup_delete_eq in E2.
    destruct E2 as [-> ->]. auto.
Qed.

Lemma delete_by_wellformed_id_witness :
  DELETE_products_id other_id sample_world
    = (json 404 (error "Product not found"), sample_world) /\
  (DELETE_products_id sample_id sample_world).1
    = json 200 (MessageBody "Product deleted successfully") /\
  (DELETE_products_id sample_id (DELETE_products_id sample_id sample_world).2).1
    = json 404 (error "Product not found").
Proof.
  pose proof (delete_by_wellformed_id other_id (sample_key + 1) sample_world
                eq_refl eq_refl) as [H _].
  pose proof (delete_by_wellformed_id sample_id sample_key sample_world
                eq_refl eq_refl) as [_ H'].
  split; [apply H; reflexivity|].
  specialize (H' (ex_intro _ sample_product eq_refl)).
  destruct (DELETE_products_id sample_id sample_world) as [r1 w1].
  simpl. destruct (DELETE_products_id sample_id w1) as [r2 w2].
  simpl. destruct H' as (-> & _ & -> & _). split; reflexivity.
Defined.

(** C10. On GET, PUT, PATCH (status) and DELETE of /products/:id, on a
    ready connection: the answer has status 404 exactly when the id is a
    well-formed identifier that matches no document, and it is then the
    "Product not found" envelope with the world unchanged; an id that is
    not a well-formed identifier makes the lookup throw, and the answer is
    the 500 envelope of that handler, the world unchanged. *)
Theorem not_found_only_for_wellformed_unknown_ids rt id body files w :
  readyState w = 1%Z ->
  let answers (route : world -> response * world) (failure : string) :=
    (res_status (route w).1 = 404%Z <-> unknown_id id w) /\
    (unknown_id id w -> route w = (json 404 (error "Product not found"), w)) /\
    (castObjectId id = None -> route w = (json 500 (error failure), w)) in
  answers (GET_products_id id) "Failed to fetch product" /\
  answers (PUT_products_id rt id body files) "Failed to update product" /\
  answers (PATCH_products_id_status rt id body) "Failed to update product status" /\
  answers (DELETE_products_id id) "Failed to delete product".
Proof.
  intros Hr. cbv zeta.
  unfold GET_products_id, PUT_products_id, PATCH_products_id_status, DELETE_products_id.
  rewrite !checkDbConnection_ready by exact Hr.
  unfold unknown_id.
  destruct (castObjectId id) as [k|] eqn:Hid;
    [destruct (products w !! k) as [p|] eqn:Hp|].
  - (* the document exists: no route answers 404 *)
    repeat split.
    all: try (intros (k' & [= <-] & Hk'); congruence).
    all: try discriminate.
    + rewrite get_product_run, Hid, Hp. discriminate.
    + destruct (update_product rt id body files w) as [r w'] eqn:E.
      destruct (update_product_found _ _ _ _ _ _ _ _ _ Hid Hp E)
        as [(-> & _) | [(-> & _) | (-> & _)]]; discriminate.
    + destruct (update_status rt id body w) as [r w'] eqn:E.
      destruct (update_status_found _ _ _ _ _ _ _ _ Hid Hp E)
        as [(-> & _) | [(-> & _) | (-> & _)]]; discriminate.
    + destruct (delete_product id w) as [r w'] eqn:E.
      apply delete_product_run in E. rewrite Hid, Hp in E.
      destruct E as [-> _]. discriminate.
  - (* well formed, no document: every route answers 404 *)
    assert (delete_product id w = (json 404 (error "Product not found"), w)) as Hd.
    { destruct (delete_product id w) as [r w'] eqn:E.
      apply delete_product_run in E. rewrite Hid, Hp in E.
      destruct E as [-> ->]. reflexivity. }
    rewrite get_product_run, Hid, Hp, Hd,
      (update_product_missing _ _ _ _ _ _ Hid Hp),
      (update_status_missing _ _ _ _ _ Hid Hp).
    repeat split; eauto; discriminate.
  - (* not an identifier: the lookup throws, the catch branch answers 500 *)
    assert (delete_product id w = (json 500 (error "Failed to delete product"), w)) as Hd.
    { destruct (delete_product id w) as [r w'] eqn:E.
      apply delete_product_run in E. rewrite Hid in E.
      destruct E as [-> ->]. reflexivity. }
    rewrite get_product_run, Hid, Hd,
      (update_product_malformed _ _ _ _ _ Hid),
      (update_status_malformed _ _ _ _ Hid).
    repeat split; try discriminate; try (intros (k' & [=] & _)).
Qed.

Lemma not_found_only_for_wellformed_unknown_ids_witness :
  GET_products_id "abc" sample_world
    = (json 500 (error "Failed to fetch product"), sample_world) /\
  DELETE_products_id "abc" sample_world
    = (json 500 (error "Failed to delete product"), sample_world) /\
  PUT_products_id sample_runtime other_id empty_body None sample_world
    = (json 404 (error "Product not found"), sample_world).
Proof.
  destruct (not_found_only_for_wellformed_unknown_ids sample_runtime "abc" empty_body
              None sample_world eq_refl) as ((_ & _ & Hget) & _ & _ & (_ & _ & Hdel)).
  destruct (not_found_only_for_wellformed_unknown_ids sample_runtime other_id empty_body
              None sample_world eq_refl) as (_ & (_ & Hput & _) & _).
  split; [apply Hget; reflexivity|].
  split; [apply Hdel; reflexivity|].
  apply Hput. exists (sample_key + 1)%N. split; reflexivity.
Defined.

(** * Further properties of the routes *)

(** X1. On a ready connection, a creation form whose name is missing, null
    or the empty string is answered 400 "Product name is required" and
    changes nothing. *)
Theorem create_requires_name rt body files w :
  readyState w = 1%Z ->
  truthy (Body.name body) = false ->
  POST_products_upload rt body files w
  = (json 400 (error "Product name is required"), w).
Proof.
  intros Hr Hn. unfold POST_products_upload.
  rewrite checkDbConnection_ready by exact Hr.
  unfold create_product, try_catch. rewrite Hn. reflexivity.
Qed.

Lemma create_requires_name_witness :
  POST_products_upload sample_runtime
    (create_body JNull (JString "19.99") JUndefined) sample_files empty_world
  = (json 400 (error "Product name is required"), empty_world).
Proof. apply create_requires_name; reflexivity. Defined.

(** X2. On a ready connection, a creation form with a name whose price is
    missing, null, empty, or not a number for [parseFloat] is answered 400
    "Valid price is required" and changes nothing. *)
Theorem create_requires_price rt body files w :
  readyState w = 1%Z ->
  truthy (Body.name body) = true ->
  truthy (Body.price body) = false \/ isNaN (parseFloat (Body.price body)) = true ->
  POST_products_upload rt body files w
  = (json 400 (error "Valid price is required"), w).
Proof.
  intros Hr Hn Hp. unfold POST_products_upload.
  rewrite checkDbConnection_ready by exact Hr.
  unfold create_product, try_catch. rewrite Hn.
  destruct Hp as [-> | ->]; [reflexivity|].
  rewrite orb_true_r. reflexivity.
Qed.

Lemma create_requires_price_witness :
  POST_products_upload sample_runtime
    (create_body (JString "Plug") (JString "cheap") JUndefined) sample_files empty_world
  = (json 400 (error "Valid price is required"), empty_world).
Proof. apply create_requires_price; [reflexivity|reflexivity|right; reflexivity]. Defined.

(** X3. On a ready connection, a creation form whose name is empty after
    trimming is never answered 201 and changes nothing. *)
Theorem blank_name_is_never_stored rt body files w s :
  readyState w = 1%Z ->
  Body.name body = JString s -> trim s = "" ->
  let '(r, w') := POST_products_upload rt body files w in
  res_status r <> 201%Z /\ w' = w.
Proof.
  intros Hr Hn Ht. unfold POST_products_upload.
  rewrite checkDbConnection_ready by exact Hr.
  destruct (create_product rt body files w) as [r w'] eqn:E.
  destruct (create_product_run _ _ _ _ _ _ E)
    as [(Hc & ->) | [(Hc & ->) | (f & l & _ & _ & Hv & _)]].
  1,2: split; [rewrite Hc; discriminate|reflexivity].
  exfalso. apply invalidPaths_nil in Hv as (Hv & _).
  simpl in Hv. rewrite Hn in Hv. simpl in Hv. rewrite Ht in Hv. discriminate Hv.
Qed.

Lemma blank_name_is_never_stored_witness :
  (POST_products_upload sample_runtime
     (create_body (JString "   ") (JString "19.99") JUndefined) sample_files empty_world).2
  = empty_world.
Proof.
  pose proof (blank_name_is_never_stored sample_runtime
                (create_body (JString "   ") (JString "19.99") JUndefined)
                sample_files empty_world "   " eq_refl eq_refl eq_refl) as H.
  destruct (POST_products_upload sample_runtime _ sample_files empty_world) as [r w'].
  apply H.
Defined.

(** X4. On a ready connection, a price that parses to a number below zero
    (or does not parse) is never written: the creation is not answered 201
    and changes nothing, and the update of any id is not answered 200 and
    leaves every product as it was. *)
Theorem negative_price_is_never_stored rt body files w :
  readyState w = 1%Z ->
  defined (Body.price body) = true ->
  ge0 (parseFloat (Body.price body)) = false ->
  (let '(r, w') := POST_products_upload rt body files w in
   res_status r <> 201%Z /\ w' = w) /\
  (forall id,
     let '(r, w') := PUT_products_id rt id body files w in
     res_status r <> 200%Z /\ products w' = products w).
Proof.
  intros Hr Hd Hneg. unfold POST_products_upload, PUT_products_id.
  rewrite !checkDbConnection_ready by exact Hr. split.
  - destruct (create_product rt body files w) as [r w'] eqn:E.
    destruct (create_product_run _ _ _ _ _ _ E)
      as [(Hc & ->) | [(Hc & ->) | (f & l & _ & _ & Hv & _)]].
    1,2: split; [rewrite Hc; discriminate|reflexivity].
    exfalso. apply invalidPaths_nil in Hv as (_ & Hv & _).
    simpl in Hv. congruence.
  - intros id. rewrite checkDbConnection_ready by exact Hr.
    destruct (castObjectId id) as [k|] eqn:Hid;
      [destruct (products w !! k) as [p|] eqn:Hp|].
    + destruct (update_product rt id body files w) as [r w'] eqn:E.
      destruct (update_product_found _ _ _ _ _ _ _ _ _ Hid Hp E)
        as [(-> & -> & _) | [(-> & (_ & Hst & _) & _) | (_ & Hv & _)]].
      * split; [discriminate|reflexivity].
      * split; [discriminate|exact Hst].
      * exfalso. apply invalidPaths_nil in Hv as (_ & Hv & _).
        simpl in Hv. rewrite Hd in Hv. congruence.
    + rewrite (update_product_missing _ _ _ _ _ _ Hid Hp).
      split; [discriminate|reflexivity].
    + rewrite (update_product_malformed _ _ _ _ _ Hid).
      split; [discriminate|reflexivity].
Qed.

Lemma negative_price_is_never_stored_witness :
  (PUT_products_id sample_runtime sample_id negative_price_body None sample_world).2
  = sample_world.
Proof.
  destruct (negative_price_is_never_stored sample_runtime negative_price_body None
              sample_world eq_refl eq_refl eq_refl) as [_ H].
  specialize (H sample_id).
  destruct (PUT_products_id sample_runtime sample_id negative_price_body None sample_world)
    as [r w'] eqn:E.
  apply (f_equal snd) in E. simpl in E. rewrite <- E. reflexivity.
Defined.

(** X5. Every product route keeps the store valid: when every stored
    product passes the schema's validators before a request, every stored
    product passes them after it. *)
Theorem stored_products_stay_valid rt req w :
  all_valid w -> all_valid (product_route rt req w).2.
Proof.
  intros Hw. unfold product_route, POST_products_upload, GET_products_id,
    PUT_products_id, PATCH_products_id_status, DELETE_products_id.
  destruct req as [body files | id | id body files | id body | id].
  all: match goal with
       | |- context [checkDbConnection ?h ?w0] =>
           destruct (checkDbConnection_cases h w0) as [-> | ->]; [|exact Hw]
       end.
  - destruct (create_product rt body files w) as [r w'] eqn:E.
    destruct (create_product_run _ _ _ _ _ _ E)
      as [(_ & ->) | [(_ & ->) | (f & l & _ & _ & Hv & _ & -> & _)]];
      [exact Hw|exact Hw|].
    simpl. apply map_Forall_insert_2; [exact Hv|exact Hw].
  - rewrite get_product_run. exact Hw.
  - destruct (castObjectId id) as [k|] eqn:Hid;
      [destruct (products w !! k) as [p|] eqn:Hp|].
    + destruct (update_product rt id body files w) as [r w'] eqn:E.
      destruct (update_product_found _ _ _ _ _ _ _ _ _ Hid Hp E)
        as [(_ & -> & _) | [(_ & (_ & Hst & _) & _) | (_ & Hv & (_ & Hst & _) & _)]].
      * exact Hw.
      * unfold all_valid. simpl. rewrite Hst. exact Hw.
      * unfold all_valid. simpl. rewrite Hst. simpl.
        apply map_Forall_insert_2; [exact Hv|exact Hw].
    + rewrite (update_product_missing _ _ _ _ _ _ Hid Hp). exact Hw.
    + rewrite (update_product_malformed _ _ _ _ _ Hid). exact Hw.
  - destruct (castObjectId id) as [k|] eqn:Hid;
      [destruct (products w !! k) as [p|] eqn:Hp|].
    + destruct (update_status rt id body w) as [r w'] eqn:E.
      destruct (update_status_found _ _ _ _ _ _ _ _ Hid Hp E)
        as [(_ & -> & _) | [(_ & -> & _) | (_ & Hv & -> & _)]]; [exact Hw|exact Hw|].
      unfold all_valid. simpl. apply map_Forall_insert_2; [exact Hv|exact Hw].
    + rewrite (update_status_missing _ _ _ _ _ Hid Hp). exact Hw.
    + rewrite (update_status_malformed _ _ _ _ Hid). exact Hw.
  - destruct (delete_product id w) as [r w'] eqn:E.
    apply delete_product_run in E.
    destruct (castObjectId id) as [k|]; [destruct (products w !! k) as [p|]|].
    + destruct E as (_ & _ & Hst & _). unfold all_valid. simpl. rewrite Hst. simpl.
      apply map_Forall_delete. exact Hw.
    + destruct E as [_ ->]. exact Hw.
    + destruct E as [_ ->]. exact Hw.
Qed.

Lemma stored_products_stay_valid_witness :
  all_valid (product_route sample_runtime
               (UpdateStatus sample_id note_only_body) sample_world).2.
Proof.
  apply stored_products_stay_valid.
  unfold all_valid, sample_world. simpl.
  apply map_Forall_insert_2; [reflexivity|apply map_Forall_empty].
Defined.

(** X6. When the connection is not ready, every product route, the two
    listings among them, and every settings route, those of [server.js] as
    those of the later revision, answers 503 "Database unavailable" and
    changes nothing. *)
Theorem unavailable_store_is_503 rt w :
  readyState w <> 1%Z ->
  (forall req, product_route rt req w = (json 503 (error "Database unavailable"), w)) /\
  (forall query,
     GET_products query w
     = ({| list_status := 503; list_json := ListError "Database unavailable" None |}, w)) /\
  (forall s,
     GET_products_status s w
     = ({| list_status := 503; list_json := ListError "Database unavailable" None |}, w)) /\
  (forall req, settings_route rt req w = (json 503 (error "Database unavailable"), w)) /\
  (forall req,
     ServerJsSettings.route rt req w = (json 503 (error "Database unavailable"), w)).
Proof.
  intros Hr.
  assert ((readyState w =? 1)%Z = false) as Hb by (apply Z.eqb_neq; exact Hr).
  split; [|split; [|split; [|split]]].
  - intros req. destruct req; apply checkDbConnection_down; exact Hr.
  - intros query. unfold GET_products, checkDbConnection_list. rewrite Hb. reflexivity.
  - intros s. unfold GET_products_status, checkDbConnection_list. rewrite Hb. reflexivity.
  - intros req. destruct req; apply checkDbConnection_down; exact Hr.
  - intros req. destruct req; apply checkDbConnection_down; exact Hr.
Qed.

Lemma unavailable_store_is_503_witness :
  product_route sample_runtime (DeleteProduct sample_id) disconnected_world
  = (json 503 (error "Database unavailable"), disconnected_world) /\
  list_status (GET_products JUndefined disconnected_world).1 = 503%Z /\
  list_status (GET_products_status "available" disconnected_world).1 = 503%Z /\
  ServerJsSettings.route sample_runtime ServerJsSettings.Get disconnected_world
  = (json 503 (error "Database unavailable"), disconnected_world).
Proof.
  destruct (unavailable_store_is_503 sample_runtime disconnected_world)
    as (H1 & H2 & H3 & _ & H5).
  - discriminate.
  - split; [apply H1|]. split; [rewrite H2; reflexivity|].
    split; [rewrite H3; reflexivity|apply H5].
Defined.

(** The trace after [safeCloudinaryDestroy] and after the loop over a list. *)
Lemma safeCloudinaryDestroy_trace publicId w :
  exists w', safeCloudinaryDestroy publicId w = (Ok tt, w') /\
    (publicId <> "" -> In publicId (destroyed w')) /\
    (forall i, In i (destroyed w) -> In i (destroyed w')).
Proof.
  unfold safeCloudinaryDestroy.
  destruct (String.eqb_spec publicId "") as [->|Hne]; simpl.
  - exists w. split; [reflexivity|]. split; [congruence|auto].
  - eexists. split; [reflexivity|]. simpl. split; auto.
Qed.

Lemma destroy_all_trace ids w :
  exists w', destroy_all ids w = (Ok tt, w') /\
    (forall i, In i ids -> i <> "" -> In i (destroyed w')) /\
    (forall i, In i (destroyed w) -> In i (destroyed w')).
Proof.
  revert w. induction ids as [|i ids IH]; intros w.
  - exists w. split; [reflexivity|]. split; [intros i []|auto].
  - change (destroy_all (i :: ids)) with (safeCloudinaryDestroy i ;; destroy_all ids).
    rewrite bind_run.
    destruct (safeCloudinaryDestroy_trace i w) as (w1 & -> & H1 & K1).
    destruct (IH w1) as (w2 & -> & H2 & K2).
    exists w2. split; [reflexivity|]. split; [|auto].
    intros j [<-|Hj] Hne; [apply K2, H1, Hne|apply H2; assumption].
Qed.

(** X7. On a ready connection, DELETE /products/:id of a stored product
    answers 200, removes the document, and has asked Cloudinary to destroy
    the main image and every other photo of the product (each non-empty
    public id). *)
Theorem delete_releases_blobs id k p w :
  readyState w = 1%Z ->
  castObjectId id = Some k -> products w !! k = Some p ->
  let '(r, w') := DELETE_products_id id w in
  r = json 200 (MessageBody "Product deleted successfully") /\
  products w' !! k = None /\
  forall publicId,
    In publicId (mainImagePublicId p :: otherPhotosPublicIds p) ->
    publicId <> "" -> In publicId (destroyed w').
Proof.
  intros Hr Hid Hp. unfold DELETE_products_id.
  rewrite checkDbConnection_ready by exact Hr.
  unfold delete_product, try_catch.
  rewrite bind_run, Product_findById_run, Hid, Hp.
  rewrite bind_run. cbn [applyDefaults mainImagePublicId otherPhotosPublicIds].
  destruct (safeCloudinaryDestroy_trace (mainImagePublicId p) w) as (w1 & -> & H1 & K1).
  rewrite bind_run.
  destruct (destroy_all_trace (otherPhotosPublicIds p) w1) as (w2 & -> & H2 & K2).
  rewrite bind_run. unfold Product_findByIdAndDelete. rewrite Hid. simpl.
  split; [reflexivity|]. split; [apply lookup_delete_eq|].
  intros i [<-|Hi] Hne; [apply K2, H1, Hne|apply H2; assumption].
Qed.

Lemma delete_releases_blobs_witness :
  In "smarthome-products/plug" (destroyed (DELETE_products_id sample_id sample_world).2) /\
  In "smarthome-products/side" (destroyed (DELETE_products_id sample_id sample_world).2).
Proof.
  pose proof (delete_releases_blobs sample_id sample_key sample_product sample_world
                eq_refl eq_refl eq_refl) as H.
  destruct (DELETE_products_id sample_id sample_world) as [r w'].
  destruct H as (_ & _ & H). simpl.
  split; apply H; simpl; auto; discriminate.
Defined.

(** * Listings, composed requests, settings and revisions *)

#[global] Instance newer_first_total : Total newer_first.
Proof. intros x y. unfold newer_first. lia. Qed.

#[global] Instance newer_first_trans : Transitive newer_first.
Proof. intros x y z. unfold newer_first. lia. Qed.

(** Loading a document that has a status changes nothing. *)
Lemma applyDefaults_id p : status p <> Absent -> applyDefaults p = p.
Proof. destruct p as [? ? ? ? ? ? ? ? [| |?] ? ? ?]; simpl; [congruence| |]; reflexivity. Qed.

Lemma applyDefaults_idem p : applyDefaults (applyDefaults p) = applyDefaults p.
Proof. destruct p as [? ? ? ? ? ? ? ? [| |?] ? ? ?]; reflexivity. Qed.

Lemma Product_find_sorted_elem filter w k p :
  (k, p) ∈ Product_find_sorted filter w <->
  exists p0, products w !! k = Some p0 /\ matches_filter filter p0 = true /\
    p = applyDefaults p0.
Proof.
  unfold Product_find_sorted. rewrite list_elem_of_fmap. split.
  - intros ([k0 p0] & [= -> ->] & Hin). exists p0.
    rewrite merge_sort_Permutation in Hin.
    rewrite list_elem_of_In, filter_In, <- list_elem_of_In, elem_of_map_to_list in Hin.
    destruct Hin as [H1 H2]. auto.
  - intros (p0 & H1 & H2 & ->). exists (k, p0). split; [reflexivity|].
    rewrite merge_sort_Permutation.
    rewrite list_elem_of_In, filter_In, <- list_elem_of_In, elem_of_map_to_list. auto.
Qed.

Lemma Product_find_sorted_NoDup filter w : NoDup (Product_find_sorted filter w).
Proof.
  unfold Product_find_sorted. apply NoDup_fmap_2_strong.
  - intros [k1 p1] [k2 p2] H1 H2 [= -> _]. f_equal.
    rewrite merge_sort_Permutation in H1, H2.
    rewrite list_elem_of_In, filter_In, <- list_elem_of_In, elem_of_map_to_list in H1, H2.
    destruct H1 as [H1 _], H2 as [H2 _]. congruence.
  - rewrite merge_sort_Permutation.
    apply NoDup_ListNoDup, List.NoDup_filter, NoDup_ListNoDup, NoDup_map_to_list.
Qed.

Lemma Product_find_sorted_sorted filter w :
  StronglySorted newer_first (Product_find_sorted filter w).
Proof.
  unfold Product_find_sorted.
  apply (StronglySorted_fmap _ newer_first newer_first); [intros x y H; exact H|].
  apply StronglySorted_merge_sort; apply _.
Qed.

(** X8. On a ready connection GET /products answers 200 with exactly the
    stored products (those whose stored status is the query's, when the
    query gives a non-empty one), each as loaded (a missing status shown
    as the default), each once, newest upload first, and changes
    nothing. *)
Theorem list_products_lists_the_store query w :
  readyState w = 1%Z ->
  exists l,
    GET_products query w
    = ({| list_status := 200; list_json := ProductsBody l None |}, w) /\
    (forall k p,
       (k, p) ∈ l <->
       exists p0,
         products w !! k = Some p0 /\ p = applyDefaults p0 /\
         (forall s, query = JString s -> s <> "" -> status p0 = Val s)) /\
    NoDup l /\
    StronglySorted newer_first l.
Proof.
  intros Hr. unfold GET_products, checkDbConnection_list. rewrite Hr. simpl.
  eexists. split; [reflexivity|].
  split; [|split; [apply Product_find_sorted_NoDup|apply Product_find_sorted_sorted]].
  intros k p. rewrite Product_find_sorted_elem.
  split; intros (p0 & H1 & H2); exists p0; (split; [exact H1|]).
  - destruct H2 as [Hm ->]. split; [reflexivity|].
    intros s -> Hne. destruct s as [|c s]; [contradiction|]. simpl in Hm.
    destruct (status p0) as [| |t]; try discriminate.
    apply String.eqb_eq in Hm. congruence.
  - destruct H2 as [-> Hm]. split; [|reflexivity].
    destruct query as [| |[|c s]]; try reflexivity. simpl.
    rewrite (Hm _ eq_refl) by discriminate. apply String.eqb_refl.
Qed.

Lemma includes_In s : includes validStatuses (JString s) = true <-> In s validStatuses.
Proof.
  unfold includes. rewrite existsb_exists. split.
  - intros (x & Hx & Heq). apply String.eqb_eq in Heq. subst x. exact Hx.
  - intros H. exists s. split; [exact H|apply String.eqb_refl].
Qed.

(** X9. On a ready connection GET /products/status/:status answers 400 with
    the list of valid statuses for a status outside it, and otherwise the
    products GET /products?status= lists for it, with their count. *)
Theorem list_by_status_checks_then_filters s w :
  readyState w = 1%Z ->
  (~ In s validStatuses ->
   GET_products_status s w
   = ({| list_status := 400;
         list_json := ListError "Invalid status" (Some validStatuses) |}, w)) /\
  (In s validStatuses ->
   exists l,
     GET_products (JString s) w
     = ({| list_status := 200; list_json := ProductsBody l None |}, w) /\
     GET_products_status s w
     = ({| list_status := 200; list_json := ProductsBody l (Some (length l)) |}, w) /\
     (forall k p, (k, p) ∈ l <-> products w !! k = Some p /\ status p = Val s)).
Proof.
  intros Hr. unfold GET_products, GET_products_status, checkDbConnection_list.
  rewrite Hr. simpl Z.eqb. cbv iota. split.
  - intros Hn. unfold list_by_status.
    destruct (includes validStatuses (JString s)) eqn:E; [|reflexivity].
    apply includes_In in E. contradiction.
  - intros Hin. unfold list_by_status, list_products.
    rewrite (proj2 (includes_In s) Hin). simpl negb. cbv iota zeta.
    assert (s <> "") as Hne.
    { intros ->. simpl in Hin. intuition discriminate. }
    assert ((if truthy (JString s) then if_truthy (JString s) else None) = Some s) as ->
      by (destruct s; [contradiction|reflexivity]).
    eexists. split; [reflexivity|]. split; [reflexivity|].
    intros k p. rewrite Product_find_sorted_elem. simpl. split.
    + intros (p0 & H & Hm & ->).
      destruct (status p0) as [| |t] eqn:Est; try discriminate.
      apply String.eqb_eq in Hm. subst t.
      rewrite applyDefaults_id by congruence. auto.
    + intros [H Hm]. exists p. split; [exact H|].
      rewrite Hm, String.eqb_refl. split; [reflexivity|].
      symmetry. apply applyDefaults_id. congruence.
Qed.

Lemma list_products_lists_the_store_witness :
  GET_products (JString "") two_product_world
  = ({| list_status := 200;
        list_json := ProductsBody [(sample_key, sample_product);
                                   ((sample_key + 1)%N, older_product)] None |},
     two_product_world) /\
  exists l,
    GET_products (JString "out_of_stock") two_product_world
    = ({| list_status := 200; list_json := ProductsBody l None |}, two_product_world) /\
    forall k p, (k, p) ∈ l -> status p = Val "out_of_stock".
Proof.
  split; [reflexivity|].
  destruct (list_products_lists_the_store (JString "out_of_stock") two_product_world
              eq_refl) as (l & Hl & Hin & _).
  exists l. split; [exact Hl|].
  intros k p Hkp. apply Hin in Hkp as (p0 & _ & -> & H).
  simpl. rewrite (H _ eq_refl) by discriminate. reflexivity.
Defined.

Lemma list_by_status_checks_then_filters_witness :
  GET_products_status "broken" two_product_world
  = ({| list_status := 400;
        list_json := ListError "Invalid status" (Some validStatuses) |},
     two_product_world) /\
  GET_products_status "out_of_stock" two_product_world
  = ({| list_status := 200;
        list_json := ProductsBody [((sample_key + 1)%N, older_product)] (Some 1%nat) |},
     two_product_world).
Proof.
  destruct (list_by_status_checks_then_filters "broken" two_product_world eq_refl)
    as [H _].
  split; [|reflexivity].
  apply H. simpl. intros [H'|[H'|[H'|[H'|[H'|[]]]]]]; discriminate H'.
Defined.



Lemma merged_empty rt p : merged rt empty_body None p = applyDefaults p.
Proof. destruct p. reflexivity. Qed.










(** Short of a 201, a creation answers with an error body. *)
Lemma create_product_error_body rt body files w r w' m k p :
  create_product rt body files w = (r, w') ->
  res_status r <> 201%Z -> res_json r <> ProductBody m k p.
Proof.
  unfold create_product, try_catch.
  destruct (truthy (Body.name body)); cbn [negb orb];
    [|intros [= <- <-]; discriminate].
  destruct (truthy (Body.price body)); cbn [negb orb];
    [|intros [= <- <-]; discriminate].
  destruct (isNaN (parseFloat (Body.price body)));
    [intros [= <- <-]; discriminate|].
  destruct (files ≫= f_mainImage) as [[|f l]|];
    [ intros [= <- <-]; discriminate | | intros [= <- <-]; discriminate].
  rewrite bind_run. cbn [first_file]. cbv beta iota zeta.
  change ((mret f : io file) w) with (Ok f, w). cbv beta iota.
  repeat io_step.
  destruct (invalidPaths _); [|intros [= <- <-]; discriminate].
  destruct (products w !! newObjectId rt); intros [= <- <-]; [discriminate|].
  intros H. exfalso. apply H. reflexivity.
Qed.

(** ** What a product request does to the collection *)

Lemma merged_has_status rt body files p : status (merged rt body files p) <> Absent.
Proof.
  unfold merged. simpl.
  destruct (Body.status body), (status p); simpl; discriminate.
Qed.

Lemma status_merged_has_status rt body p : status (status_merged rt body p) <> Absent.
Proof.
  unfold status_merged. simpl.
  destruct (Body.status body), (status p); simpl; discriminate.
Qed.

(** A product request leaves the connection as it was, and either leaves the
    collection as it was (and then a product it answers with is a stored
    one, as loaded), or writes the product it answers with, which has a
    status, under the request's key, or removes the document of that key. *)
Lemma product_route_core rt req w r w' :
  product_route rt req w = (r, w') ->
  readyState w' = readyState w /\
  ((products w' = products w /\
    forall m k p, res_json r = ProductBody m k p ->
      exists p0, products w !! k = Some p0 /\ p = applyDefaults p0)
   \/ (exists m k p,
         res_json r = ProductBody m k p /\ target_key rt req = Some k /\
         products w' = <[k := p]> (products w) /\ status p <> Absent /\
         (forall body files, req = CreateProduct body files -> products w !! k = None))
   \/ (exists id k,
         req = DeleteProduct id /\ castObjectId id = Some k /\
         r = json 200 (MessageBody "Product deleted successfully") /\
         products w' = delete k (products w))).
Proof.
  unfold product_route, POST_products_upload, GET_products_id,
    PUT_products_id, PATCH_products_id_status, DELETE_products_id.
  destruct req as [body files | id | id body files | id body | id].
  all: match goal with
       | |- context [checkDbConnection ?h ?w0] =>
           destruct (checkDbConnection_cases h w0) as [-> | ->];
             [|intros [= <- <-]; split; [reflexivity|];
               left; split; [reflexivity|discriminate]]
       end.
  - intros E.
    destruct (create_product_run _ _ _ _ _ _ E)
      as [(Hc & ->) | [(Hc & ->) | (f & l & _ & -> & _ & Hnone & -> & _)]].
    1,2: split; [reflexivity|]; left; split; [reflexivity|];
      intros m k p Hj; exfalso;
      apply (create_product_error_body _ _ _ _ _ _ m k p E); [rewrite Hc; discriminate|exact Hj].
    split; [reflexivity|]. right; left. do 3 eexists.
    split; [reflexivity|]. split; [reflexivity|]. split; [reflexivity|].
    split; [|intros; exact Hnone].
    simpl. destruct (if_truthy (Body.status body)); discriminate.
  - rewrite get_product_run. intros [= <- <-]. split; [reflexivity|].
    left. split; [reflexivity|]. intros m k p.
    destruct (castObjectId id) as [k'|]; [|discriminate].
    destruct (products w !! k') as [p'|] eqn:Hp; [|discriminate].
    intros [= <- <- <-]. exists p'. auto.
  - intros E. destruct (castObjectId id) as [k|] eqn:Hid;
      [destruct (products w !! k) as [p|] eqn:Hp|].
    + destruct (update_product_found _ _ _ _ _ _ _ _ _ Hid Hp E)
        as [(-> & -> & _) | [(-> & (Hrs & Hst & _) & _) | (-> & _ & (Hrs & Hst & _) & _)]].
      * split; [reflexivity|]. left. split; [reflexivity|discriminate].
      * split; [exact Hrs|]. left. split; [exact Hst|discriminate].
      * split; [exact Hrs|]. right; left. do 3 eexists.
        split; [reflexivity|]. split; [exact Hid|]. split; [exact Hst|].
        split; [apply merged_has_status|]. intros ? ? [=].
    + rewrite (update_product_missing _ _ _ _ _ _ Hid Hp) in E.
      injection E as <- <-. split; [reflexivity|].
      left. split; [reflexivity|discriminate].
    + rewrite (update_product_malformed _ _ _ _ _ Hid) in E.
      injection E as <- <-. split; [reflexivity|].
      left. split; [reflexivity|discriminate].
  - intros E. destruct (castObjectId id) as [k|] eqn:Hid;
      [destruct (products w !! k) as [p|] eqn:Hp|].
    + destruct (update_status_found _ _ _ _ _ _ _ _ Hid Hp E)
        as [(-> & -> & _) | [(-> & -> & _) | (-> & _ & -> & _)]].
      * split; [reflexivity|]. left. split; [reflexivity|discriminate].
      * split; [reflexivity|]. left. split; [reflexivity|discriminate].
      * split; [reflexivity|]. right; left. do 3 eexists.
        split; [reflexivity|]. split; [exact Hid|]. split; [reflexivity|].
        split; [apply status_merged_has_status|]. intros ? ? [=].
    + rewrite (update_status_missing _ _ _ _ _ Hid Hp) in E.
      injection E as <- <-. split; [reflexivity|].
      left. split; [reflexivity|discriminate].
    + rewrite (update_status_malformed _ _ _ _ Hid) in E.
      injection E as <- <-. split; [reflexivity|].
      left. split; [reflexivity|discriminate].
  - intros E. apply delete_product_run in E.
    destruct (castObjectId id) as [k|] eqn:Hid;
      [destruct (products w !! k) as [p|] eqn:Hp|].
    + destruct E as (-> & Hrs & Hst & _). split; [exact Hrs|].
      right; right. exists id, k. repeat split; [exact Hid|exact Hst].
    + destruct E as (-> & ->). split; [reflexivity|].
      left. split; [reflexivity|discriminate].
    + destruct E as (-> & ->). split; [reflexivity|].
      left. split; [reflexivity|discriminate].
Qed.

(** X11. Read your writes: the product a product route answers with (the
    created, updated or fetched one) is the one GET /products/:id returns
    for its identifier right after the request. *)
Theorem answered_product_is_read_back rt req w r w' m k p id :
  product_route rt req w = (r, w') ->
  res_json r = ProductBody m k p ->
  castObjectId id = Some k ->
  GET_products_id id w' = (json 200 (ProductBody None k p), w').
Proof.
  intros E Hj Hid.
  assert (readyState w = 1%Z) as Hr.
  { destruct (Z.eq_dec (readyState w) 1%Z) as [H|H]; [exact H|]. exfalso.
    destruct req; simpl in E;
      unfold POST_products_upload, GET_products_id, PUT_products_id,
        PATCH_products_id_status, DELETE_products_id in E;
      rewrite (checkDbConnection_down _ _ H) in E;
      injection E as <- <-; discriminate Hj. }
  destruct (product_route_core _ _ _ _ _ E)
    as (Hrs & [(Hst & Hk) | [(m' & k' & p' & Hj' & _ & Hst & Hhas & _)
                            | (_ & _ & _ & _ & -> & _)]]).
  - unfold GET_products_id. rewrite checkDbConnection_ready by congruence.
    destruct (Hk _ _ _ Hj) as (p0 & Hp0 & ->).
    rewrite get_product_run, Hid, Hst, Hp0. reflexivity.
  - rewrite Hj in Hj'. injection Hj' as <- <- <-.
    unfold GET_products_id. rewrite checkDbConnection_ready by congruence.
    rewrite get_product_run, Hid, Hst, lookup_insert_eq.
    rewrite applyDefaults_id by exact Hhas. reflexivity.
  - discriminate Hj.
Qed.

Lemma answered_product_is_read_back_witness :
  GET_products_id sample_id
    (PUT_products_id sample_runtime sample_id rename_body None sample_world).2
  = (json 200 (ProductBody None sample_key
                 (merged sample_runtime rename_body None sample_product)),
     (PUT_products_id sample_runtime sample_id rename_body None sample_world).2).
Proof.
  apply (answered_product_is_read_back sample_runtime
           (UpdateProduct sample_id rename_body None) sample_world
           (PUT_products_id sample_runtime sample_id rename_body None sample_world).1
           _ (Some "Product updated successfully")); reflexivity.
Defined.

(** X12. After DELETE /products/:id has answered 200, GET /products/:id of
    the same id answers 404. *)
Theorem deleted_product_is_gone id w r w' :
  DELETE_products_id id w = (r, w') ->
  res_status r = 200%Z ->
  GET_products_id id w' = (json 404 (error "Product not found"), w').
Proof.
  intros E Hok.
  destruct (product_route_core sample_runtime (DeleteProduct id) _ _ _ E)
    as (Hrs & H).
  assert (readyState w = 1%Z) as Hr.
  { destruct (Z.eq_dec (readyState w) 1%Z) as [Hx|Hx]; [exact Hx|]. exfalso.
    unfold DELETE_products_id in E. rewrite (checkDbConnection_down _ _ Hx) in E.
    injection E as <- <-. discriminate Hok. }
  unfold GET_products_id. rewrite checkDbConnection_ready by congruence.
  rewrite get_product_run.
  unfold DELETE_products_id in E. rewrite checkDbConnection_ready in E by exact Hr.
  apply delete_product_run in E.
  destruct (castObjectId id) as [k|] eqn:Hid;
    [destruct (products w !! k) as [p|] eqn:Hp|].
  - destruct E as (_ & _ & -> & _). simpl. rewrite lookup_delete_eq. reflexivity.
  - destruct E as (-> & _). discriminate Hok.
  - destruct E as (-> & _). discriminate Hok.
Qed.

Lemma deleted_product_is_gone_witness :
  GET_products_id sample_id (DELETE_products_id sample_id sample_world).2
  = (json 404 (error "Product not found"),
     (DELETE_products_id sample_id sample_world).2).
Proof.
  apply (deleted_product_is_gone sample_id sample_world
           (DELETE_products_id sample_id sample_world).1); reflexivity.
Defined.

(** X13. A product request writes at most the one document it addresses:
    every other key of the collection holds after the request what it held
    before ([target_key] is the id of the path, or the fresh id of a
    creation; a fetch addresses none). *)
Theorem request_writes_one_document rt req w k :
  target_key rt req <> Some k ->
  products (product_route rt req w).2 !! k = products w !! k.
Proof.
  intros Hk. destruct (product_route rt req w) as [r w'] eqn:E.
  cbn [snd].
  destruct (product_route_core _ _ _ _ _ E)
    as (_ & [(-> & _) | [(m & k' & p & _ & Ht & -> & _) | (id & k' & -> & Hid & _ & ->)]]).
  - reflexivity.
  - apply lookup_insert_ne. congruence.
  - apply lookup_delete_ne. simpl in Hk. congruence.
Qed.

Lemma request_writes_one_document_witness :
  products (product_route sample_runtime (DeleteProduct sample_id) two_product_world).2
    !! (sample_key + 1)%N
  = Some older_product.
Proof.
  rewrite (request_writes_one_document sample_runtime (DeleteProduct sample_id)
             two_product_world (sample_key + 1)%N); [reflexivity|].
  vm_compute. discriminate.
Defined.

(** X14. A creation never replaces a stored document: whatever was stored
    under a key before POST /products/upload is stored under it after, also
    when the fresh identifier collides with it. *)
Theorem create_never_overwrites rt body files w k p :
  products w !! k = Some p ->
  products (POST_products_upload rt body files w).2 !! k = Some p.
Proof.
  intros Hp. destruct (POST_products_upload rt body files w) as [r w'] eqn:E.
  cbn [snd].
  destruct (product_route_core rt (CreateProduct body files) _ _ _ E)
    as (_ & [(-> & _) | [(m & k' & p' & _ & _ & -> & _ & Hnone) | (id & k' & [=] & _)]]).
  - exact Hp.
  - rewrite lookup_insert_ne; [exact Hp|].
    intros ->. rewrite (Hnone _ _ eq_refl) in Hp. discriminate Hp.
Qed.

Lemma create_never_overwrites_witness :
  POST_products_upload colliding_runtime
    (create_body (JString "Lamp") (JString "5") JUndefined) sample_files sample_world
  = (json 500 (ErrorBody "Failed to create product" (Some DuplicateKey) None), sample_world)
  /\ products (POST_products_upload colliding_runtime
       (create_body (JString "Lamp") (JString "5") JUndefined) sample_files sample_world).2
     !! sample_key = Some sample_product.
Proof.
  split; [reflexivity|].
  apply (create_never_overwrites colliding_runtime
           (create_body (JString "Lamp") (JString "5") JUndefined) sample_files
           sample_world sample_key sample_product).
  reflexivity.
Defined.

(** ** Blobs released by an update *)

Lemma put_mainImage_trace files p w :
  exists w1,
    put_mainImage files p w =
    (match files ≫= f_mainImage with
     | Some [] => Throw TypeError
     | Some (f :: _) => Ok (set_mainImage f p)
     | None => Ok p
     end, w1) /\
    same_store w w1 /\
    (forall i, In i (destroyed w) -> In i (destroyed w1)) /\
    (is_Some (files ≫= f_mainImage) -> mainImagePublicId p <> "" ->
     In (mainImagePublicId p) (destroyed w1)).
Proof.
  unfold put_mainImage. destruct (files ≫= f_mainImage) as [l|].
  - rewrite bind_run.
    destruct (safeCloudinaryDestroy_run (mainImagePublicId p) w) as (w1 & E & S1).
    destruct (safeCloudinaryDestroy_trace (mainImagePublicId p) w) as (w1' & E' & D1 & M1).
    rewrite E in E'. injection E' as <-. rewrite E.
    exists w1. split; [destruct l; reflexivity|]. auto.
  - exists w. split; [reflexivity|]. split; [apply same_store_refl|].
    split; [auto|]. intros [? [=]].
Qed.

Lemma put_otherPhotos_trace files p w :
  exists w1,
    put_otherPhotos files p w =
    (Ok (match files ≫= f_otherPhotos with
         | Some fs => set_otherPhotos fs p
         | None => p
         end), w1) /\
    same_store w w1 /\
    (forall i, In i (destroyed w) -> In i (destroyed w1)) /\
    (is_Some (files ≫= f_otherPhotos) ->
     forall i, In i (otherPhotosPublicIds p) -> i <> "" -> In i (destroyed w1)).
Proof.
  unfold put_otherPhotos. destruct (files ≫= f_otherPhotos) as [l|].
  - rewrite bind_run.
    destruct (destroy_all_run (otherPhotosPublicIds p) w) as (w1 & E & S1).
    destruct (destroy_all_trace (otherPhotosPublicIds p) w) as (w1' & E' & D1 & M1).
    rewrite E in E'. injection E' as <-. rewrite E.
    exists w1. split; [reflexivity|]. auto.
  - exists w. split; [reflexivity|]. split; [apply same_store_refl|].
    split; [auto|]. intros [? [=]].
Qed.

(** X15. PUT /products/:id releases what it replaces before it saves: once
    the text fields are accepted, a new main image makes the route ask
    Cloudinary to destroy the stored main image, and new other photos (with
    a main image that is not an empty array) every stored other photo,
    whatever the answer is then, also when validation refuses the update
    and the stored document keeps the released images. *)
Theorem update_releases_replaced_blobs rt id body files w k p :
  readyState w = 1%Z ->
  castObjectId id = Some k -> products w !! k = Some p ->
  defined (Body.price body) && isNaN (parseFloat (Body.price body)) = false ->
  Body.classifications body <> JNull -> Body.statusNote body <> JNull ->
  let '(r, w') := PUT_products_id rt id body files w in
  (is_Some (files ≫= f_mainImage) -> mainImagePublicId p <> "" ->
   In (mainImagePublicId p) (destroyed w')) /\
  (is_Some (files ≫= f_otherPhotos) -> files ≫= f_mainImage <> Some [] ->
   forall i, In i (otherPhotosPublicIds p) -> i <> "" -> In i (destroyed w')).
Proof.
  intros Hr Hid Hp Hg Hc Hn. unfold PUT_products_id.
  rewrite checkDbConnection_ready by exact Hr.
  unfold update_product, try_catch.
  rewrite bind_run, Product_findById_run, Hid, Hp.
  io_step. io_step.
  unfold put_price.
  destruct (defined (Body.price body)) eqn:Edef;
    [destruct (isNaN (parseFloat (Body.price body))) eqn:Enan; [discriminate Hg|]|].
  all: repeat (first [rewrite bind_run | rewrite put_classifications_run
                     | rewrite put_statusNote_run | rewrite put_name_run]).
  all: destruct (Body.classifications body) as [| |c] eqn:Ec; [|congruence|].
  all: repeat (first [rewrite bind_run | rewrite put_classifications_run
                     | rewrite put_statusNote_run | rewrite put_name_run]).
  all: destruct (Body.statusNote body) as [| |sn] eqn:Esn; [|congruence|].
  all: repeat (first [rewrite bind_run | rewrite put_classifications_run
                     | rewrite put_statusNote_run | rewrite put_name_run]).
  all: match goal with
       | |- context [put_mainImage ?fl ?P ?w0] =>
           destruct (put_mainImage_trace fl P w0) as (w1 & -> & S1 & M1 & D1);
           assert (mainImagePublicId P = mainImagePublicId p
                   /\ otherPhotosPublicIds P = otherPhotosPublicIds p) as [HP HQ]
             by (unfold put_expectedArrival, put_status, put_description;
                 destruct (truthy (Body.name body)),
                   (defined (Body.description body)),
                   (defined (Body.status body)),
                   (defined (Body.expectedArrival body)); split; reflexivity);
           rewrite HP in D1; set (P1 := P) in *; clearbody P1
       end.
  all: destruct (files ≫= f_mainImage) as [[|f l]|] eqn:Em.
  all: try (split; [intros; apply D1; auto|intros _ Hx; congruence]).
  all: rewrite bind_run.
  all: match goal with
       | |- context [put_otherPhotos ?fl ?P ?w0] =>
           destruct (put_otherPhotos_trace fl P w0) as (w2 & -> & S2 & M2 & D2);
           assert (otherPhotosPublicIds P = otherPhotosPublicIds p) as HP2
             by (simpl; exact HQ);
           rewrite HP2 in D2
       end.
  all: rewrite bind_run, save_run.
  all: match goal with
       | |- context [invalidPaths ?P] => destruct (invalidPaths P)
       end.
  all: cbn [fst snd]; simpl destroyed.
  all: split; [intros; apply M2, D1; auto|intros; apply D2; auto].
Qed.

Lemma update_releases_replaced_blobs_witness :
  PUT_products_id sample_runtime sample_id negative_price_body sample_files sample_world
  = (json 500 (error "Failed to update product"),
     with_destroyed (cons "smarthome-products/plug") sample_world) /\
  In (mainImagePublicId sample_product)
     (destroyed (PUT_products_id sample_runtime sample_id negative_price_body
                   sample_files sample_world).2).
Proof.
  split; [reflexivity|].
  pose proof (update_releases_replaced_blobs sample_runtime sample_id negative_price_body
                sample_files sample_world sample_key sample_product
                eq_refl eq_refl eq_refl eq_refl) as H.
  destruct (PUT_products_id sample_runtime sample_id negative_price_body
              sample_files sample_world) as [r w'].
  destruct H as [H _]; [discriminate|discriminate|].
  apply H; [eexists; reflexivity|discriminate].
Defined.

(** ** The site configuration routes: what they answer and store *)

Lemma SiteConfig_save_one c c' w :
  siteconfigs w = [c] -> SiteConfig._id c' = SiteConfig._id c ->
  exists w', SiteConfig_save c' w = (Ok tt, w') /\ siteconfigs w' = [c'] /\
    readyState w' = readyState w /\ destroyed w' = destroyed w /\
    products w' = products w.
Proof.
  intros Hc Hid. eexists. split; [reflexivity|]. simpl.
  rewrite Hc. simpl. rewrite Hid, N.eqb_refl. auto.
Qed.

(** A configuration as Mongoose holds it once loaded: no text is missing. *)
Lemma loaded_applyDefaults c :
  SiteConfig_applyDefaults (SiteConfig_applyDefaults c) = SiteConfig_applyDefaults c.
Proof.
  destruct c as [i [| |?] [| |?] [| |?] [| |?] b bi l li]; reflexivity.
Qed.

Lemma loaded_assign set v c :
  (forall v c, defined v = true ->
     SiteConfig_applyDefaults c = c ->
     SiteConfig_applyDefaults (set v c) = set v c) ->
  SiteConfig_applyDefaults c = c ->
  SiteConfig_applyDefaults (assign_if_defined set v c) = assign_if_defined set v c.
Proof.
  intros Hset Hc. unfold assign_if_defined.
  destruct (defined v) eqn:E; [apply Hset; assumption|exact Hc].
Qed.

Lemma loaded_setters :
  (forall v c, defined v = true -> SiteConfig_applyDefaults c = c ->
     SiteConfig_applyDefaults (set_landingTitle v c) = set_landingTitle v c) /\
  (forall v c, defined v = true -> SiteConfig_applyDefaults c = c ->
     SiteConfig_applyDefaults (set_landingDescription v c) = set_landingDescription v c) /\
  (forall v c, defined v = true -> SiteConfig_applyDefaults c = c ->
     SiteConfig_applyDefaults (set_aboutText v c) = set_aboutText v c) /\
  (forall v c, defined v = true -> SiteConfig_applyDefaults c = c ->
     SiteConfig_applyDefaults (set_servicesText v c) = set_servicesText v c) /\
  (forall f c, SiteConfig_applyDefaults c = c ->
     SiteConfig_applyDefaults (set_landingBanner f c) = set_landingBanner f c) /\
  (forall f c, SiteConfig_applyDefaults c = c ->
     SiteConfig_applyDefaults (set_logo f c) = set_logo f c).
Proof.
  repeat split.
  1-4: intros v c Hv Hc; destruct c as [i t d a sv b bi l li];
    unfold SiteConfig_applyDefaults in *; simpl in *;
    injection Hc as H1 H2 H3 H4; destruct v; try discriminate Hv; simpl;
    rewrite ?H1, ?H2, ?H3, ?H4; reflexivity.
  all: intros f c Hc; destruct c as [i t d a sv b bi l li];
    unfold SiteConfig_applyDefaults in *; simpl in *;
    injection Hc as H1 H2 H3 H4; rewrite ?H1, ?H2, ?H3, ?H4; reflexivity.
Qed.

Ltac solve_loaded :=
  destruct loaded_setters as (L1 & L2 & L3 & L4 & L5 & L6);
  repeat first [ apply loaded_applyDefaults
               | apply loaded_assign; [assumption|]
               | apply L5 | apply L6 | assumption | reflexivity ].

(** With at most one document stored, the configuration a settings route
    answers with is the one document stored after it, as loaded. *)
Lemma settings_route_answer rt req w r w' m c :
  (length (siteconfigs w) <= 1)%nat ->
  settings_route rt req w = (r, w') ->
  res_json r = ConfigBody m c ->
  exists c', siteconfigs w' = [c'] /\ SiteConfig_applyDefaults c' = c /\
    readyState w' = 1%Z.
Proof.
  intros Hlen E Hj.
  assert (readyState w = 1%Z) as Hr.
  { destruct (Z.eq_dec (readyState w) 1%Z) as [H|H]; [exact H|]. exfalso.
    destruct req; simpl in E;
      unfold GET_settings, PUT_settings, PATCH_settings_landing,
        PATCH_settings_about, PATCH_settings_services, PATCH_settings_banner,
        PATCH_settings_logo in E;
      rewrite (checkDbConnection_down _ _ H) in E;
      injection E as <- <-; discriminate Hj. }
  revert E.
  unfold settings_route, GET_settings, PUT_settings, PATCH_settings_landing,
    PATCH_settings_about, PATCH_settings_services, PATCH_settings_banner,
    PATCH_settings_logo.
  destruct req as [ | body files | body | body | body | file | file ].
  all: rewrite checkDbConnection_ready by exact Hr.
  all: unfold get_settings, put_settings, patch_landing, patch_about, patch_services,
         patch_banner, patch_logo, try_catch.
  all: try (destruct file as [file|]; [|intros [= <- <-]; discriminate Hj]).
  all: destruct (getOrCreateConfig_run rt w Hlen) as (c0 & cs & w1 & Hg & Hcd & Hc & _).
  all: assert (readyState w1 = 1%Z) as Hr1
    by (destruct (siteconfigs w) as [|d l] eqn:Ed;
        [rewrite (getOrCreateConfig_created _ _ Ed) in Hg
        |rewrite (getOrCreateConfig_found _ _ _ _ Ed) in Hg];
        injection Hg as _ <-; exact Hr).
  all: assert (SiteConfig_applyDefaults c0 = c0) as Hl0
    by (rewrite Hcd; apply loaded_applyDefaults).
  all: assert (SiteConfig._id c0 = SiteConfig._id cs) as Hid0
    by (rewrite Hcd; reflexivity).
  all: rewrite bind_run, Hg; cbv zeta.
  - intros [= <- <-]. injection Hj as <- <-. exists cs. auto.
  - set (c1 := assign_if_defined set_servicesText _ _).
    assert (SiteConfig._id c1 = SiteConfig._id cs) as Hc1.
    { unfold c1. rewrite !assign_if_defined_id by reflexivity. exact Hid0. }
    assert (SiteConfig_applyDefaults c1 = c1) as Hl1 by (unfold c1; solve_loaded).
    clearbody c1.
    rewrite bind_run.
    destruct (put_landingBanner_run files c1 w1) as (w2 & (R2 & _ & S2 & _) & ->).
    destruct (files ≫= f_landingBanner) as [[|f l]|].
    1: intros [= <- <-]; discriminate Hj.
    all: rewrite bind_run.
    all: match goal with
         | |- context [put_logo ?fl ?cc ?ww] =>
             destruct (put_logo_run fl cc ww) as (w3 & (R3 & _ & S3 & _) & ->)
         end.
    all: destruct (files ≫= f_logo) as [[|f' l']|].
    all: try (intros [= <- <-]; discriminate Hj).
    all: rewrite bind_run.
    all: match goal with
         | |- context [SiteConfig_save ?cc ?ww] =>
             destruct (SiteConfig_save_one cs cc ww) as (w4 & -> & H4 & R4 & _);
               [congruence|simpl; exact Hc1|]
         end.
    all: intros [= <- <-]; injection Hj as <- <-.
    all: eexists; split; [exact H4|]; split; [solve_loaded|congruence].
  - rewrite bind_run.
    match goal with
    | |- context [SiteConfig_save ?cc ?ww] =>
        destruct (SiteConfig_save_one cs cc ww) as (w4 & -> & H4 & R4 & _);
          [congruence|rewrite !assign_if_defined_id by reflexivity; exact Hid0|]
    end.
    intros [= <- <-]; injection Hj as <- <-.
    eexists; split; [exact H4|]; split; [solve_loaded|congruence].
  - rewrite bind_run.
    match goal with
    | |- context [SiteConfig_save ?cc ?ww] =>
        destruct (SiteConfig_save_one cs cc ww) as (w4 & -> & H4 & R4 & _);
          [congruence|rewrite !assign_if_defined_id by reflexivity; exact Hid0|]
    end.
    intros [= <- <-]; injection Hj as <- <-.
    eexists; split; [exact H4|]; split; [solve_loaded|congruence].
  - rewrite bind_run.
    match goal with
    | |- context [SiteConfig_save ?cc ?ww] =>
        destruct (SiteConfig_save_one cs cc ww) as (w4 & -> & H4 & R4 & _);
          [congruence|rewrite !assign_if_defined_id by reflexivity; exact Hid0|]
    end.
    intros [= <- <-]; injection Hj as <- <-.
    eexists; split; [exact H4|]; split; [solve_loaded|congruence].
  - rewrite bind_run.
    destruct (safeCloudinaryDestroy_run (SiteConfig.landingBannerPublicId c0) w1)
      as (w2 & -> & (R2 & _ & S2 & _)).
    rewrite bind_run.
    match goal with
    | |- context [SiteConfig_save ?cc ?ww] =>
        destruct (SiteConfig_save_one cs cc ww) as (w4 & -> & H4 & R4 & _);
          [congruence|exact Hid0|]
    end.
    intros [= <- <-]; injection Hj as <- <-.
    eexists; split; [exact H4|]; split; [solve_loaded|congruence].
  - rewrite bind_run.
    destruct (safeCloudinaryDestroy_run (SiteConfig.logoPublicId c0) w1)
      as (w2 & -> & (R2 & _ & S2 & _)).
    rewrite bind_run.
    match goal with
    | |- context [SiteConfig_save ?cc ?ww] =>
        destruct (SiteConfig_save_one cs cc ww) as (w4 & -> & H4 & R4 & _);
          [congruence|exact Hid0|]
    end.
    intros [= <- <-]; injection Hj as <- <-.
    eexists; split; [exact H4|]; split; [solve_loaded|congruence].
Qed.

(** X16. Read your writes on the settings: with at most one configuration
    stored, the configuration a settings route answers with is the one GET
    /settings returns right after, without changing anything. *)
Theorem answered_settings_are_read_back rt rt' req w r w' m c :
  (length (siteconfigs w) <= 1)%nat ->
  settings_route rt req w = (r, w') ->
  res_json r = ConfigBody m c ->
  GET_settings rt' w' = (json 200 (ConfigBody None c), w').
Proof.
  intros Hlen E Hj.
  destruct (settings_route_answer _ _ _ _ _ _ _ Hlen E Hj) as (c' & Hc & <- & Hr).
  unfold GET_settings. rewrite checkDbConnection_ready by exact Hr.
  unfold get_settings, try_catch.
  rewrite bind_run, (getOrCreateConfig_found _ _ _ _ Hc). reflexivity.
Qed.

Lemma answered_settings_are_read_back_witness :
  GET_settings sample_runtime (PATCH_settings_about sample_runtime about_body empty_world).2
  = (json 200 (ConfigBody None
                 (set_aboutText (JString "We wire homes.") (new_SiteConfig sample_runtime))),
     (PATCH_settings_about sample_runtime about_body empty_world).2).
Proof.
  apply (answered_settings_are_read_back sample_runtime sample_runtime
           (PatchAbout about_body) empty_world
           (PATCH_settings_about sample_runtime about_body empty_world).1 _
           (Some "About text updated successfully"));
    [simpl; lia|reflexivity|reflexivity].
Defined.

Lemma SiteConfig_save_then c c' w (r : response) :
  siteconfigs w = [c] -> SiteConfig._id c' = SiteConfig._id c ->
  (SiteConfig_save c' ;; mret r) w = (Ok r, with_siteconfigs (fun _ => [c']) w).
Proof.
  intros Hc Hid. rewrite bind_run.
  unfold SiteConfig_save, modify, with_siteconfigs.
  rewrite Hc. simpl. rewrite Hid, N.eqb_refl. reflexivity.
Qed.

(** X17. The text routes of the settings change only their own paths: with
    one configuration stored, PATCH /settings/landing, /settings/about and
    /settings/services always answer 200, keep the identifier, both image
    pairs and the texts of the other routes, and store what they answer;
    a text left out of the body is kept, one given (null included) is
    stored as cast.  A text the stored configuration lacks is read as the
    schema default, the empty string, and stored as such. *)
Theorem settings_text_patch_frame rt body w c :
  readyState w = 1%Z -> siteconfigs w = [c] ->
  (exists c',
     PATCH_settings_landing rt body w
     = (json 200 (ConfigBody (Some "Landing text updated successfully") c'),
        with_siteconfigs (fun _ => [c']) w) /\
     same_images c c' /\
     SiteConfig.landingTitle c'
       = (if defined (SettingsBody.landingTitle body)
          then castString (SettingsBody.landingTitle body)
          else text_default (SiteConfig.landingTitle c)) /\
     SiteConfig.landingDescription c'
       = (if defined (SettingsBody.landingDescription body)
          then castString (SettingsBody.landingDescription body)
          else text_default (SiteConfig.landingDescription c)) /\
     SiteConfig.aboutText c' = text_default (SiteConfig.aboutText c) /\
     SiteConfig.servicesText c' = text_default (SiteConfig.servicesText c)) /\
  (exists c',
     PATCH_settings_about rt body w
     = (json 200 (ConfigBody (Some "About text updated successfully") c'),
        with_siteconfigs (fun _ => [c']) w) /\
     same_images c c' /\
     SiteConfig.aboutText c'
       = (if defined (SettingsBody.aboutText body)
          then castString (SettingsBody.aboutText body)
          else text_default (SiteConfig.aboutText c)) /\
     SiteConfig.landingTitle c' = text_default (SiteConfig.landingTitle c) /\
     SiteConfig.landingDescription c' = text_default (SiteConfig.landingDescription c) /\
     SiteConfig.servicesText c' = text_default (SiteConfig.servicesText c)) /\
  (exists c',
     PATCH_settings_services rt body w
     = (json 200 (ConfigBody (Some "Services text updated successfully") c'),
        with_siteconfigs (fun _ => [c']) w) /\
     same_images c c' /\
     SiteConfig.servicesText c'
       = (if defined (SettingsBody.servicesText body)
          then castString (SettingsBody.servicesText body)
          else text_default (SiteConfig.servicesText c)) /\
     SiteConfig.landingTitle c' = text_default (SiteConfig.landingTitle c) /\
     SiteConfig.landingDescription c' = text_default (SiteConfig.landingDescription c) /\
     SiteConfig.aboutText c' = text_default (SiteConfig.aboutText c)).
Proof.
  intros Hr Hc.
  unfold PATCH_settings_landing, PATCH_settings_about, PATCH_settings_services.
  rewrite !checkDbConnection_ready by exact Hr.
  unfold patch_landing, patch_about, patch_services, try_catch.
  rewrite !bind_run, !(getOrCreateConfig_found _ _ _ _ Hc). cbv zeta.
  split; [|split].
  all: eexists; split;
    [rewrite (SiteConfig_save_then c) by
       (try exact Hc; rewrite !assign_if_defined_id by reflexivity; reflexivity);
     reflexivity|].
  all: unfold assign_if_defined, same_images.
  all: destruct (defined (SettingsBody.landingTitle body)),
         (defined (SettingsBody.landingDescription body)),
         (defined (SettingsBody.aboutText body)),
         (defined (SettingsBody.servicesText body)); simpl; auto 10.
Qed.

Lemma settings_text_patch_frame_witness :
  SiteConfig.servicesText legacy_config = Absent /\
  exists c',
    PATCH_settings_about sample_runtime about_body legacy_config_world
    = (json 200 (ConfigBody (Some "About text updated successfully") c'),
       with_siteconfigs (fun _ => [c']) legacy_config_world) /\
    SiteConfig.aboutText c' = Val "We wire homes." /\
    SiteConfig.landingTitle c' = Val "Smart home" /\
    SiteConfig.servicesText c' = Val "" /\
    SiteConfig.landingBannerPublicId c' = "smarthome-products/banner".
Proof.
  split; [reflexivity|].
  destruct (settings_text_patch_frame sample_runtime about_body legacy_config_world
              legacy_config eq_refl eq_refl)
    as (_ & (c' & E & (_ & _ & Hb & _) & Ha & Ht & _ & Hs) & _).
  exists c'. split; [exact E|]. split; [exact Ha|]. split; [exact Ht|].
  split; [exact Hs|exact Hb].
Defined.

(** X18. PATCH /settings/banner and /settings/logo without a file answer 400
    before the configuration is looked up: nothing changes, and no
    configuration is created when none is stored. *)
Theorem settings_image_requires_file rt w :
  readyState w = 1%Z ->
  PATCH_settings_banner rt None w
  = (json 400 (error "Landing banner image is required"), w) /\
  PATCH_settings_logo rt None w
  = (json 400 (error "Logo image is required"), w).
Proof.
  intros Hr. unfold PATCH_settings_banner, PATCH_settings_logo.
  rewrite !checkDbConnection_ready by exact Hr. split; reflexivity.
Qed.

Lemma settings_image_requires_file_witness :
  PATCH_settings_banner sample_runtime None empty_world
  = (json 400 (error "Landing banner image is required"), empty_world) /\
  siteconfigs (PATCH_settings_logo sample_runtime None empty_world).2 = [].
Proof.
  destruct (settings_image_requires_file sample_runtime empty_world eq_refl) as [H1 H2].
  rewrite H1, H2. split; reflexivity.
Defined.

(** X19. PATCH /settings/banner and /settings/logo with a file, on one
    stored configuration: the answer is 200 with the configuration that is
    then stored; its url and public id of the image are the file's path and
    filename, the identifier, the other image pair and the texts are kept
    (a text the stored configuration lacks is read, and stored, as the
    default empty string), and Cloudinary has been asked to destroy the
    replaced image when there was one. *)
Theorem settings_image_replaced_and_released rt f w c :
  readyState w = 1%Z -> siteconfigs w = [c] ->
  (let '(r, w') := PATCH_settings_banner rt (Some f) w in
   exists c',
     r = json 200 (ConfigBody (Some "Landing banner updated successfully") c') /\
     siteconfigs w' = [c'] /\
     SiteConfig.landingBanner c' = path f /\
     SiteConfig.landingBannerPublicId c' = filename f /\
     SiteConfig._id c' = SiteConfig._id c /\
     SiteConfig.logo c' = SiteConfig.logo c /\
     SiteConfig.logoPublicId c' = SiteConfig.logoPublicId c /\
     same_texts c c' /\
     (SiteConfig.landingBannerPublicId c <> "" ->
      In (SiteConfig.landingBannerPublicId c) (destroyed w'))) /\
  (let '(r, w') := PATCH_settings_logo rt (Some f) w in
   exists c',
     r = json 200 (ConfigBody (Some "Logo updated successfully") c') /\
     siteconfigs w' = [c'] /\
     SiteConfig.logo c' = path f /\
     SiteConfig.logoPublicId c' = filename f /\
     SiteConfig._id c' = SiteConfig._id c /\
     SiteConfig.landingBanner c' = SiteConfig.landingBanner c /\
     SiteConfig.landingBannerPublicId c' = SiteConfig.landingBannerPublicId c /\
     same_texts c c' /\
     (SiteConfig.logoPublicId c <> "" ->
      In (SiteConfig.logoPublicId c) (destroyed w'))).
Proof.
  intros Hr Hc. unfold PATCH_settings_banner, PATCH_settings_logo.
  rewrite !checkDbConnection_ready by exact Hr.
  unfold patch_banner, patch_logo, try_catch.
  rewrite !bind_run, !(getOrCreateConfig_found _ _ _ _ Hc).
  rewrite !bind_run. cbn [SiteConfig_applyDefaults SiteConfig.landingBannerPublicId
                            SiteConfig.logoPublicId].
  split.
  - destruct (safeCloudinaryDestroy_run (SiteConfig.landingBannerPublicId c) w)
      as (w1 & E & (_ & _ & S1 & _)).
    destruct (safeCloudinaryDestroy_trace (SiteConfig.landingBannerPublicId c) w)
      as (w1' & E' & D1 & _).
    rewrite E in E'. injection E' as <-. rewrite E. cbv zeta.
    rewrite (SiteConfig_save_then c) by (try reflexivity; congruence).
    eexists. split; [reflexivity|]. split; [reflexivity|].
    unfold same_texts. simpl. auto 12.
  - destruct (safeCloudinaryDestroy_run (SiteConfig.logoPublicId c) w)
      as (w1 & E & (_ & _ & S1 & _)).
    destruct (safeCloudinaryDestroy_trace (SiteConfig.logoPublicId c) w)
      as (w1' & E' & D1 & _).
    rewrite E in E'. injection E' as <-. rewrite E. cbv zeta.
    rewrite (SiteConfig_save_then c) by (try reflexivity; congruence).
    eexists. split; [reflexivity|]. split; [reflexivity|].
    unfold same_texts. simpl. auto 12.
Qed.

Lemma settings_image_replaced_and_released_witness :
  siteconfigs legacy_config_world = [legacy_config] /\
  SiteConfig.servicesText legacy_config = Absent /\
  exists c',
    PATCH_settings_banner sample_runtime (Some sample_file) legacy_config_world
    = (json 200 (ConfigBody (Some "Landing banner updated successfully") c'),
       with_destroyed (cons "smarthome-products/banner")
         (with_siteconfigs (fun _ => [c']) legacy_config_world)) /\
    SiteConfig.landingBanner c' = path sample_file /\
    SiteConfig.landingBannerPublicId c' = filename sample_file /\
    SiteConfig.landingTitle c' = Val "Smart home" /\
    SiteConfig.servicesText c' = Val "".
Proof.
  split; [reflexivity|]. split; [reflexivity|].
  destruct (settings_image_replaced_and_released sample_runtime sample_file
              legacy_config_world legacy_config eq_refl eq_refl) as [H _].
  assert (PATCH_settings_banner sample_runtime (Some sample_file) legacy_config_world
          = ((PATCH_settings_banner sample_runtime (Some sample_file)
                legacy_config_world).1,
             with_destroyed (cons "smarthome-products/banner")
               (with_siteconfigs
                  (fun _ => siteconfigs (PATCH_settings_banner sample_runtime
                                           (Some sample_file) legacy_config_world).2)
                  legacy_config_world))) as Hw by reflexivity.
  destruct (PATCH_settings_banner sample_runtime (Some sample_file) legacy_config_world)
    as [r w'].
  destruct H as (c' & -> & Hs & Hb & Hbi & _ & _ & _ & (Ht & _ & _ & Hsv) & _).
  exists c'. cbn [fst snd] in Hw. rewrite Hs in Hw.
  split; [exact Hw|]. split; [exact Hb|]. split; [exact Hbi|].
  split; [exact Ht|exact Hsv].
Defined.

(** ** Upload names *)

Example public_id_examples :
  public_id sample_runtime "living  room (2).final.JPG" = "1741305600000-living_room_2" /\
  public_id sample_runtime ".hidden" = "1741305600000-" /\
  public_id sample_runtime "a+b=c.png" = "1741305600000-abc".
Proof. repeat split. Qed.

Lemma replace_spaces_app b s c t :
  isWhiteSpace c = false ->
  replace_spaces b (s +:+ String c t)
  = replace_spaces b s +:+ String c (replace_spaces false t).
Proof.
  intros Hc. revert b. induction s as [|a s IH]; intros b; simpl.
  - rewrite Hc. reflexivity.
  - destruct (isWhiteSpace a); [destruct b|]; simpl; rewrite IH; reflexivity.
Qed.

Lemma remove_unsafe_app s t :
  remove_unsafe (s +:+ t) = remove_unsafe s +:+ remove_unsafe t.
Proof.
  induction s as [|a s IH]; simpl; [reflexivity|].
  destruct (isSafeChar a); simpl; rewrite IH; reflexivity.
Qed.

Lemma before_dot_app s t : before_dot (s +:+ String "." t) = before_dot s.
Proof.
  induction s as [|a s IH]; simpl; [reflexivity|].
  destruct (Ascii.eqb a "."); [reflexivity|]. rewrite IH. reflexivity.
Qed.

Lemma before_dot_safe s :
  all_chars isSafeChar s = true ->
  all_chars (fun c => isWordChar c || Ascii.eqb c "-") (before_dot s) = true.
Proof.
  induction s as [|a s IH]; simpl; [reflexivity|].
  intros [Ha Hs]%andb_true_iff.
  destruct (Ascii.eqb a ".") eqn:Ed; [reflexivity|]. simpl.
  rewrite IH by exact Hs. rewrite andb_true_r.
  unfold isSafeChar in Ha. rewrite Ed, orb_false_r in Ha.
  destruct (isWordChar a); [reflexivity|exact Ha].
Qed.

Lemma remove_unsafe_safe s : all_chars isSafeChar (remove_unsafe s) = true.
Proof.
  induction s as [|a s IH]; simpl; [reflexivity|].
  destruct (isSafeChar a) eqn:Ea; [simpl; rewrite Ea|]; exact IH.
Qed.

(** X20. The public id given to an upload is the upload instant, a hyphen,
    and a stem made only of ASCII letters, digits, underscores and hyphens;
    the stem stops at the first dot of the file name, so what follows the
    first dot (the extension) does not count: at the same instant, names
    that differ only there get the same public id. *)
Theorem public_id_stem rt originalname :
  (exists stem,
     public_id rt originalname = pretty (now rt) +:+ "-" +:+ stem /\
     all_chars (fun c => isWordChar c || Ascii.eqb c "-") stem = true) /\
  (forall rest, public_id rt (originalname +:+ String "." rest) = public_id rt originalname).
Proof.
  split.
  - exists (before_dot (safeName originalname)). split; [reflexivity|].
    apply before_dot_safe, remove_unsafe_safe.
  - intros rest. unfold public_id, safeName.
    rewrite replace_spaces_app by reflexivity.
    rewrite remove_unsafe_app. simpl remove_unsafe.
    change (isSafeChar ".") with true. cbv iota.
    rewrite before_dot_app. reflexivity.
Qed.

(** ** The settings routes of [server.js] *)

(** A settings route of [server.js], on at most one stored document, leaves
    exactly the document it found (or built) under the same identifier, or
    changes nothing in the collection. *)
Lemma ServerJsSettings_route_core rt req w :
  (length (sitesettings w) <= 1)%nat ->
  let w' := (ServerJsSettings.route rt req w).2 in
  sitesettings w' = sitesettings w \/
  exists s', sitesettings w' = [s'] /\
    SiteSettings._id s'
    = SiteSettings._id (default (ServerJs.new_SiteSettings rt) (head (sitesettings w))).
Proof.
  intros Hlen. destruct w as [rs ps cs ss ds]. simpl in Hlen. cbv zeta.
  destruct req as [ | body files | body | body | file | file ].
  all: unfold ServerJsSettings.route, ServerJs.GET_settings, ServerJsSettings.PUT_settings,
    ServerJsSettings.PATCH_settings_landing, ServerJsSettings.PATCH_settings_about,
    ServerJsSettings.PATCH_settings_banner, ServerJsSettings.PATCH_settings_logo,
    checkDbConnection.
  all: cbn [readyState].
  all: destruct (rs =? 1)%Z; [|left; reflexivity].
  all: destruct ss as [|s [|s2 ss]]; [| |simpl in Hlen; lia].
  all: try (destruct file as [file|]; [|left; reflexivity]).
  all: try (destruct files as [[[[|fb lb]|] [[|fl ll]|]]|]).
  all: unfold ServerJs.get_settings, ServerJsSettings.put_settings,
    ServerJsSettings.patch_landing, ServerJsSettings.patch_about,
    ServerJsSettings.patch_banner, ServerJsSettings.patch_logo, try_catch,
    ServerJsSettings.findOne_or_new, ServerJsSettings.put_landingBanner,
    ServerJsSettings.put_logo, ServerJsSettings.SiteSettings_save,
    ServerJs.SiteSettings_findOne, ServerJs.SiteSettings_insert,
    safeCloudinaryDestroy, ServerJsSettings.assign_if_defined,
    mbind, io_bind, mret, io_ret, get_world, modify, throw; simpl.
  all: repeat match goal with
         | |- context [String.eqb ?a ?b] => destruct (String.eqb a b); simpl
         | |- context [defined ?v] => destruct (defined v); simpl
         end.
  all: rewrite ?N.eqb_refl.
  all: first [left; reflexivity | right; eexists; split; reflexivity].
Qed.

(** X21. The settings routes of [server.js] keep the collection a
    singleton: along any sequence of requests (GET, PUT and the four PATCH
    routes), a collection of at most one document stays so, and a stored
    document keeps its identifier; the routes that build a document with
    [new SiteSettings()] insert it only when none is stored. *)
Theorem server_settings_stay_single reqs w :
  (length (sitesettings w) <= 1)%nat ->
  (length (sitesettings (ServerJsSettings.run reqs w)) <= 1)%nat /\
  forall s, sitesettings w = [s] ->
    exists s', sitesettings (ServerJsSettings.run reqs w) = [s'] /\
      SiteSettings._id s' = SiteSettings._id s.
Proof.
  revert w. induction reqs as [|[rt req] reqs IH]; intros w Hlen.
  - split; [exact Hlen|]. intros s Hs. exists s. auto.
  - cbn [ServerJsSettings.run].
    pose proof (ServerJsSettings_route_core rt req w Hlen) as Hc. cbv zeta in Hc.
    set (w1 := (ServerJsSettings.route rt req w).2) in *.
    assert (length (sitesettings w1) <= 1)%nat as Hlen1.
    { destruct Hc as [-> | (s' & -> & _)]; [exact Hlen|simpl; lia]. }
    destruct (IH w1 Hlen1) as [IH1 IH2]. split; [exact IH1|].
    intros s Hs. rewrite Hs in Hc. simpl in Hc.
    destruct Hc as [Hc | (s' & Hc & Hid)].
    + apply IH2. exact Hc.
    + destruct (IH2 s' Hc) as (s2 & H2 & Hid2). exists s2. split; [exact H2|congruence].
Qed.

Lemma server_settings_stay_single_witness :
  sitesettings
    (ServerJsSettings.run
       [(sample_runtime, ServerJsSettings.PatchAbout about_body);
        (colliding_runtime, ServerJsSettings.PatchBanner (Some sample_file));
        (sample_runtime, ServerJsSettings.Get)] empty_world)
  = [ServerJsSettings.set_landingBanner sample_file
       (ServerJsSettings.set_aboutText (JString "We wire homes.")
          (ServerJs.new_SiteSettings sample_runtime))] /\
  (length (sitesettings
     (ServerJsSettings.run
        [(sample_runtime, ServerJsSettings.PatchAbout about_body);
         (colliding_runtime, ServerJsSettings.PatchBanner (Some sample_file));
         (sample_runtime, ServerJsSettings.Get)] empty_world)) <= 1)%nat.
Proof.
  split; [reflexivity|].
  apply (server_settings_stay_single
           [(sample_runtime, ServerJsSettings.PatchAbout about_body);
            (colliding_runtime, ServerJsSettings.PatchBanner (Some sample_file));
            (sample_runtime, ServerJsSettings.Get)] empty_world).
  simpl. lia.
Defined.

(** ** The two revisions of the settings routes agree *)

Lemma same_settings_loaded s c :
  same_settings s c ->
  same_settings (SiteSettings_applyDefaults s) (SiteConfig_applyDefaults c).
Proof.
  unfold same_settings. simpl. intros (-> & -> & -> & -> & -> & -> & ->).
  repeat split.
Qed.

Lemma find_related rt w1 w2 :
  revisions_agree w1 w2 ->
  exists d c w2',
    ServerJsSettings.findOne_or_new rt w1 = (Ok d, w1) /\
    getOrCreateConfig rt w2 = (Ok c, w2') /\
    in_handler d c w1 w2'.
Proof.
  intros (Hr & Hd & H1 & H2 & H).
  destruct w1 as [rs ps cs ss ds], w2 as [rs2 ps2 cs2 ss2 ds2].
  simpl in Hr, Hd, H1, H2, H. subst rs2 ds2.
  destruct ss as [|s [|s2 ss]]; [| |simpl in H1; lia].
  all: destruct cs2 as [|c [|c2 cs2]]; [| |simpl in H2; lia].
  all: do 3 eexists; split; [reflexivity|]; split;
    [unfold getOrCreateConfig, SiteConfig_findOne, SiteConfig_insert,
       mbind, io_bind, mret, io_ret, get_world, modify; simpl; reflexivity|].
  all: unfold in_handler, revisions_agree, saveable; simpl.
  all: refine (conj (conj eq_refl (conj eq_refl (conj _ (conj _ _))))
                 (conj (same_settings_loaded _ _ (H rt)) (conj _ _)));
    simpl; auto; try exact H; eauto 10.
Qed.

Lemma texts_related (f : SiteSettings.t -> SiteSettings.t) (g : SiteConfig.t -> SiteConfig.t)
  d c w1 w2 :
  (forall s c, same_settings s c -> same_settings (f s) (g c)) ->
  (forall s, SiteSettings._id (f s) = SiteSettings._id s) ->
  (forall c, SiteConfig._id (g c) = SiteConfig._id c) ->
  in_handler d c w1 w2 ->
  in_handler (ServerJsSettings.with_doc f d) (g c) w1 w2.
Proof.
  intros Hf Hi1 Hi2 (Ha & Hs & Hv & c0 & Hc & Hid).
  split; [exact Ha|]. split; [apply Hf, Hs|]. split.
  - destruct Hv as [Hv | (Hn & s & Hs1 & Hid1)]; [left; exact Hv|].
    right. split; [exact Hn|]. exists s. split; [exact Hs1|].
    simpl. rewrite Hi1. exact Hid1.
  - exists c0. split; [exact Hc|]. rewrite Hi2. exact Hid.
Qed.

Lemma destroy_related id d c w1 w2 :
  in_handler d c w1 w2 ->
  exists w1' w2',
    safeCloudinaryDestroy id w1 = (Ok tt, w1') /\
    safeCloudinaryDestroy id w2 = (Ok tt, w2') /\
    in_handler d c w1' w2'.
Proof.
  intros H. unfold safeCloudinaryDestroy.
  destruct (negb (String.eqb id "")).
  - do 2 eexists. split; [reflexivity|]. split; [reflexivity|].
    destruct H as ((Hr & Hd & H1 & H2 & H) & Hs & Hv & Hc).
    unfold in_handler, revisions_agree, saveable. simpl.
    rewrite Hd. auto 10.
  - do 2 eexists. split; [reflexivity|]. split; [reflexivity|]. exact H.
Qed.

Lemma save_related d c w1 w2 :
  in_handler d c w1 w2 ->
  exists w1' w2',
    ServerJsSettings.SiteSettings_save d w1 = (Ok tt, w1') /\
    SiteConfig_save c w2 = (Ok tt, w2') /\
    revisions_agree w1' w2'.
Proof.
  intros ((Hr & Hd & H1 & H2 & H) & Hs & Hv & c0 & Hc & Hid).
  unfold ServerJsSettings.SiteSettings_save, SiteConfig_save,
    ServerJs.SiteSettings_insert.
  destruct Hv as [(-> & Hn) | (-> & s & Hs1 & Hid1)].
  - unfold mbind, io_bind, get_world, modify. rewrite Hn. simpl.
    do 2 eexists. split; [reflexivity|]. split; [reflexivity|].
    unfold revisions_agree. simpl. rewrite Hn, Hc. simpl.
    rewrite Hid, N.eqb_refl. simpl. auto 10.
  - unfold modify.
    do 2 eexists. split; [reflexivity|]. split; [reflexivity|].
    unfold revisions_agree. simpl. rewrite Hs1, Hc. simpl.
    rewrite Hid, Hid1, !N.eqb_refl. simpl. auto 10.
Qed.

Lemma banner_related files d c w1 w2 :
  in_handler d c w1 w2 ->
  exists w1' w2',
    in_handler d c w1' w2' /\
    ((ServerJsSettings.put_landingBanner files d w1 = (Throw TypeError, w1') /\
      put_landingBanner files c w2 = (Throw TypeError, w2')) \/
     exists d' c',
       ServerJsSettings.put_landingBanner files d w1 = (Ok d', w1') /\
       put_landingBanner files c w2 = (Ok c', w2') /\
       in_handler d' c' w1' w2').
Proof.
  intros H. unfold ServerJsSettings.put_landingBanner, put_landingBanner.
  assert (SiteSettings.landingBannerPublicId (ServerJsSettings.doc d)
          = SiteConfig.landingBannerPublicId c) as ->
    by (destruct H as (_ & (_ & _ & _ & _ & E & _) & _); exact E).
  destruct (files ≫= f_landingBanner) as [[|f l]|].
  - destruct (destroy_related (SiteConfig.landingBannerPublicId c) _ _ _ _ H)
      as (w1' & w2' & E1 & E2 & H').
    exists w1', w2'. split; [exact H'|]. left.
    rewrite !bind_run, E1, E2. split; reflexivity.
  - destruct (destroy_related (SiteConfig.landingBannerPublicId c) _ _ _ _ H)
      as (w1' & w2' & E1 & E2 & H').
    exists w1', w2'. split; [exact H'|]. right.
    rewrite !bind_run, E1, E2. do 2 eexists.
    split; [reflexivity|]. split; [reflexivity|].
    apply (texts_related (ServerJsSettings.set_landingBanner f) (set_landingBanner f));
      [|reflexivity|reflexivity|exact H'].
    intros s0 c0 (E1' & E2' & E3' & E4' & E5' & E6' & E7').
    repeat split; assumption.
  - exists w1, w2. split; [exact H|]. right. exists d, c. auto.
Qed.

Lemma logo_related files d c w1 w2 :
  in_handler d c w1 w2 ->
  exists w1' w2',
    in_handler d c w1' w2' /\
    ((ServerJsSettings.put_logo files d w1 = (Throw TypeError, w1') /\
      put_logo files c w2 = (Throw TypeError, w2')) \/
     exists d' c',
       ServerJsSettings.put_logo files d w1 = (Ok d', w1') /\
       put_logo files c w2 = (Ok c', w2') /\
       in_handler d' c' w1' w2').
Proof.
  intros H. unfold ServerJsSettings.put_logo, put_logo.
  assert (SiteSettings.logoPublicId (ServerJsSettings.doc d)
          = SiteConfig.logoPublicId c) as ->
    by (destruct H as (_ & (_ & _ & _ & _ & _ & _ & E) & _); exact E).
  destruct (files ≫= f_logo) as [[|f l]|].
  - destruct (destroy_related (SiteConfig.logoPublicId c) _ _ _ _ H)
      as (w1' & w2' & E1 & E2 & H').
    exists w1', w2'. split; [exact H'|]. left.
    rewrite !bind_run, E1, E2. split; reflexivity.
  - destruct (destroy_related (SiteConfig.logoPublicId c) _ _ _ _ H)
      as (w1' & w2' & E1 & E2 & H').
    exists w1', w2'. split; [exact H'|]. right.
    rewrite !bind_run, E1, E2. do 2 eexists.
    split; [reflexivity|]. split; [reflexivity|].
    apply (texts_related (ServerJsSettings.set_logo f) (set_logo f));
      [|reflexivity|reflexivity|exact H'].
    intros s0 c0 (E1' & E2' & E3' & E4' & E5' & E6' & E7').
    repeat split; assumption.
  - exists w1, w2. split; [exact H|]. right. exists d, c. auto.
Qed.

Lemma assign_related set1 set2 v s c :
  (forall s c, same_settings s c -> same_settings (set1 v s) (set2 v c)) ->
  same_settings s c ->
  same_settings (ServerJsSettings.assign_if_defined set1 v s) (assign_if_defined set2 v c).
Proof.
  intros Hset H. unfold ServerJsSettings.assign_if_defined, assign_if_defined.
  destruct (defined v); [apply Hset, H|exact H].
Qed.

Lemma ServerJsSettings_assign_id set v s :
  (forall v s, SiteSettings._id (set v s) = SiteSettings._id s) ->
  SiteSettings._id (ServerJsSettings.assign_if_defined set v s) = SiteSettings._id s.
Proof.
  intros H. unfold ServerJsSettings.assign_if_defined.
  destruct (defined v); [apply H|reflexivity].
Qed.

Lemma same_settings_texts :
  (forall v s c, same_settings s c ->
     same_settings (ServerJsSettings.set_landingTitle v s) (set_landingTitle v c)) /\
  (forall v s c, same_settings s c ->
     same_settings (ServerJsSettings.set_landingDescription v s) (set_landingDescription v c)) /\
  (forall v s c, same_settings s c ->
     same_settings (ServerJsSettings.set_aboutText v s) (set_aboutText v c)) /\
  (forall v s c, same_settings s c ->
     same_settings s (assign_if_defined set_servicesText v c)) /\
  (forall rt s c, same_settings s c ->
     same_settings (ServerJsSettings.set_updatedAt rt s) c).
Proof.
  unfold same_settings, assign_if_defined. repeat split; simpl.
  all: try (destruct (defined v); simpl).
  all: intuition.
Qed.

Lemma in_handler_assign set1 set2 v d c w1 w2 :
  (forall v s c, same_settings s c -> same_settings (set1 v s) (set2 v c)) ->
  (forall v s, SiteSettings._id (set1 v s) = SiteSettings._id s) ->
  (forall v c, SiteConfig._id (set2 v c) = SiteConfig._id c) ->
  in_handler d c w1 w2 ->
  in_handler (ServerJsSettings.with_doc (ServerJsSettings.assign_if_defined set1 v) d)
             (assign_if_defined set2 v c) w1 w2.
Proof.
  intros H1 H2 H3.
  apply (texts_related (ServerJsSettings.assign_if_defined set1 v) (assign_if_defined set2 v)).
  - intros s0 c0. apply assign_related. apply H1.
  - intros s0. apply ServerJsSettings_assign_id. exact H2.
  - intros c0. apply assign_if_defined_id. exact H3.
Qed.

Lemma in_handler_services v d c w1 w2 :
  in_handler d c w1 w2 -> in_handler d (assign_if_defined set_servicesText v c) w1 w2.
Proof.
  intros (Ha & Hs & Hv & c0 & Hc & Hid).
  split; [exact Ha|]. split; [apply same_settings_texts, Hs|]. split; [exact Hv|].
  exists c0. split; [exact Hc|].
  rewrite assign_if_defined_id by reflexivity. exact Hid.
Qed.

Lemma in_handler_updatedAt rt d c w1 w2 :
  in_handler d c w1 w2 ->
  in_handler (ServerJsSettings.with_doc (ServerJsSettings.set_updatedAt rt) d) c w1 w2.
Proof.
  apply (texts_related (ServerJsSettings.set_updatedAt rt) (fun c => c));
    [|reflexivity|reflexivity].
  intros s0 c0. apply same_settings_texts.
Qed.

(** The end of every writing handler: stamp, save, answer. *)
Lemma finish_related rt d c w1 w2 m (h1 h2 : exn -> response) :
  in_handler d c w1 w2 ->
  let r1 := (let (o, w') :=
               (ServerJsSettings.SiteSettings_save
                  (ServerJsSettings.with_doc (ServerJsSettings.set_updatedAt rt) d) ;;
                mret (json 200 (SettingsBody (Some m)
                        (ServerJsSettings.doc
                           (ServerJsSettings.with_doc (ServerJsSettings.set_updatedAt rt) d)))))
               w1 in
             match o with Ok r => (r, w') | Throw e => (h1 e, w') end) in
  let r2 := (let (o, w') :=
               (SiteConfig_save c ;; mret (json 200 (ConfigBody (Some m) c))) w2 in
             match o with Ok r => (r, w') | Throw e => (h2 e, w') end) in
  same_answer r1.1 r2.1 /\ revisions_agree r1.2 r2.2.
Proof.
  intros H. apply (in_handler_updatedAt rt) in H.
  destruct (save_related _ _ _ _ H) as (w1' & w2' & E1 & E2 & Ha).
  cbv zeta. rewrite !bind_run, E1, E2. simpl.
  split; [|exact Ha]. split; [reflexivity|]. split; [reflexivity|apply H].
Qed.

Lemma get_related rt w1 w2 :
  revisions_agree w1 w2 ->
  same_answer (ServerJs.get_settings rt w1).1 (get_settings rt w2).1 /\
  revisions_agree (ServerJs.get_settings rt w1).2 (get_settings rt w2).2.
Proof.
  intros (Hr & Hd & H1 & H2 & H).
  destruct w1 as [rs ps cs ss ds], w2 as [rs2 ps2 cs2 ss2 ds2].
  simpl in Hr, Hd, H1, H2, H. subst rs2 ds2.
  destruct ss as [|s [|s2 ss]]; [| |simpl in H1; lia].
  all: destruct cs2 as [|c [|c2 cs2]]; [| |simpl in H2; lia].
  all: unfold ServerJs.get_settings, get_settings, try_catch,
         ServerJs.SiteSettings_findOne, ServerJs.SiteSettings_insert,
         getOrCreateConfig, SiteConfig_findOne, SiteConfig_insert,
         mbind, io_bind, mret, io_ret, get_world, modify; simpl.
  all: refine (conj (conj eq_refl (conj eq_refl (same_settings_loaded _ _ (H rt))))
                 (conj eq_refl (conj eq_refl (conj _ (conj _ _))))); simpl; auto.
Qed.

Lemma image_related (f1 : SiteSettings.t -> SiteSettings.t) (g1 : SiteConfig.t -> SiteConfig.t)
  rt id1 id2 d c w1 w2 m (h1 h2 : exn -> response) :
  id1 = id2 ->
  (forall s c, same_settings s c -> same_settings (f1 s) (g1 c)) ->
  (forall s, SiteSettings._id (f1 s) = SiteSettings._id s) ->
  (forall c, SiteConfig._id (g1 c) = SiteConfig._id c) ->
  in_handler d c w1 w2 ->
  let r1 := (let (o, w') :=
               (safeCloudinaryDestroy id1 ;;
                ServerJsSettings.SiteSettings_save
                  (ServerJsSettings.with_doc (ServerJsSettings.set_updatedAt rt)
                     (ServerJsSettings.with_doc f1 d)) ;;
                mret (json 200 (SettingsBody (Some m)
                        (ServerJsSettings.doc
                           (ServerJsSettings.with_doc (ServerJsSettings.set_updatedAt rt)
                              (ServerJsSettings.with_doc f1 d))))))
               w1 in
             match o with Ok r => (r, w') | Throw e => (h1 e, w') end) in
  let r2 := (let (o, w') :=
               (safeCloudinaryDestroy id2 ;;
                SiteConfig_save (g1 c) ;; mret (json 200 (ConfigBody (Some m) (g1 c)))) w2 in
             match o with Ok r => (r, w') | Throw e => (h2 e, w') end) in
  same_answer r1.1 r2.1 /\ revisions_agree r1.2 r2.2.
Proof.
  intros <- Hf Hi1 Hi2 H. cbv zeta.
  destruct (destroy_related id1 _ _ _ _ H) as (w1' & w2' & E1 & E2 & H').
  rewrite 2!bind_run, E1, E2.
  apply (finish_related rt _ _ _ _ m h1 h2).
  apply texts_related; assumption.
Qed.

Lemma settings_revisions_step rt req w1 w2 :
  revisions_agree w1 w2 ->
  same_answer (ServerJsSettings.route rt req w1).1 (settings_route rt (later req) w2).1 /\
  revisions_agree (ServerJsSettings.route rt req w1).2 (settings_route rt (later req) w2).2.
Proof.
  intros Ha.
  assert (readyState w2 = readyState w1) as Hr by (symmetry; apply Ha).
  destruct (same_settings_texts) as (T1 & T2 & T3 & _ & _).
  destruct req as [ | body files | body | body | file | file ].
  all: cbn [later ServerJsSettings.route settings_route].
  all: unfold ServerJs.GET_settings, ServerJsSettings.PUT_settings,
    ServerJsSettings.PATCH_settings_landing, ServerJsSettings.PATCH_settings_about,
    ServerJsSettings.PATCH_settings_banner, ServerJsSettings.PATCH_settings_logo,
    GET_settings, PUT_settings, PATCH_settings_landing,
    PATCH_settings_about, PATCH_settings_banner, PATCH_settings_logo, checkDbConnection.
  all: rewrite Hr.
  all: destruct (readyState w1 =? 1)%Z; [|split; [split; reflexivity|exact Ha]].
  all: try (destruct file as [file|]; [|split; [split; reflexivity|exact Ha]]).
  1: apply get_related; exact Ha.
  all: destruct (find_related rt _ _ Ha) as (d & c & w2' & E1 & E2 & H).
  - unfold ServerJsSettings.put_settings, put_settings, try_catch.
    rewrite !bind_run, E1, E2. cbv zeta.
    apply (in_handler_assign _ _ (SettingsBody.landingTitle body) _ _ _ _ T1) in H;
      [|reflexivity|reflexivity].
    apply (in_handler_assign _ _ (SettingsBody.landingDescription body) _ _ _ _ T2) in H;
      [|reflexivity|reflexivity].
    apply (in_handler_assign _ _ (SettingsBody.aboutText body) _ _ _ _ T3) in H;
      [|reflexivity|reflexivity].
    apply (in_handler_services (SettingsBody.servicesText body)) in H.
    destruct (banner_related files _ _ _ _ H)
      as (w1a & w2a & Hk & [(B1 & B2) | (d' & c' & B1 & B2 & H')]).
    { rewrite !bind_run, B1, B2. simpl. split; [split; reflexivity|apply Hk]. }
    rewrite !bind_run, B1, B2. clear B1 B2.
    destruct (logo_related files _ _ _ _ H')
      as (w1b & w2b & Hk' & [(B1 & B2) | (d'' & c'' & B1 & B2 & H'')]).
    { rewrite !bind_run, B1, B2. simpl. split; [split; reflexivity|apply Hk']. }
    rewrite !bind_run, B1, B2.
    apply (finish_related rt _ _ _ _ _ _ _ H'').
  - unfold ServerJsSettings.patch_landing, patch_landing, try_catch.
    rewrite !bind_run, E1, E2. cbv zeta.
    apply (in_handler_assign _ _ (SettingsBody.landingTitle body) _ _ _ _ T1) in H;
      [|reflexivity|reflexivity].
    apply (in_handler_assign _ _ (SettingsBody.landingDescription body) _ _ _ _ T2) in H;
      [|reflexivity|reflexivity].
    apply (finish_related rt _ _ _ _ _ _ _ H).
  - unfold ServerJsSettings.patch_about, patch_about, try_catch.
    rewrite !bind_run, E1, E2. cbv zeta.
    apply (in_handler_assign _ _ (SettingsBody.aboutText body) _ _ _ _ T3) in H;
      [|reflexivity|reflexivity].
    apply (finish_related rt _ _ _ _ _ _ _ H).
  - unfold ServerJsSettings.patch_banner, patch_banner, try_catch.
    rewrite !bind_run, E1, E2. cbv zeta.
    apply (image_related (ServerJsSettings.set_landingBanner file) (set_landingBanner file));
      [apply H|..|exact H]; try reflexivity.
    intros s0 c0 (E1' & E2' & E3' & E4' & E5' & E6' & E7').
    repeat split; assumption.
  - unfold ServerJsSettings.patch_logo, patch_logo, try_catch.
    rewrite !bind_run, E1, E2. cbv zeta.
    apply (image_related (ServerJsSettings.set_logo file) (set_logo file));
      [apply H|..|exact H]; try reflexivity.
    intros s0 c0 (E1' & E2' & E3' & E4' & E5' & E6' & E7').
    repeat split; assumption.
Qed.

Lemma revisions_agree_run reqs w1 w2 :
  revisions_agree w1 w2 ->
  revisions_agree (ServerJsSettings.run reqs w1)
                  (run_settings (map (prod_map id later) reqs) w2).
Proof.
  revert w1 w2. induction reqs as [|[rt req] reqs IH]; intros w1 w2 H; [exact H|].
  simpl. apply IH. apply settings_revisions_step. exact H.
Qed.

(** X22. The settings routes of the two revisions agree.  Started from
    stores that show the same settings (both empty, for one), and given the
    same requests, [server.js] and the later revision give every request
    the same status and the same texts and images (or the same error), and
    ask Cloudinary for the same deletions; the later revision differs only
    by its services text and by creating the document before a failing
    PUT. *)
Theorem settings_revisions_agree reqs rt req w1 w2 :
  revisions_agree w1 w2 ->
  let w1' := ServerJsSettings.run reqs w1 in
  let w2' := run_settings (map (prod_map id later) reqs) w2 in
  same_answer (ServerJsSettings.route rt req w1').1 (settings_route rt (later req) w2').1 /\
  destroyed (ServerJsSettings.route rt req w1').2
  = destroyed (settings_route rt (later req) w2').2.
Proof.
  intros H. cbv zeta.
  destruct (settings_revisions_step rt req _ _ (revisions_agree_run reqs _ _ H))
    as (Hans & Hagree).
  split; [exact Hans|apply Hagree].
Qed.

Lemma settings_revisions_agree_witness :
  revisions_agree empty_world empty_world /\
  same_answer
    (ServerJsSettings.route sample_runtime ServerJsSettings.Get
       (ServerJsSettings.run
          [(sample_runtime, ServerJsSettings.PatchAbout about_body);
           (sample_runtime, ServerJsSettings.PatchBanner (Some sample_file))]
          empty_world)).1
    (settings_route sample_runtime GetSettings
       (run_settings
          [(sample_runtime, PatchAbout about_body);
           (sample_runtime, PatchBanner (Some sample_file))]
          empty_world)).1.
Proof.
  assert (revisions_agree empty_world empty_world) as H
    by (unfold revisions_agree, same_settings; simpl; repeat split; lia).
  split; [exact H|].
  exact (proj1 (settings_revisions_agree
                  [(sample_runtime, ServerJsSettings.PatchAbout about_body);
                   (sample_runtime, ServerJsSettings.PatchBanner (Some sample_file))]
                  sample_runtime ServerJsSettings.Get empty_world empty_world H)).
Defined.

(** ** The first revision and [server.js] *)

Lemma invalidPaths_first_revision p :
  enumValidator (status p) = true -> dateCastOk (expectedArrival p) = true ->
  invalidPaths p = FirstRevision.invalidPaths p.
Proof.
  intros Hs He. unfold invalidPaths, FirstRevision.invalidPaths.
  rewrite Hs, He. rewrite !app_nil_r. reflexivity.
Qed.

Lemma FirstRevision_save_eq k p w :
  enumValidator (status p) = true -> dateCastOk (expectedArrival p) = true ->
  FirstRevision.save k p w = save k p w.
Proof.
  intros Hs He. unfold FirstRevision.save, save, FirstRevision.validate, validate.
  rewrite (invalidPaths_first_revision p Hs He). reflexivity.
Qed.

Lemma FirstRevision_save_new_eq k p w :
  enumValidator (status p) = true -> dateCastOk (expectedArrival p) = true ->
  FirstRevision.save_new k p w = save_new k p w.
Proof.
  intros Hs He. unfold FirstRevision.save_new, save_new, FirstRevision.validate, validate.
  rewrite (invalidPaths_first_revision p Hs He). reflexivity.
Qed.

Lemma ret_run {A} (a : A) w : (mret a : io A) w = (Ok a, w).
Proof. reflexivity. Qed.

Lemma put_price_loaded body p :
  put_price body (applyDefaults p) = applyDefaults <$> put_price body p.
Proof.
  unfold put_price. destruct (defined (Body.price body)); [|reflexivity].
  destruct (isNaN _); reflexivity.
Qed.

Lemma put_description_loaded body p :
  put_description body (applyDefaults p) = applyDefaults (put_description body p).
Proof. unfold put_description. destruct (defined (Body.description body)); reflexivity. Qed.

Lemma put_mainImage_loaded files p w :
  put_mainImage files (applyDefaults p) w = loaded_outcome (put_mainImage files p w).
Proof.
  unfold put_mainImage, loaded_outcome. destruct (files ≫= f_mainImage) as [l|]; [|reflexivity].
  rewrite !bind_run. cbn [applyDefaults mainImagePublicId].
  destruct (safeCloudinaryDestroy_run (mainImagePublicId p) w) as (w1 & -> & _).
  destruct l; reflexivity.
Qed.

Lemma put_otherPhotos_loaded files p w :
  put_otherPhotos files (applyDefaults p) w = loaded_outcome (put_otherPhotos files p w).
Proof.
  unfold put_otherPhotos, loaded_outcome. destruct (files ≫= f_otherPhotos) as [l|]; [|reflexivity].
  rewrite !bind_run. cbn [applyDefaults otherPhotosPublicIds].
  destruct (destroy_all_run (otherPhotosPublicIds p) w) as (w1 & -> & _).
  reflexivity.
Qed.

Lemma FirstRevision_Product_findById_run id w :
  FirstRevision.Product_findById id w =
  match castObjectId id with
  | None => (Throw (CastError "_id"), w)
  | Some k =>
      (Ok (match products w !! k with
           | Some p => Some (k, p)
           | None => None
           end), w)
  end.
Proof. unfold FirstRevision.Product_findById. destruct (castObjectId id); reflexivity. Qed.

Lemma invalidPaths_loaded p :
  enumValidator (status p) = true -> dateCastOk (expectedArrival p) = true ->
  invalidPaths (applyDefaults p) = FirstRevision.invalidPaths p.
Proof.
  intros Hs He. unfold invalidPaths, FirstRevision.invalidPaths.
  cbn [applyDefaults name price mainImage mainImagePublicId status expectedArrival].
  rewrite He. destruct (status p); try rewrite Hs; rewrite ?app_nil_r; reflexivity.
Qed.

Lemma with_products_insert_twice k p q w :
  with_products (insert k q) (with_products (insert k p) w) = with_products (insert k q) w.
Proof. unfold with_products. simpl. rewrite insert_insert_eq. reflexivity. Qed.

Lemma first_revision_update_loaded rt id body files w :
  all_valid w -> no_status_fields body -> description_is_trimmed body ->
  PUT_products_id rt id body files w =
  as_loaded (FirstRevision.PUT_products_id rt id body files w).
Proof.
  intros Hw (Hs & Hn & He) Hd.
  unfold FirstRevision.PUT_products_id, PUT_products_id, checkDbConnection.
  destruct (readyState w =? 1)%Z; [|reflexivity].
  unfold FirstRevision.update_product, update_product, try_catch.
  rewrite !bind_run, Product_findById_run, FirstRevision_Product_findById_run.
  destruct (castObjectId id) as [k|]; [|reflexivity].
  destruct (products w !! k) as [p|] eqn:Hp; [|reflexivity].
  apply Hw in Hp. apply invalidPaths_nil in Hp as (_ & _ & _ & _ & Hvs & Hve).
  rewrite !bind_run, !put_name_run.
  replace (if truthy (Body.name body)
           then set_name (trim (or_empty (Body.name body))) (applyDefaults p)
           else applyDefaults p)
    with (applyDefaults (if truthy (Body.name body)
                         then set_name (trim (or_empty (Body.name body))) p else p))
    by (destruct (truthy (Body.name body)); reflexivity).
  rewrite put_price_loaded.
  destruct (put_price body _) as [p1|] eqn:Epr; [|reflexivity].
  assert (status p1 = status p /\ expectedArrival p1 = expectedArrival p) as [Hs1 He1].
  { revert Epr. unfold put_price.
    destruct (defined (Body.price body)); [destruct (isNaN _); [discriminate|]|];
      intros [= <-]; destruct (truthy (Body.name body)); split; reflexivity. }
  assert (FirstRevision.put_description body p1 w = (Ok (put_description body p1), w)) as Hpd.
  { unfold FirstRevision.put_description, put_description, description_is_trimmed in *.
    destruct (Body.description body) as [| |s]; [reflexivity|contradiction|].
    unfold method_trim, FirstRevision.set_description, set_description,
      mbind, io_bind, mret, io_ret. simpl.
    rewrite !Hd. reflexivity. }
  assert (status (put_description body p1) = status p /\
          expectedArrival (put_description body p1) = expectedArrival p) as [Hs2 He2]
    by (unfold put_description; destruct (defined (Body.description body)); auto).
  cbn [fmap option_fmap option_map].
  rewrite !bind_run, Hpd, put_description_loaded. clear Hpd.
  set (p2 := put_description body p1) in *. clearbody p2.
  unfold put_status, put_statusNote, put_expectedArrival; rewrite Hs, Hn, He.
  cbn [defined]. cbv beta iota.
  rewrite ?bind_run, !put_classifications_run.
  destruct (Body.classifications body) as [| |c]; [|reflexivity|].
  all: rewrite ?bind_run, ?ret_run; cbv beta iota; rewrite ?bind_run.
  all: change (set_classifications (trim c) (applyDefaults p2))
         with (applyDefaults (set_classifications (trim c) p2)) || idtac.
  all: rewrite put_mainImage_loaded; unfold loaded_outcome.
  all: match goal with
       | |- context [put_mainImage ?fl ?P ?w0] =>
           destruct (put_mainImage_run fl P w0) as (w1 & _ & E); rewrite !E; clear E
       end.
  all: cbn [fst snd].
  all: destruct (files ≫= f_mainImage) as [[|f l]|]; [reflexivity| |].
  all: rewrite ?bind_run.
  all: rewrite put_otherPhotos_loaded; unfold loaded_outcome.
  all: match goal with
       | |- context [put_otherPhotos ?fl ?P ?w0] =>
           destruct (put_otherPhotos_run fl P w0) as (w2 & _ & E); rewrite !E; clear E
       end.
  all: cbn [fst snd]; rewrite ?bind_run.
  all: unfold FirstRevision.save, FirstRevision.validate; rewrite save_run.
  all: rewrite invalidPaths_loaded by
         (destruct (files ≫= f_otherPhotos); simpl; congruence).
  all: match goal with
       | |- context [FirstRevision.invalidPaths ?P] =>
           destruct (FirstRevision.invalidPaths P); [|reflexivity]
       end.
  all: rewrite ?bind_run; unfold modify, mret, io_ret, as_loaded, with_defaults,
         stored_with_defaults; cbn [fst snd res_json res_status json].
  all: rewrite with_products_insert_twice; reflexivity.
Qed.

Lemma first_revision_update_same rt id body files w :
  all_valid w -> no_status_fields body -> description_is_trimmed body ->
  (forall k p, castObjectId id = Some k -> products w !! k = Some p -> status p <> Absent) ->
  PUT_products_id rt id body files w = FirstRevision.PUT_products_id rt id body files w.
Proof.
  intros Hw (Hs & Hn & He) Hd Hst.
  unfold FirstRevision.PUT_products_id, PUT_products_id, checkDbConnection.
  destruct (readyState w =? 1)%Z; [|reflexivity].
  unfold FirstRevision.update_product, update_product, try_catch.
  rewrite !bind_run, Product_findById_run, FirstRevision_Product_findById_run.
  destruct (castObjectId id) as [k|]; [|reflexivity].
  destruct (products w !! k) as [p|] eqn:Hp; [|reflexivity].
  rewrite (applyDefaults_id p) by (apply (Hst k p eq_refl Hp)).
  apply Hw in Hp. apply invalidPaths_nil in Hp as (_ & _ & _ & _ & Hvs & Hve).
  rewrite !bind_run, !put_name_run.
  destruct (put_price body _) as [p1|] eqn:Epr; [|reflexivity].
  assert (status p1 = status p /\ expectedArrival p1 = expectedArrival p) as [Hs1 He1].
  { revert Epr. unfold put_price.
    destruct (defined (Body.price body)); [destruct (isNaN _); [discriminate|]|];
      intros [= <-]; destruct (truthy (Body.name body)); split; reflexivity. }
  assert (FirstRevision.put_description body p1 w = (Ok (put_description body p1), w)) as Hpd.
  { unfold FirstRevision.put_description, put_description, description_is_trimmed in *.
    destruct (Body.description body) as [| |s]; [reflexivity|contradiction|].
    unfold method_trim, FirstRevision.set_description, set_description,
      mbind, io_bind, mret, io_ret. simpl.
    rewrite !Hd. reflexivity. }
  assert (status (put_description body p1) = status p /\
          expectedArrival (put_description body p1) = expectedArrival p) as [Hs2 He2]
    by (unfold put_description; destruct (defined (Body.description body)); auto).
  rewrite !bind_run, Hpd. clear Hpd.
  set (p2 := put_description body p1) in *. clearbody p2.
  unfold put_status, put_statusNote, put_expectedArrival; rewrite Hs, Hn, He.
  cbn [defined]. cbv beta iota.
  repeat io_step.
  destruct (Body.classifications body) as [| |c]; [|reflexivity|].
  all: rewrite ?bind_run, ?ret_run; cbv beta iota; rewrite ?bind_run.
  all: match goal with
       | |- context [put_mainImage ?fl ?P ?w0] =>
           destruct (put_mainImage_run fl P w0) as (w1 & _ & E); rewrite !E; clear E
       end.
  all: destruct (files ≫= f_mainImage) as [[|f l]|]; [reflexivity| |].
  all: rewrite ?bind_run.
  all: match goal with
       | |- context [put_otherPhotos ?fl ?P ?w0] =>
           destruct (put_otherPhotos_run fl P w0) as (w2 & _ & E); rewrite !E; clear E
       end.
  all: rewrite ?bind_run.
  all: rewrite FirstRevision_save_eq by
         (destruct (files ≫= f_otherPhotos); simpl; congruence).
  all: reflexivity.
Qed.

(** X23. [server.js] extends the update of the first revision: on a store
    of valid products, a PUT /products/:id whose form gives no status path
    and a description without surrounding whitespace (or none) gets from
    [server.js] the answer of the first revision with the defaults of the
    later schema on its product (a status ['available'] where none was
    stored), that product stored as answered, and the same calls to
    Cloudinary; where the product addressed is stored with a status, the
    answer and the effects are those of the first revision. *)
Theorem first_revision_update_agrees rt id body files w :
  all_valid w -> no_status_fields body -> description_is_trimmed body ->
  let '(r1, w1) := FirstRevision.PUT_products_id rt id body files w in
  PUT_products_id rt id body files w = (with_defaults r1, stored_with_defaults r1 w1) /\
  destroyed (PUT_products_id rt id body files w).2 = destroyed w1 /\
  ((forall k p, castObjectId id = Some k -> products w !! k = Some p ->
                status p <> Absent) ->
   PUT_products_id rt id body files w = (r1, w1)).
Proof.
  intros Hw Hb Hd.
  pose proof (first_revision_update_loaded rt id body files w Hw Hb Hd) as H1.
  pose proof (first_revision_update_same rt id body files w Hw Hb Hd) as H2.
  destruct (FirstRevision.PUT_products_id rt id body files w) as [r1 w1].
  split; [exact H1|]. split; [|exact H2].
  rewrite H1. unfold as_loaded, stored_with_defaults. cbn [fst snd].
  destruct (res_json r1); reflexivity.
Qed.

Lemma first_revision_update_agrees_witness :
  (let '(r1, w1) := FirstRevision.PUT_products_id sample_runtime sample_id reprice_body
                      sample_files legacy_world in
   let '(r2, w2) := PUT_products_id sample_runtime sample_id reprice_body sample_files
                      legacy_world in
   res_status r1 = 200%Z /\
   status <$> products w1 !! sample_key = Some Absent /\
   status <$> products w2 !! sample_key = Some (Val "available") /\
   (r2, w2) = (with_defaults r1, stored_with_defaults r1 w1) /\
   destroyed w2 = destroyed w1) /\
  PUT_products_id sample_runtime sample_id reprice_body sample_files sample_world
  = FirstRevision.PUT_products_id sample_runtime sample_id reprice_body sample_files
      sample_world.
Proof.
  assert (forall p, all_valid (with_products (insert sample_key p) empty_world) <->
                    invalidPaths p = []) as Hv.
  { intros p. unfold all_valid. simpl. split.
    - intros H. apply (H sample_key p). apply lookup_insert_eq.
    - intros H. apply map_Forall_insert_2; [exact H|apply map_Forall_empty]. }
  assert (no_status_fields reprice_body) as Hb by (repeat split).
  assert (description_is_trimmed reprice_body) as Hd by reflexivity.
  split.
  - pose proof (first_revision_update_agrees sample_runtime sample_id reprice_body
                  sample_files legacy_world
                  (proj2 (Hv (without_status sample_product)) eq_refl) Hb Hd) as H.
    destruct (FirstRevision.PUT_products_id sample_runtime sample_id reprice_body
                sample_files legacy_world) as [r1 w1] eqn:E1.
    destruct (PUT_products_id sample_runtime sample_id reprice_body sample_files
                legacy_world) as [r2 w2] eqn:E2.
    destruct H as (H & Hdes & _).
    vm_compute in E1. vm_compute in E2.
    injection E1 as <- <-. injection E2 as <- <-.
    split; [reflexivity|]. split; [reflexivity|]. split; [reflexivity|].
    split; [exact H|exact Hdes].
  - pose proof (first_revision_update_agrees sample_runtime sample_id reprice_body
                  sample_files sample_world
                  (proj2 (Hv sample_product) eq_refl) Hb Hd) as H.
    destruct (FirstRevision.PUT_products_id sample_runtime sample_id reprice_body
                sample_files sample_world) as [r1 w1].
    destruct H as (_ & _ & H). apply H.
    intros k p [= <-]. unfold sample_world. simpl.
    rewrite lookup_insert_eq. intros [= <-]. discriminate.
Defined.

Lemma if_truthy_falsy v : truthy v = false -> if_truthy v = None.
Proof. destruct v as [| |[|a s]]; simpl; intros H; congruence. Qed.

Lemma invalidPaths_without_status p :
  enumValidator (status p) = true -> dateCastOk (expectedArrival p) = true ->
  invalidPaths (without_status p) = invalidPaths p.
Proof. intros Hs He. unfold invalidPaths. simpl. rewrite Hs, He. reflexivity. Qed.

(** X24. [server.js] extends the creation of the first revision: for a form
    without truthy status paths and with a description that trimming leaves
    as it is, both revisions refuse with the same answer and no change, or
    both answer 201 and store the same product under the same identifier,
    [server.js] adding only the default status [available]. *)
Theorem first_revision_create_agrees rt body files w :
  truthy (Body.status body) = false ->
  truthy (Body.statusNote body) = false ->
  truthy (Body.expectedArrival body) = false ->
  trim (or_empty (Body.description body)) = or_empty (Body.description body) ->
  let '(r1, w1) := FirstRevision.POST_products_upload rt body files w in
  let '(r2, w2) := POST_products_upload rt body files w in
  (r1 = r2 /\ w1 = w /\ w2 = w /\ res_status r2 <> 201%Z) \/
  exists p,
    status p = Val "available" /\
    r2 = json 201 (ProductBody (Some "Product created successfully!") (newObjectId rt) p) /\
    r1 = json 201 (ProductBody (Some "Product created successfully!") (newObjectId rt)
                     (without_status p)) /\
    w2 = with_products (insert (newObjectId rt) p) w /\
    w1 = with_products (insert (newObjectId rt) (without_status p)) w.
Proof.
  intros Hs Hn He Hd.
  unfold FirstRevision.POST_products_upload, POST_products_upload, checkDbConnection.
  destruct (readyState w =? 1)%Z; [|left; repeat split; discriminate].
  unfold FirstRevision.create_product, create_product, try_catch.
  destruct (truthy (Body.name body)); cbn [negb orb];
    [|left; repeat split; discriminate].
  destruct (truthy (Body.price body)); cbn [negb orb];
    [|left; repeat split; discriminate].
  destruct (isNaN (parseFloat (Body.price body)));
    [left; repeat split; discriminate|].
  destruct (files ≫= f_mainImage) as [[|f l]|];
    [left; repeat split; discriminate| |left; repeat split; discriminate].
  rewrite !bind_run. cbn [first_file]. rewrite !ret_run. cbv beta iota zeta.
  rewrite !bind_run.
  set (p := new_Product rt (build_productData rt body f (default [] (files ≫= f_otherPhotos)))).
  assert (FirstRevision.new_Product rt body f (default [] (files ≫= f_otherPhotos))
          = without_status p) as ->.
  { unfold p, FirstRevision.new_Product, new_Product, build_productData, without_status.
    simpl. rewrite !Hd. reflexivity. }
  assert (status p = Val "available" /\ expectedArrival p = Absent) as [Hsp Hep].
  { unfold p, new_Product, build_productData. simpl.
    rewrite (if_truthy_falsy _ Hs), He. auto. }
  rewrite FirstRevision_save_new_eq by reflexivity.
  rewrite !save_new_run.
  rewrite invalidPaths_without_status by (rewrite ?Hsp, ?Hep; reflexivity).
  destruct (invalidPaths p); [|left; repeat split; discriminate].
  destruct (products w !! newObjectId rt); [left; repeat split; discriminate|].
  right. exists p. repeat split. exact Hsp.
Qed.

Lemma first_revision_create_agrees_witness :
  exists p,
    status p = Val "available" /\
    POST_products_upload sample_runtime
      (create_body (JString "Lamp") (JString "5") JUndefined) sample_files sample_world
    = (json 201 (ProductBody (Some "Product created successfully!")
                   (newObjectId sample_runtime) p),
       with_products (insert (newObjectId sample_runtime) p) sample_world) /\
    FirstRevision.POST_products_upload sample_runtime
      (create_body (JString "Lamp") (JString "5") JUndefined) sample_files sample_world
    = (json 201 (ProductBody (Some "Product created successfully!")
                   (newObjectId sample_runtime) (without_status p)),
       with_products (insert (newObjectId sample_runtime) (without_status p)) sample_world).
Proof.
  pose proof (first_revision_create_agrees sample_runtime
                (create_body (JString "Lamp") (JString "5") JUndefined) sample_files
                sample_world eq_refl eq_refl eq_refl eq_refl) as H.
  destruct (FirstRevision.POST_products_upload sample_runtime _ sample_files sample_world)
    as [r1 w1].
  assert (res_status (POST_products_upload sample_runtime
            (create_body (JString "Lamp") (JString "5") JUndefined) sample_files
            sample_world).1 = 201%Z) as Hok by reflexivity.
  destruct (POST_products_upload sample_runtime _ sample_files sample_world) as [r2 w2].
  destruct H as [(_ & _ & _ & Hne) | (p & Hp & -> & -> & -> & ->)].
  - exfalso. apply Hne. exact Hok.
  - exists p. repeat split. exact Hp.
Defined.

(** ** The upload filter, the error middleware and the health route *)

Lemma prefix_app s t : String.prefix s (s +:+ t) = true.
Proof.
  induction s as [|a s IH]; [destruct t; reflexivity|]. simpl.
  destruct (ascii_dec a a) as [_|Hne]; [exact IH|contradiction].
Qed.

Lemma prefix_split s t : String.prefix s t = true -> exists rest, t = s +:+ rest.
Proof.
  revert t. induction s as [|a s IH]; intros t.
  - intros _. exists t. reflexivity.
  - destruct t as [|b t]; simpl; [discriminate|].
    destruct (ascii_dec a b) as [<-|]; [|discriminate].
    intros H. destruct (IH t H) as (rest & ->). exists rest. reflexivity.
Qed.

(** X25. The upload filter accepts a file exactly when its MIME type starts
    with [image/]; the error it gives for any other file is answered by
    the error middleware with 500 and the text of the filter, not with the
    400 that the middleware keeps for multer's own errors. *)
Theorem rejected_upload_is_500 mimetype :
  (fileFilter mimetype = None <-> exists rest, mimetype = "image/" +:+ rest) /\
  (forall e, fileFilter mimetype = Some e ->
     errorHandler e = json 500 (error "Only image files are allowed!")) /\
  (forall message, errorHandler (MulterError message) = json 400 (error message)).
Proof.
  unfold fileFilter. split; [|split].
  - split.
    + destruct (String.prefix "image/" mimetype) eqn:E; [|discriminate].
      intros _. apply prefix_split. exact E.
    + intros (rest & ->). rewrite prefix_app. reflexivity.
  - intros e. destruct (String.prefix "image/" mimetype); [discriminate|].
    intros [= <-]. reflexivity.
  - reflexivity.
Qed.

(** X26. The health route and the connection check read the same flag:
    GET / says [connected] exactly when [checkDbConnection] lets a request
    through to its handler, and [disconnected] exactly when every route
    behind the check answers 503. *)
Theorem health_agrees_with_connection_check rt w :
  (h_database (GET_root rt w) = "connected" <->
   forall next, checkDbConnection next w = next w) /\
  (h_database (GET_root rt w) = "disconnected" <->
   forall next, checkDbConnection next w = (json 503 (error "Database unavailable"), w)).
Proof.
  unfold GET_root, checkDbConnection. simpl.
  destruct (readyState w =? 1)%Z; split; split; intros H;
    try (intros; reflexivity); try discriminate H.
  all: specialize (H (fun w0 => (json 200 (MessageBody ""), w0))); discriminate H.
Qed.
